(** * Aqar real-estate platform: persistence layer, validation and routes

    A shallow embedding of [server/storage.ts] (class [MongoStorage]),
    [shared/schema.ts] (the Zod insert schemas) and the route handlers
    registered by [registerRoutes], together with the part of the MongoDB
    driver and of Zod that these files call.

    Conventions.
    - A JavaScript object / BSON document is a finite map from field names
      to values ([gmap string Value]); an absent key is JavaScript's
      [undefined].
    - A JavaScript [number] is a rational in lowest terms ([Qc]).  Zod's
      [z.number()] rejects [NaN], so every number that reaches the storage
      layer is ordered; the two infinities are not represented.
      Arithmetic on numbers rounds as IEEE 754 binary64 does
      ([Number.round]).
    - A JavaScript string is the sequence of bytes of its UTF-8 encoding,
      as a string literal of this file is; its [length] counts UTF-16
      code units ([JsString.length]).
    - [new Date()], the driver-generated [ObjectId] and [Math.random()] are
      explicit arguments of the operation that draws them.
    - A rejected promise / thrown exception is the [Throw] branch of
      [Result].
    - The driver is the one the storage layer is written against:
      [findOneAndUpdate] resolves to the document itself, and
      [new ObjectId(s)] accepts exactly the 24-digit hexadecimal strings.
      Zod is version 3 ([error.errors], defaults not applied under
      [.partial()]). *)

From stdpp Require Import gmap strings list fin_maps pretty numbers.
From Stdlib Require Import Ascii QArith Qcanon Qround Qpower Lqa.
From Stdlib Require Import Sorting.Sorted Permutation.
#[local] Set Warnings "-register-all".
Close Scope Q_scope.
Close Scope Qc_scope.
Open Scope string_scope.
Open Scope list_scope.

(* ===================================================================== *)
(** ** JavaScript / BSON values                                          *)
(* ===================================================================== *)

(** One hexadecimal digit of an ObjectId. *)
Inductive Hex :=
| h0 | h1 | h2 | h3 | h4 | h5 | h6 | h7
| h8 | h9 | ha | hb | hc | hd | he | hf.

#[global] Instance Hex_eq_dec : EqDecision Hex.
Proof. solve_decision. Defined.

(** An ObjectId is 12 bytes, kept here as its 24 hexadecimal digits. *)
Abbreviation ObjectId := (list Hex).

Inductive Value :=
| VNull
| VBool (b : bool)
| VNum (n : Qc)
| VStr (s : string)
| VDate (ms : Z)
| VOid (o : ObjectId)
| VArr (items : list Value).

Abbreviation Document := (gmap string Value).

(** Equality of two BSON values. *)
Fixpoint Value_eqb (a b : Value) : bool :=
  match a, b with
  | VNull, VNull => true
  | VBool x, VBool y => eqb x y
  | VNum x, VNum y => bool_decide (x = y)
  | VStr x, VStr y => bool_decide (x = y)
  | VDate x, VDate y => (x =? y)%Z
  | VOid x, VOid y => bool_decide (x = y)
  | VArr xs, VArr ys =>
      (fix go (xs ys : list Value) : bool :=
         match xs, ys with
         | [], [] => true
         | x :: xs', y :: ys' => Value_eqb x y && go xs' ys'
         | _, _ => false
         end) xs ys
  | _, _ => false
  end.

Definition field_eqb (a b : option Value) : bool :=
  match a, b with
  | None, None => true
  | Some x, Some y => Value_eqb x y
  | _, _ => false
  end.

(** JavaScript truthiness of a possibly-absent value ([if (x) ...]). *)
Definition truthy (v : option Value) : bool :=
  match v with
  | None | Some VNull => false
  | Some (VBool b) => b
  | Some (VNum n) => negb (bool_decide (n = 0%Qc))
  | Some (VStr s) => negb (bool_decide (s = ""))
  | Some (VDate _) | Some (VOid _) | Some (VArr _) => true
  end.

(* ===================================================================== *)
(** ** Strings and numbers                                               *)
(* ===================================================================== *)

Module JsString.

(** A byte that opens a character: the UTF-16 code units the character
    takes and the continuation bytes that follow.  Characters beyond the
    basic plane (four bytes) take a surrogate pair; a byte that cannot
    open a character decodes to U+FFFD. *)
Definition leading (b : N) : nat * nat :=
  if (b <? 128)%N then (1, 0)%nat
  else if ((194 <=? b) && (b <=? 223))%N then (1, 1)%nat
  else if ((224 <=? b) && (b <=? 239))%N then (1, 2)%nat
  else if ((240 <=? b) && (b <=? 244))%N then (2, 3)%nat
  else (1, 0)%nat.

Definition continuation (b : N) : bool := ((128 <=? b) && (b <=? 191))%N.

(** Code units of the rest of a string, [pending] continuation bytes of
    the current character still being due. *)
Fixpoint units (pending : nat) (s : string) : nat :=
  match s with
  | EmptyString => 0
  | String c rest =>
      let b := N_of_ascii c in
      match pending with
      | S p =>
          if continuation b then units p rest
          else (leading b).1 + units (leading b).2 rest
      | O => (leading b).1 + units (leading b).2 rest
      end
  end.

(** [s.length] *)
Definition length (s : string) : nat := units 0 s.

End JsString.

Module Number.

(** Nearest integer, ties to the even one. *)
Definition roundToInteger (q : Q) : Z :=
  let f := Qfloor q in
  match (q - inject_Z f ?= 1 # 2)%Q with
  | Lt => f
  | Gt => (f + 1)%Z
  | Eq => if Z.even f then f else (f + 1)%Z
  end.

(** [floor (log2 q)] for a positive [q]. *)
Definition floorLog2 (q : Q) : Z :=
  let k := (Z.log2 (Qnum q) - Z.log2 (Z.pos (Qden q)))%Z in
  if Qle_bool (2 ^ k)%Q q then k else (k - 1)%Z.

(** Exponent of the last place of the doubles around [q]: 53 significant
    bits, and never below the subnormal spacing 2^-1074. *)
Definition ulpExponent (q : Q) : Z := Z.max (floorLog2 q - 52) (-1074).

Definition roundPositive (q : Q) : Q :=
  let e := ulpExponent q in
  (inject_Z (roundToInteger (q / 2 ^ e)) * 2 ^ e)%Q.

(** The double nearest to [q], ties to even: what every arithmetic
    operation on numbers returns for the exact result [q].  (Overflow to
    an infinity, from 2^1024 on, is not represented.) *)
Definition round (q : Q) : Q :=
  match (q ?= 0)%Q with
  | Eq => 0%Q
  | Gt => roundPositive q
  | Lt => (- roundPositive (- q))%Q
  end.

(** The rationals that are doubles. *)
Definition isDouble (q : Qc) : Prop := (round q == q)%Q.

(** [a + b] and [a * b] *)
Definition add (a b : Qc) : Qc := Q2Qc (round (a + b)%Qc).
Definition mul (a b : Qc) : Qc := Q2Qc (round (a * b)%Qc).

(** [Math.floor(a)] *)
Definition floor (a : Qc) : Z := Qfloor a.

End Number.

(* ===================================================================== *)
(** ** Exceptions                                                        *)
(* ===================================================================== *)

Inductive Error :=
| DatabaseNotInitialized   (* new Error("Database not initialized") *)
| BSONError                (* new ObjectId(id) on a malformed id *)
| DuplicateKey             (* MongoServerError E11000 *)
| ImmutableField.          (* $set on _id with a different value *)

Inductive Result (A : Type) :=
| Ok (a : A)
| Throw (e : Error).
Arguments Ok {A} a.
Arguments Throw {A} e.

#[global] Instance Result_ret : MRet Result := fun _ a => Ok a.
#[global] Instance Result_bind : MBind Result := fun _ _ f r =>
  match r with
  | Ok a => f a
  | Throw e => Throw e
  end.

(* ===================================================================== *)
(** ** bson: ObjectId                                                    *)
(* ===================================================================== *)

Module Bson.

Definition hexOfAscii (c : ascii) : option Hex :=
  match c with
  | "0" => Some h0 | "1" => Some h1 | "2" => Some h2 | "3" => Some h3
  | "4" => Some h4 | "5" => Some h5 | "6" => Some h6 | "7" => Some h7
  | "8" => Some h8 | "9" => Some h9
  | "a" | "A" => Some ha | "b" | "B" => Some hb | "c" | "C" => Some hc
  | "d" | "D" => Some hd | "e" | "E" => Some he | "f" | "F" => Some hf
  | _ => None
  end%char.

Definition asciiOfHex (h : Hex) : ascii :=
  match h with
  | h0 => "0" | h1 => "1" | h2 => "2" | h3 => "3"
  | h4 => "4" | h5 => "5" | h6 => "6" | h7 => "7"
  | h8 => "8" | h9 => "9" | ha => "a" | hb => "b"
  | hc => "c" | hd => "d" | he => "e" | hf => "f"
  end%char.

Fixpoint fromHex (s : string) : option ObjectId :=
  match s with
  | EmptyString => Some []
  | String c rest =>
      h ← hexOfAscii c;
      t ← fromHex rest;
      Some (h :: t)
  end.

(** [new ObjectId(id)] for a string argument: the id must be 24
    hexadecimal characters, otherwise the constructor throws. *)
Definition newObjectId (id : string) : Result ObjectId :=
  if (String.length id =? 24)%nat then
    match fromHex id with
    | Some o => Ok o
    | None => Throw BSONError
    end
  else Throw BSONError.

(** [oid.toString()]: the 24 lower-case hexadecimal digits. *)
Fixpoint toHexString (o : ObjectId) : string :=
  match o with
  | [] => EmptyString
  | h :: t => String (asciiOfHex h) (toHexString t)
  end.

End Bson.

(* ===================================================================== *)
(** ** mongodb: the collection operations the storage layer calls        *)
(* ===================================================================== *)

(** A collection is the list of its documents in insertion order.  The
    fields this program queries are scalars ([interface Property]) and no
    query compares with [null], so the array and null branches of the
    server's matching rules are left out. *)
Module Mongo.

(** One entry of a query document: [{ field: v }] or
    [{ field: { $gte: a, $lte: b } }] with either bound optional. *)
Inductive Condition :=
| CEq (v : Value)
| CRange (gte lte : option Qc).

Abbreviation Query := (list (string * Condition)).

Definition inRange (gte lte : option Qc) (n : Qc) : bool :=
  match gte with Some a => bool_decide (a ≤ n)%Qc | None => true end
  && match lte with Some b => bool_decide (n ≤ b)%Qc | None => true end.

Definition holds (c : Condition) (field : option Value) : bool :=
  match c, field with
  | CEq v, Some w => Value_eqb w v
  | CRange gte lte, Some (VNum n) => inRange gte lte n
  | _, _ => false
  end.

Definition matches (q : Query) (d : Document) : bool :=
  forallb (fun kc => holds (snd kc) (d !! fst kc)) q.

(** [collection.find(q)] *)
Definition find (q : Query) (coll : list Document) : list Document :=
  List.filter (matches q) coll.

(** [collection.findOne(q)] *)
Definition findOne (q : Query) (coll : list Document) : option Document :=
  List.find (matches q) coll.

(** Sort key of [.sort({ createdAt: -1 })]: a document without a Date in
    [createdAt] orders below every date. *)
Definition createdAt (d : Document) : option Z :=
  match d !! "createdAt" with
  | Some (VDate ms) => Some ms
  | _ => None
  end.

(** [newer a b]: key [a] is strictly later than key [b]. *)
Definition newer (a b : option Z) : bool :=
  match a, b with
  | Some x, Some y => (y <? x)%Z
  | Some _, None => true
  | None, _ => false
  end.

Fixpoint insertDesc (d : Document) (l : list Document) : list Document :=
  match l with
  | [] => [d]
  | x :: xs =>
      if newer (createdAt x) (createdAt d) then x :: insertDesc d xs
      else d :: x :: xs
  end.

(** [cursor.sort({ createdAt: -1 })].  Documents with equal keys keep
    their relative order here; the server does not fix that order. *)
Definition sortByCreatedAtDesc (l : list Document) : list Document :=
  foldr insertDesc [] l.

(** A unique index refuses a document whose indexed field equals that of
    another document (a missing field counts as a value). *)
Definition violatesUnique (unique : list string) (d : Document)
    (others : list Document) : bool :=
  existsb (fun o => existsb (fun k => field_eqb (o !! k) (d !! k)) unique)
          others.

(** [collection.insertOne(doc)]: the driver assigns the generated
    ObjectId [oid] when [doc._id == null]; the result is [insertedId] and
    the new collection. *)
Definition insertOne (unique : list string) (oid : ObjectId) (d : Document)
    (coll : list Document) : Result (Value * list Document) :=
  let id := match d !! "_id" with
            | None | Some VNull => VOid oid
            | Some v => v
            end in
  let d' := <["_id" := id]> d in
  if violatesUnique ("_id" :: unique) d' coll then Throw DuplicateKey
  else Ok (id, coll ++ [d']).

(** [insertedId.toString()].  The driver generates ObjectIds and the
    Insert types carry no [_id], so other kinds of id do not arise; their
    string form is not given. *)
Definition idToString (id : Value) : string :=
  match id with
  | VOid o => Bson.toHexString o
  | VStr s => s
  | _ => ""
  end.

(** First document satisfying [p], with what precedes and follows it. *)
Fixpoint splitFirst (p : Document → bool) (coll : list Document)
    : option (list Document * Document * list Document) :=
  match coll with
  | [] => None
  | d :: rest =>
      if p d then Some ([], d, rest)
      else match splitFirst p rest with
           | Some (pre, x, post) => Some (d :: pre, x, post)
           | None => None
           end
  end.

(** [{ $set: upd }] applied to [d]: fields of [upd] win, the rest of [d]
    stays. *)
Definition applySet (upd d : Document) : Document := upd ∪ d.

(** The update changes nothing: every field of [upd] is already there
    with an equal value. *)
Definition isNoop (upd d : Document) : bool :=
  forallb (fun kv => field_eqb (d !! fst kv) (Some (snd kv)))
          (map_to_list upd).

Record UpdateResult := { matchedCount : nat; modifiedCount : nat }.

(** [collection.updateOne(q, { $set: upd })]; the second component is the
    matched document after the update ([findOneAndUpdate] with
    [returnDocument: 'after'] returns it). *)
Definition updateOne (unique : list string) (q : Query) (upd : Document)
    (coll : list Document)
    : Result (UpdateResult * option Document * list Document) :=
  match splitFirst (matches q) coll with
  | None => Ok ({| matchedCount := 0; modifiedCount := 0 |}, None, coll)
  | Some (pre, d, post) =>
      if isNoop upd d then
        Ok ({| matchedCount := 1; modifiedCount := 0 |}, Some d, coll)
      else
        let d' := applySet upd d in
        if negb (field_eqb (d' !! "_id") (d !! "_id")) then
          Throw ImmutableField
        else if violatesUnique unique d' (pre ++ post) then
          Throw DuplicateKey
        else
          Ok ({| matchedCount := 1; modifiedCount := 1 |}, Some d',
              pre ++ d' :: post)
  end.

Definition byId (o : ObjectId) : Query := [("_id", CEq (VOid o))].

End Mongo.

(* ===================================================================== *)
(** ** server/storage.ts                                                 *)
(* ===================================================================== *)

(** [PropertySearch] of shared/schema.ts: every field optional. *)
Record PropertySearch := {
  city : option string;
  area : option string;
  neighborhood : option string;
  type : option string;
  minPrice : option Qc;
  maxPrice : option Qc;
  minSize : option Qc;
  maxSize : option Qc;
  bedrooms : option Qc;
  isRental : option bool;
}.

(** The collection handles of [MongoStorage]; [None] is [null], the state
    before [initialize()]. *)
Record MongoStorage := {
  usersCollection : option (list Document);
  propertiesCollection : option (list Document);
  contactMessagesCollection : option (list Document);
  testimonialsCollection : option (list Document);
}.

(** The unique indexes [initialize()] creates besides [_id]. *)
Definition usersIndexes : list string := ["username"; "email"].
Definition propertiesIndexes : list string := ["propertyCode"].

(** [if (!this.xCollection) throw new Error("Database not initialized")] *)
Definition handle (c : option (list Document)) : Result (list Document) :=
  match c with
  | Some coll => Ok coll
  | None => Throw DatabaseNotInitialized
  end.

Definition setProperties (this : MongoStorage) (c : list Document) :=
  {| usersCollection := usersCollection this;
     propertiesCollection := Some c;
     contactMessagesCollection := contactMessagesCollection this;
     testimonialsCollection := testimonialsCollection this |}.

Definition setContactMessages (this : MongoStorage) (c : list Document) :=
  {| usersCollection := usersCollection this;
     propertiesCollection := propertiesCollection this;
     contactMessagesCollection := Some c;
     testimonialsCollection := testimonialsCollection this |}.

Definition setTestimonials (this : MongoStorage) (c : list Document) :=
  {| usersCollection := usersCollection this;
     propertiesCollection := propertiesCollection this;
     contactMessagesCollection := contactMessagesCollection this;
     testimonialsCollection := Some c |}.

Definition getAllProperties (this : MongoStorage)
    : Result (list Document) :=
  coll ← handle (propertiesCollection this);
  mret (Mongo.sortByCreatedAtDesc (Mongo.find [] coll)).

Definition getProperty (this : MongoStorage) (id : string)
    : Result (option Document) :=
  coll ← handle (propertiesCollection this);
  o ← Bson.newObjectId id;
  mret (Mongo.findOne (Mongo.byId o) coll).

Definition getPropertyByCode (this : MongoStorage) (code : string)
    : Result (option Document) :=
  coll ← handle (propertiesCollection this);
  mret (Mongo.findOne [("propertyCode", Mongo.CEq (VStr code))] coll).

Definition createProperty (now : Z) (oid : ObjectId)
    (insertProperty : Document) (this : MongoStorage)
    : Result (Document * MongoStorage) :=
  coll ← handle (propertiesCollection this);
  let property := <["createdAt" := VDate now]> insertProperty in
  r ← Mongo.insertOne propertiesIndexes oid property coll;
  mret (<["_id" := VStr (Mongo.idToString r.1)]> property,
        setProperties this r.2).

Definition updateProperty (id : string) (updateData : Document)
    (this : MongoStorage) : Result (option Document * MongoStorage) :=
  coll ← handle (propertiesCollection this);
  o ← Bson.newObjectId id;
  r ← Mongo.updateOne propertiesIndexes (Mongo.byId o) updateData coll;
  mret (r.1.2, setProperties this r.2).

(** [if (search.k) filter.k = search.k] for a string field. *)
Definition eqIfTruthy (k : string) (v : option string) : Mongo.Query :=
  match v with
  | Some s => if truthy (Some (VStr s)) then [(k, Mongo.CEq (VStr s))] else []
  | None => []
  end.

(** [if (lo !== undefined || hi !== undefined) { filter.k = {}; ... }] *)
Definition rangeIfDefined (k : string) (lo hi : option Qc) : Mongo.Query :=
  match lo, hi with
  | None, None => []
  | _, _ => [(k, Mongo.CRange lo hi)]
  end.

(** The query document [searchProperties] builds, field by field. *)
Definition searchFilter (search : PropertySearch) : Mongo.Query :=
  eqIfTruthy "city" (city search)
  ++ eqIfTruthy "area" (area search)
  ++ eqIfTruthy "neighborhood" (neighborhood search)
  ++ eqIfTruthy "type" (type search)
  ++ match isRental search with
     | Some b => [("isRental", Mongo.CEq (VBool b))]
     | None => []
     end
  ++ rangeIfDefined "price" (minPrice search) (maxPrice search)
  ++ rangeIfDefined "size" (minSize search) (maxSize search)
  ++ match bedrooms search with
     | Some n =>
         if truthy (Some (VNum n))
         then [("bedrooms", Mongo.CRange (Some n) None)] else []
     | None => []
     end.

Definition searchProperties (this : MongoStorage) (search : PropertySearch)
    : Result (list Document) :=
  coll ← handle (propertiesCollection this);
  mret (Mongo.sortByCreatedAtDesc (Mongo.find (searchFilter search) coll)).

Definition createContactMessage (now : Z) (oid : ObjectId)
    (message : Document) (this : MongoStorage)
    : Result (Document * MongoStorage) :=
  coll ← handle (contactMessagesCollection this);
  let contactMessage :=
    <["isRead" := VBool false]> (<["createdAt" := VDate now]> message) in
  r ← Mongo.insertOne [] oid contactMessage coll;
  mret (<["_id" := VStr (Mongo.idToString r.1)]> contactMessage,
        setContactMessages this r.2).

Definition markContactMessageAsRead (id : string) (this : MongoStorage)
    : Result (bool * MongoStorage) :=
  coll ← handle (contactMessagesCollection this);
  o ← Bson.newObjectId id;
  r ← Mongo.updateOne [] (Mongo.byId o) {["isRead" := VBool true]} coll;
  mret (bool_decide (0 < Mongo.modifiedCount r.1.1),
        setContactMessages this r.2).

Definition createTestimonial (now : Z) (oid : ObjectId)
    (testimonial : Document) (this : MongoStorage)
    : Result (Document * MongoStorage) :=
  coll ← handle (testimonialsCollection this);
  let newTestimonial :=
    <["isApproved" := VBool false]>
      (<["createdAt" := VDate now]> testimonial) in
  r ← Mongo.insertOne [] oid newTestimonial coll;
  mret (<["_id" := VStr (Mongo.idToString r.1)]> newTestimonial,
        setTestimonials this r.2).

Definition getApprovedTestimonials (this : MongoStorage)
    : Result (list Document) :=
  coll ← handle (testimonialsCollection this);
  mret (Mongo.find [("isApproved", Mongo.CEq (VBool true))] coll).

Definition getAllTestimonials (this : MongoStorage)
    : Result (list Document) :=
  coll ← handle (testimonialsCollection this);
  mret (Mongo.sortByCreatedAtDesc (Mongo.find [] coll)).

Definition approveTestimonial (id : string) (this : MongoStorage)
    : Result (bool * MongoStorage) :=
  coll ← handle (testimonialsCollection this);
  o ← Bson.newObjectId id;
  r ← Mongo.updateOne [] (Mongo.byId o) {["isApproved" := VBool true]} coll;
  mret (bool_decide (0 < Mongo.modifiedCount r.1.1),
        setTestimonials this r.2).

(* ===================================================================== *)
(** ** zod: the schema combinators of shared/schema.ts                   *)
(* ===================================================================== *)

Module Zod.

Inductive StringCheck :=
| min_length (n : nat) (message : string)    (* .min(n, message) *)
| email (message : string).                  (* .email(message) *)

Inductive ZodType :=
| z_string (checks : list StringCheck)
| z_number (min : option (Qc * string))       (* .min(q, message) *)
| z_boolean
| z_array (element : ZodType) (min : option (nat * string))
| z_optional (inner : ZodType)
| z_default (inner : ZodType) (def : Value).

(** Outcome of parsing one value: the normalized value ([None] is
    [undefined]) or the messages of the issues raised, in order. *)
Inductive ParseReturn :=
| Valid (out : option Value)
| Invalid (issues : list string).

(** Zod's name for the type of a value it received. *)
Definition parsedType (v : Value) : string :=
  match v with
  | VNull => "null"
  | VBool _ => "boolean"
  | VNum _ => "number"
  | VStr _ => "string"
  | VDate _ => "date"
  | VOid _ => "object"
  | VArr _ => "array"
  end.

Definition invalidType (expected : string) (v : Value) : ParseReturn :=
  Invalid [String.append "Expected "
             (String.append expected
                (String.append ", received " (parsedType v)))].

Definition issuesOrValid (issues : list string) (v : Value) : ParseReturn :=
  match issues with
  | [] => Valid (Some v)
  | _ => Invalid issues
  end.

Section Parse.

(** The regular expression behind [.email()]; only the user schema uses
    it. *)
Variable emailRegex : string → bool.

Definition stringIssues (checks : list StringCheck) (s : string)
    : list string :=
  flat_map (fun c =>
    match c with
    | min_length n message =>
        if (JsString.length s <? n)%nat then [message] else []
    | email message => if emailRegex s then [] else [message]
    end) checks.

Fixpoint parse (t : ZodType) (input : option Value) : ParseReturn :=
  match t with
  | z_optional inner =>
      match input with
      | None => Valid None
      | Some _ => parse inner input
      end
  | z_default inner def =>
      match input with
      | None => parse inner (Some def)
      | Some _ => parse inner input
      end
  | z_string checks =>
      match input with
      | None => Invalid ["Required"]
      | Some (VStr s) => issuesOrValid (stringIssues checks s) (VStr s)
      | Some v => invalidType "string" v
      end
  | z_number min =>
      match input with
      | None => Invalid ["Required"]
      | Some (VNum n) =>
          issuesOrValid
            match min with
            | Some (q, message) =>
                if bool_decide (q ≤ n)%Qc then [] else [message]
            | None => []
            end (VNum n)
      | Some v => invalidType "number" v
      end
  | z_boolean =>
      match input with
      | None => Invalid ["Required"]
      | Some (VBool b) => Valid (Some (VBool b))
      | Some v => invalidType "boolean" v
      end
  | z_array element min =>
      match input with
      | None => Invalid ["Required"]
      | Some (VArr items) =>
          let tooSmall :=
            match min with
            | Some (n, message) =>
                if (length items <? n)%nat then [message] else []
            | None => []
            end in
          let parsed := map (fun v => parse element (Some v)) items in
          let issues :=
            tooSmall ++ flat_map (fun r =>
              match r with
              | Invalid msgs => msgs
              | Valid _ => []
              end) parsed in
          issuesOrValid issues
            (VArr (flat_map (fun r =>
               match r with
               | Valid (Some v) => [v]
               | _ => []
               end) parsed))
      | Some v => invalidType "array" v
      end
  end.

(** [z.object(shape)]: fields are parsed in the order of the shape, the
    issues of all fields are collected, unknown keys are dropped. *)
Fixpoint parseShape (shape : list (string * ZodType)) (data : Document)
    : list string * Document :=
  match shape with
  | [] => ([], ∅)
  | (k, t) :: rest =>
      let r := parseShape rest data in
      match parse t (data !! k) with
      | Valid (Some v) => (r.1, <[k := v]> r.2)
      | Valid None => r
      | Invalid issues => (issues ++ r.1, r.2)
      end
  end.

(** [schema.parse(data)] either returns the normalized object or throws
    a [ZodError] carrying the issues. *)
Inductive Parsed :=
| Success (data : Document)
| ZodError (errors : list string).

Definition object_parse (shape : list (string * ZodType))
    (data : Document) : Parsed :=
  match parseShape shape data with
  | ([], out) => Success out
  | (issues, _) => ZodError issues
  end.

End Parse.

(** [schema.partial()]: every field becomes optional. *)
Definition partial (shape : list (string * ZodType))
    : list (string * ZodType) :=
  map (fun kt => (fst kt, z_optional (snd kt))) shape.

End Zod.

(* ===================================================================== *)
(** ** shared/schema.ts                                                  *)
(* ===================================================================== *)

Import Zod.

Definition insertPropertySchema : list (string * ZodType) :=
  [ ("title", z_string [min_length 1 "العنوان مطلوب"]);
    ("description", z_string [min_length 1 "الوصف مطلوب"]);
    ("type", z_string [min_length 1 "نوع العقار مطلوب"]);
    ("price", z_number (Some (0%Qc, "السعر يجب أن يكون رقم موجب")));
    ("currency", z_default (z_string []) (VStr "SAR"));
    ("isRental", z_default z_boolean (VBool false));
    ("rentalPeriod", z_optional (z_string []));
    ("city", z_string [min_length 1 "المدينة مطلوبة"]);
    ("area", z_optional (z_string []));
    ("neighborhood", z_string [min_length 1 "الحي مطلوب"]);
    ("address", z_string [min_length 1 "العنوان مطلوب"]);
    ("bedrooms", z_optional (z_number None));
    ("bathrooms", z_optional (z_number None));
    ("size", z_number (Some (0%Qc, "المساحة مطلوبة")));
    ("features", z_optional (z_array (z_string []) None));
    ("images", z_array (z_string [])
                 (Some (1%nat, "صورة واحدة على الأقل مطلوبة")));
    ("status", z_default (z_string []) (VStr "available"));
    ("propertyCode", z_string []);
    ("latitude", z_optional (z_number None));
    ("longitude", z_optional (z_number None)) ].

Definition insertUserSchema : list (string * ZodType) :=
  [ ("username",
     z_string [min_length 3 "اسم المستخدم يجب أن يكون 3 أحرف على الأقل"]);
    ("password",
     z_string [min_length 6 "كلمة المرور يجب أن تكون 6 أحرف على الأقل"]);
    ("name", z_string [min_length 1 "الاسم مطلوب"]);
    ("role", z_default (z_string []) (VStr "user"));
    ("email", z_string [email "البريد الإلكتروني غير صحيح"]);
    ("phone", z_optional (z_string [])) ].

(* ===================================================================== *)
(** ** Route handlers ([registerRoutes])                                 *)
(* ===================================================================== *)

(** The handlers below are the bodies that run once the [isAdmin]
    middleware has called [next()]; [log] calls are dropped.  A request
    body is the JSON object [req.body]. *)

Inductive Json :=
| JMessage (message : string)
| JDoc (d : Document).

Record Response := { status : nat; json : Json }.

Definition respond (code : nat) (body : Json) : Response :=
  {| status := code; json := body |}.

(** [errors[0].message] *)
Definition firstMessage (errors : list string) : string :=
  match errors with
  | m :: _ => m
  | [] => ""
  end.

(** [`SA-${Math.floor(10000 + Math.random() * 90000)}`]; [random] is the
    double that [Math.random()] returns. *)
Definition generatePropertyCode (random : Qc) : string :=
  String.append "SA-"
    (pretty (Number.floor
               (Number.add (Q2Qc 10000)
                  (Number.mul random (Q2Qc 90000))))).

Section Routes.

(** Zod's e-mail pattern, which [parse] needs whatever the schema. *)
Variable emailRegex : string → bool.

(** GET /api/properties/:id *)
Definition GET_api_properties_id (id : string) (storage : MongoStorage)
    : Response :=
  match getProperty storage id with
  | Ok None => respond 404 (JMessage "العقار غير موجود")
  | Ok (Some property) => respond 200 (JDoc property)
  | Throw _ => respond 500 (JMessage "حدث خطأ أثناء جلب تفاصيل العقار")
  end.

(** POST /api/properties *)
Definition POST_api_properties (random : Qc) (now : Z) (oid : ObjectId)
    (body : Document) (storage : MongoStorage) : Response * MongoStorage :=
  match object_parse emailRegex insertPropertySchema body with
  | ZodError errors => (respond 400 (JMessage (firstMessage errors)), storage)
  | Success parsed =>
      let propertyData :=
        if negb (truthy (parsed !! "propertyCode"))
        then <["propertyCode" := VStr (generatePropertyCode random)]> parsed
        else parsed in
      match createProperty now oid propertyData storage with
      | Ok (property, storage') => (respond 201 (JDoc property), storage')
      | Throw _ =>
          (respond 500 (JMessage "حدث خطأ أثناء إنشاء العقار"), storage)
      end
  end.

(** PUT /api/properties/:id *)
Definition PUT_api_properties_id (id : string) (body : Document)
    (storage : MongoStorage) : Response * MongoStorage :=
  match object_parse emailRegex (partial insertPropertySchema) body with
  | ZodError errors => (respond 400 (JMessage (firstMessage errors)), storage)
  | Success propertyData =>
      match updateProperty id propertyData storage with
      | Ok (None, storage') =>
          (respond 404 (JMessage "العقار غير موجود"), storage')
      | Ok (Some updated, storage') => (respond 200 (JDoc updated), storage')
      | Throw _ =>
          (respond 500 (JMessage "حدث خطأ أثناء تحديث العقار"), storage)
      end
  end.

(** POST /api/contact/:id/read *)
Definition POST_api_contact_id_read (id : string) (storage : MongoStorage)
    : Response * MongoStorage :=
  match markContactMessageAsRead id storage with
  | Ok (false, storage') =>
      (respond 404 (JMessage "الرسالة غير موجودة"), storage')
  | Ok (true, storage') =>
      (respond 200 (JMessage "تم تحديث حالة الرسالة بنجاح"), storage')
  | Throw _ =>
      (respond 500 (JMessage "حدث خطأ أثناء تحديث حالة الرسالة"), storage)
  end.

(** POST /api/admin/testimonials/:id/approve *)
Definition POST_api_admin_testimonials_id_approve (id : string)
    (storage : MongoStorage) : Response * MongoStorage :=
  match approveTestimonial id storage with
  | Ok (false, storage') =>
      (respond 404 (JMessage "التقييم غير موجود"), storage')
  | Ok (true, storage') =>
      (respond 200 (JMessage "تم اعتماد التقييم بنجاح"), storage')
  | Throw _ =>
      (respond 500 (JMessage "حدث خطأ أثناء اعتماد التقييم"), storage)
  end.

End Routes.


(* ===================================================================== *)
(** ** mongodb: further collection operations                            *)
(* ===================================================================== *)

Module Driver.

(** [collection.deleteOne(q)]: removes the first document that matches;
    the result is [deletedCount] and the new collection. *)
Definition deleteOne (q : Mongo.Query) (coll : list Document)
    : nat * list Document :=
  match Mongo.splitFirst (Mongo.matches q) coll with
  | Some (pre, _, post) => (1%nat, pre ++ post)
  | None => (0%nat, coll)
  end.

(** [cursor.limit(n)] for a non-negative integer [n]; a limit of 0 is no
    limit. *)
Definition limit (n : nat) (l : list Document) : list Document :=
  match n with
  | O => l
  | S _ => firstn n l
  end.

(** [collection.countDocuments()] *)
Definition countDocuments (coll : list Document) : nat := length coll.

(** Two documents of the collection hold the same value under [k]. *)
Fixpoint hasDuplicate (k : string) (coll : list Document) : bool :=
  match coll with
  | [] => false
  | d :: rest =>
      existsb (fun o => field_eqb (o !! k) (d !! k)) rest
      || hasDuplicate k rest
  end.

(** [collection.createIndex({ k: 1 }, { unique: true })]: building the
    index fails when the documents already there collide. *)
Definition createUniqueIndex (k : string) (coll : list Document)
    : Result unit :=
  if hasDuplicate k coll then Throw DuplicateKey else Ok tt.

End Driver.

(* ===================================================================== *)
(** ** server/storage.ts, continued                                      *)
(* ===================================================================== *)

Definition setUsers (this : MongoStorage) (c : list Document) :=
  {| usersCollection := Some c;
     propertiesCollection := propertiesCollection this;
     contactMessagesCollection := contactMessagesCollection this;
     testimonialsCollection := testimonialsCollection this |}.

Definition getUser (this : MongoStorage) (id : string)
    : Result (option Document) :=
  coll ← handle (usersCollection this);
  o ← Bson.newObjectId id;
  mret (Mongo.findOne (Mongo.byId o) coll).

Definition getUserByUsername (this : MongoStorage) (username : string)
    : Result (option Document) :=
  coll ← handle (usersCollection this);
  mret (Mongo.findOne [("username", Mongo.CEq (VStr username))] coll).

Definition createUser (now : Z) (oid : ObjectId) (insertUser : Document)
    (this : MongoStorage) : Result (Document * MongoStorage) :=
  coll ← handle (usersCollection this);
  let user := <["createdAt" := VDate now]> insertUser in
  r ← Mongo.insertOne usersIndexes oid user coll;
  mret (<["_id" := VStr (Mongo.idToString r.1)]> user, setUsers this r.2).

Definition deleteProperty (id : string) (this : MongoStorage)
    : Result (bool * MongoStorage) :=
  coll ← handle (propertiesCollection this);
  o ← Bson.newObjectId id;
  let r := Driver.deleteOne (Mongo.byId o) coll in
  mret (bool_decide (0 < r.1), setProperties this r.2).

(** [getFeaturedProperties(limit = 6)]; [None] is an omitted argument. *)
Definition getFeaturedProperties (limit : option nat) (this : MongoStorage)
    : Result (list Document) :=
  coll ← handle (propertiesCollection this);
  mret (Driver.limit (default 6%nat limit)
          (Mongo.sortByCreatedAtDesc
             (Mongo.find [("status", Mongo.CEq (VStr "available"))] coll))).

Definition getAllContactMessages (this : MongoStorage)
    : Result (list Document) :=
  coll ← handle (contactMessagesCollection this);
  mret (Mongo.sortByCreatedAtDesc (Mongo.find [] coll)).

Definition getContactMessage (this : MongoStorage) (id : string)
    : Result (option Document) :=
  coll ← handle (contactMessagesCollection this);
  o ← Bson.newObjectId id;
  mret (Mongo.findOne (Mongo.byId o) coll).

(** *** Seeding *)

(** What one creation draws: the clock and the generated ObjectId. *)
Record Draw := { at_ : Z; oid_ : ObjectId }.

Definition seedAdmin : Document :=
  list_to_map
    [ ("username", VStr "aqarpanel"); ("password", VStr "Mm345");
      ("name", VStr "مدير النظام"); ("role", VStr "admin");
      ("email", VStr "admin@altakhim.com"); ("phone", VStr "+966500000000") ].

Definition seedProperties : list Document :=
  [ list_to_map
      [ ("title", VStr "فيلا فاخرة مع مسبح");
        ("description",
         VStr "فيلا فخمة تتميز بتصميم عصري وإطلالة رائعة على المدينة. تحتوي على مسبح خاص وحديقة واسعة.");
        ("type", VStr "villa"); ("price", VNum (Q2Qc 2800000));
        ("currency", VStr "SAR"); ("isRental", VBool false);
        ("city", VStr "الرياض"); ("area", VStr "شمال الرياض");
        ("neighborhood", VStr "حي الملقا");
        ("address", VStr "شارع العليا، حي الملقا، الرياض");
        ("bedrooms", VNum (Q2Qc 5)); ("bathrooms", VNum (Q2Qc 4));
        ("size", VNum (Q2Qc 450));
        ("features",
         VArr [VStr "مسبح"; VStr "حديقة"; VStr "مطبخ مفتوح";
               VStr "موقف سيارات"; VStr "غرفة خادمة"]);
        ("images",
         VArr [VStr "https://images.unsplash.com/photo-1600585154340-be6161a56a0c?ixlib=rb-1.2.1&auto=format&fit=crop&w=600&h=400&q=80"]);
        ("status", VStr "available"); ("propertyCode", VStr "SA-12345") ];
    list_to_map
      [ ("title", VStr "شقة فاخرة بإطلالة بحرية");
        ("description",
         VStr "شقة حديثة مع إطلالة بانورامية على البحر. تقع في أفضل أحياء جدة وتتميز بالتشطيبات الراقية.");
        ("type", VStr "apartment"); ("price", VNum (Q2Qc 85000));
        ("currency", VStr "SAR"); ("isRental", VBool true);
        ("rentalPeriod", VStr "yearly");
        ("city", VStr "جدة"); ("area", VStr "شمال جدة");
        ("neighborhood", VStr "حي الشاطئ");
        ("address", VStr "كورنيش جدة، حي الشاطئ");
        ("bedrooms", VNum (Q2Qc 3)); ("bathrooms", VNum (Q2Qc 2));
        ("size", VNum (Q2Qc 180));
        ("features",
         VArr [VStr "إطلالة بحرية"; VStr "مكيفات مركزية"; VStr "مطبخ حديث";
               VStr "بلكونة"]);
        ("images",
         VArr [VStr "https://images.unsplash.com/photo-1560448204-e02f11c3d0e2?ixlib=rb-1.2.1&auto=format&fit=crop&w=600&h=400&q=80"]);
        ("status", VStr "available"); ("propertyCode", VStr "SA-12346") ];
    list_to_map
      [ ("title", VStr "أرض سكنية استثمارية");
        ("description",
         VStr "أرض سكنية استثمارية في موقع استراتيجي بالدمام، مناسبة لبناء فلل أو مجمع سكني.");
        ("type", VStr "land"); ("price", VNum (Q2Qc 1200000));
        ("currency", VStr "SAR"); ("isRental", VBool false);
        ("city", VStr "الدمام"); ("area", VStr "الدمام الغربية");
        ("neighborhood", VStr "حي الشاطئ الغربي");
        ("address", VStr "حي الشاطئ الغربي، الدمام");
        ("size", VNum (Q2Qc 750));
        ("features",
         VArr [VStr "شارع 20م"; VStr "مستوية"; VStr "منطقة خدمات متكاملة"]);
        ("images",
         VArr [VStr "https://images.unsplash.com/photo-1512917774080-9991f1c4c750?ixlib=rb-1.2.1&auto=format&fit=crop&w=600&h=400&q=80"]);
        ("status", VStr "available"); ("propertyCode", VStr "SA-12347") ] ].

Definition seedTestimonials : list Document :=
  [ list_to_map
      [ ("name", VStr "محمد السعيد"); ("location", VStr "الرياض");
        ("message",
         VStr "كانت تجربتي مع الطخيم العالمية ممتازة، ساعدوني في العثور على المنزل المناسب لعائلتي بسعر مناسب وخدمة احترافية.");
        ("rating", VNum (Q2Qc 5)) ];
    list_to_map
      [ ("name", VStr "سارة الأحمدي"); ("location", VStr "جدة");
        ("message",
         VStr "استثمرت في عقار بمساعدة فريق الطخيم العالمية، وقدموا لي استشارات قيمة ساعدتني في اتخاذ قرار استثماري صائب.");
        ("rating", VNum (Q2Qc 4)) ] ].

(** [for (const property of sampleProperties) await
    this.createProperty(property)]; the [i]-th creation of the process
    draws [draw i]. *)
Fixpoint createProperties (draw : nat → Draw) (i : nat)
    (sampleProperties : list Document) (this : MongoStorage)
    : Result MongoStorage :=
  match sampleProperties with
  | [] => Ok this
  | property :: rest =>
      r ← createProperty (at_ (draw i)) (oid_ (draw i)) property this;
      createProperties draw (S i) rest r.2
  end.

(** [for (const testimonial of sampleTestimonials) { const created =
    await this.createTestimonial(testimonial); await
    this.approveTestimonial(created._id!.toString()); }] *)
Fixpoint createApprovedTestimonials (draw : nat → Draw) (i : nat)
    (sampleTestimonials : list Document) (this : MongoStorage)
    : Result MongoStorage :=
  match sampleTestimonials with
  | [] => Ok this
  | testimonial :: rest =>
      created ←
        createTestimonial (at_ (draw i)) (oid_ (draw i)) testimonial this;
      approved ←
        approveTestimonial
          (Mongo.idToString (default VNull (created.1 !! "_id"))) created.2;
      createApprovedTestimonials draw (S i) rest approved.2
  end.

(** [seedData()]: the admin is creation 0, the properties are creations
    1 to 3, the testimonials creations 4 and 5. *)
Definition seedData (draw : nat → Draw) (this : MongoStorage)
    : Result MongoStorage :=
  r ← createUser (at_ (draw 0%nat)) (oid_ (draw 0%nat)) seedAdmin this;
  this' ← createProperties draw 1 seedProperties r.2;
  createApprovedTestimonials draw 4 seedTestimonials this'.

(** The collections of database [real_estate] as the server holds them. *)
Record Database := {
  users : list Document;
  properties : list Document;
  contact_messages : list Document;
  testimonials : list Document;
}.

(** The instance: its collection handles and its [initialized] flag. *)
Record Instance := { handles : MongoStorage; initialized : bool }.

(** [initialize()], once [client.connect()] has succeeded against a
    server holding [db]. *)
Definition initialize (draw : nat → Draw) (db : Database) (self : Instance)
    : Result Instance :=
  if initialized self then Ok self
  else
    let this :=
      {| usersCollection := Some (users db);
         propertiesCollection := Some (properties db);
         contactMessagesCollection := Some (contact_messages db);
         testimonialsCollection := Some (testimonials db) |} in
    _ ← Driver.createUniqueIndex "username" (users db);
    _ ← Driver.createUniqueIndex "email" (users db);
    _ ← Driver.createUniqueIndex "propertyCode" (properties db);
    let userCount := Driver.countDocuments (users db) in
    this' ← (if (userCount =? 0)%nat
             then seedData draw this
             else Ok this);
    mret {| handles := this'; initialized := true |}.

(* ===================================================================== *)
(** ** shared/schema.ts, continued                                       *)
(* ===================================================================== *)

Definition insertContactMessageSchema : list (string * ZodType) :=
  [ ("name", z_string [min_length 1 "الاسم مطلوب"]);
    ("email", z_string [email "البريد الإلكتروني غير صحيح"]);
    ("phone", z_optional (z_string []));
    ("subject", z_string [min_length 1 "الموضوع مطلوب"]);
    ("message", z_string [min_length 1 "الرسالة مطلوبة"]) ].

Definition loginSchema : list (string * ZodType) :=
  [ ("username",
     z_string [min_length 3 "اسم المستخدم يجب أن يكون 3 أحرف على الأقل"]);
    ("password",
     z_string [min_length 6 "كلمة المرور يجب أن تكون 6 أحرف على الأقل"]) ].

(* ===================================================================== *)
(** ** Route handlers, continued: sessions and the remaining routes      *)
(* ===================================================================== *)

(** [req.session]: the part the handlers use. *)
Record Session := { userId : option string }.

(** What a middleware does: call [next()], answer itself, or fail with an
    exception nobody catches (the request is never answered). *)
Inductive Outcome :=
| Next
| Reply (r : Response)
| Uncaught (e : Error).

Definition isAuthenticated (session : Session) : Outcome :=
  if truthy (VStr <$> userId session) then Next
  else Reply (respond 401 (JMessage "غير مصرح بالدخول")).

Definition isAdmin (session : Session) (storage : MongoStorage) : Outcome :=
  match userId session with
  | None => Reply (respond 401 (JMessage "غير مصرح بالدخول"))
  | Some uid =>
      if negb (truthy (Some (VStr uid)))
      then Reply (respond 401 (JMessage "غير مصرح بالدخول"))
      else
        match getUser storage uid with
        | Throw e => Uncaught e
        | Ok None => Reply (respond 403 (JMessage "ليس لديك صلاحية للوصول"))
        | Ok (Some user) =>
            if field_eqb (user !! "role") (Some (VStr "admin")) then Next
            else Reply (respond 403 (JMessage "ليس لديك صلاحية للوصول"))
        end
  end.

(** The object literal [{ out: user.in, ... }] handed to [res.json]; a
    field the user lacks is [undefined] and does not reach the reply. *)
Fixpoint pick (fields : list (string * string)) (user : Document)
    : Document :=
  match fields with
  | [] => ∅
  | (out, from) :: rest =>
      match user !! from with
      | Some v => <[out := v]> (pick rest user)
      | None => pick rest user
      end
  end.

(** The string held under [k], for a parsed field known to be one. *)
Definition stringField (k : string) (data : Document) : string :=
  match data !! k with
  | Some (VStr s) => s
  | _ => ""
  end.

Section MoreRoutes.

Variable emailRegex : string → bool.

(** POST /api/login *)
Definition POST_api_login (body : Document) (session : Session)
    (storage : MongoStorage) : Response * Session :=
  match object_parse emailRegex loginSchema body with
  | ZodError errors => (respond 400 (JMessage (firstMessage errors)), session)
  | Success data =>
      match getUserByUsername storage (stringField "username" data) with
      | Throw _ =>
          (respond 500 (JMessage "حدث خطأ أثناء تسجيل الدخول"), session)
      | Ok None =>
          (respond 401 (JMessage "اسم المستخدم أو كلمة المرور غير صحيحة"),
           session)
      | Ok (Some user) =>
          if negb (field_eqb (user !! "password") (data !! "password"))
          then
            (respond 401 (JMessage "اسم المستخدم أو كلمة المرور غير صحيحة"),
             session)
          else
            match user !! "_id" with
            | None =>
                (respond 500 (JMessage "حدث خطأ أثناء تسجيل الدخول"),
                 session)
            | Some id =>
                (respond 200
                   (JDoc (pick [("id", "_id"); ("username", "username");
                                ("name", "name"); ("role", "role");
                                ("email", "email")] user)),
                 {| userId := Some (Mongo.idToString id) |})
            end
      end
  end.

(** POST /api/logout: [req.session.destroy] on the memory store. *)
Definition POST_api_logout (session : Session) : Response * Session :=
  (respond 200 (JMessage "تم تسجيل الخروج بنجاح"), {| userId := None |}).

(** GET /api/user: [isAuthenticated], then the handler on
    [req.session.userId]. *)
Definition GET_api_user (session : Session) (storage : MongoStorage)
    : Response :=
  match userId session with
  | None => respond 401 (JMessage "غير مصرح بالدخول")
  | Some uid =>
      if negb (truthy (Some (VStr uid)))
      then respond 401 (JMessage "غير مصرح بالدخول")
      else
        match getUser storage uid with
        | Throw _ => respond 500 (JMessage "حدث خطأ أثناء جلب بيانات المستخدم")
        | Ok None => respond 404 (JMessage "المستخدم غير موجود")
        | Ok (Some user) =>
            respond 200
              (JDoc (pick [("id", "_id"); ("username", "username");
                           ("name", "name"); ("role", "role");
                           ("email", "email"); ("phone", "phone")] user))
        end
  end.

(** GET /api/properties/code/:code *)
Definition GET_api_properties_code (code : string) (storage : MongoStorage)
    : Response :=
  match getPropertyByCode storage code with
  | Ok None => respond 404 (JMessage "العقار غير موجود")
  | Ok (Some property) => respond 200 (JDoc property)
  | Throw _ => respond 500 (JMessage "حدث خطأ أثناء جلب تفاصيل العقار")
  end.

(** DELETE /api/properties/:id *)
Definition DELETE_api_properties_id (id : string) (storage : MongoStorage)
    : Response * MongoStorage :=
  match deleteProperty id storage with
  | Ok (false, storage') =>
      (respond 404 (JMessage "العقار غير موجود"), storage')
  | Ok (true, storage') =>
      (respond 200 (JMessage "تم حذف العقار بنجاح"), storage')
  | Throw _ => (respond 500 (JMessage "حدث خطأ أثناء حذف العقار"), storage)
  end.

(** POST /api/contact *)
Definition POST_api_contact (now : Z) (oid : ObjectId) (body : Document)
    (storage : MongoStorage) : Response * MongoStorage :=
  match object_parse emailRegex insertContactMessageSchema body with
  | ZodError errors => (respond 400 (JMessage (firstMessage errors)), storage)
  | Success messageData =>
      match createContactMessage now oid messageData storage with
      | Ok (_, storage') =>
          (respond 201 (JMessage "تم إرسال رسالتك بنجاح"), storage')
      | Throw _ =>
          (respond 500 (JMessage "حدث خطأ أثناء إرسال الرسالة"), storage)
      end
  end.

End MoreRoutes.

(** *** GET /api/properties/search *)

(** A value of [req.query], as the query-string parser of Express builds
    it: a string, an array of strings (the parameter repeated), an object
    (the parameter with brackets) or an array of objects.  The handler
    never looks inside an object. *)
Inductive QueryValue :=
| QString (s : string)
| QStrings (items : list string)
| QObject
| QObjects (n : nat).

(** [if (v)]: only the empty string is falsy. *)
Definition given (v : QueryValue) : bool :=
  match v with
  | QString s => truthy (Some (VStr s))
  | _ => true
  end.

(** [items.join(",")] *)
Fixpoint join (items : list string) : string :=
  match items with
  | [] => ""
  | [s] => s
  | s :: rest => String.append s (String.append "," (join rest))
  end.

(** [String(v)], which [parseFloat] and [parseInt] apply to their
    argument. *)
Definition toText (v : QueryValue) : string :=
  match v with
  | QString s => s
  | QStrings items => join items
  | QObject => "[object Object]"
  | QObjects n => join (repeat "[object Object]" n)
  end.

(** [v === "true"] *)
Definition isTrue (v : QueryValue) : bool :=
  match v with
  | QString s => bool_decide (s = "true")
  | _ => false
  end.

(** A number as [parseFloat] / [parseInt] return it on a query string:
    a finite number or NaN.  (The infinities, which [parseFloat] returns
    only for a literal [Infinity] or an overflowing exponent, are left
    out; [PropertySearch] has no place for them.) *)
Inductive Parsed_number :=
| Finite (n : Qc)
| NaN.

(** [searchParams] as the handler fills it from the query string. *)
Record SearchParams := {
  p_city : option QueryValue;
  p_area : option QueryValue;
  p_neighborhood : option QueryValue;
  p_type : option QueryValue;
  p_minPrice : option Parsed_number;
  p_maxPrice : option Parsed_number;
  p_minSize : option Parsed_number;
  p_maxSize : option Parsed_number;
  p_bedrooms : option Parsed_number;
  p_isRental : option bool;
}.

(** [z.string().optional()] on a value of the query. *)
Definition optionalString (v : option QueryValue)
    : list string * option string :=
  match v with
  | None => ([], None)
  | Some (QString s) => ([], Some s)
  | Some (QStrings _) | Some (QObjects _) =>
      (["Expected string, received array"], None)
  | Some QObject => (["Expected string, received object"], None)
  end.

(** [z.number().optional()] on such a number: NaN is not a number. *)
Definition optionalNumber (v : option Parsed_number)
    : list string * option Qc :=
  match v with
  | None => ([], None)
  | Some (Finite n) => ([], Some n)
  | Some NaN => (["Expected number, received nan"], None)
  end.

(** [propertySearchSchema.parse(searchParams)]: the issues are collected
    in the order of the schema's keys; [isRental] is a boolean by
    construction. *)
Definition propertySearchSchema_parse (p : SearchParams)
    : list string + PropertySearch :=
  let city' := optionalString (p_city p) in
  let area' := optionalString (p_area p) in
  let neighborhood' := optionalString (p_neighborhood p) in
  let type' := optionalString (p_type p) in
  let minPrice' := optionalNumber (p_minPrice p) in
  let maxPrice' := optionalNumber (p_maxPrice p) in
  let minSize' := optionalNumber (p_minSize p) in
  let maxSize' := optionalNumber (p_maxSize p) in
  let bedrooms' := optionalNumber (p_bedrooms p) in
  match (city'.1 ++ area'.1 ++ neighborhood'.1 ++ type'.1)
        ++ (minPrice'.1 ++ maxPrice'.1 ++ minSize'.1 ++ maxSize'.1
            ++ bedrooms'.1) with
  | [] =>
      inr {| city := city'.2; area := area'.2;
             neighborhood := neighborhood'.2; type := type'.2;
             minPrice := minPrice'.2; maxPrice := maxPrice'.2;
             minSize := minSize'.2; maxSize := maxSize'.2;
             bedrooms := bedrooms'.2; isRental := p_isRental p |}
  | issues => inl issues
  end.

(** The answer of a route that lists documents. *)
Inductive Listing :=
| Listed (code : nat) (documents : list Document)
| Refused (r : Response).

Section SearchRoute.

(** JavaScript's [parseFloat] and [parseInt] on a string. *)
Variable parseFloat : string → Parsed_number.
Variable parseInt : string → Parsed_number.

(** [if (req.query.k) searchParams.k = f(req.query.k)] *)
Definition ifGiven {A : Type} (f : QueryValue → A) (v : option QueryValue)
    : option A :=
  match v with
  | Some q => if given q then Some (f q) else None
  | None => None
  end.

Definition searchParamsOf (query : gmap string QueryValue) : SearchParams :=
  {| p_city := ifGiven id (query !! "city");
     p_area := ifGiven id (query !! "area");
     p_neighborhood := ifGiven id (query !! "neighborhood");
     p_type := ifGiven id (query !! "type");
     p_minPrice := ifGiven (parseFloat ∘ toText) (query !! "minPrice");
     p_maxPrice := ifGiven (parseFloat ∘ toText) (query !! "maxPrice");
     p_minSize := ifGiven (parseFloat ∘ toText) (query !! "minSize");
     p_maxSize := ifGiven (parseFloat ∘ toText) (query !! "maxSize");
     p_isRental := ifGiven isTrue (query !! "isRental");
     p_bedrooms := ifGiven (parseInt ∘ toText) (query !! "bedrooms") |}.

Definition GET_api_properties_search (query : gmap string QueryValue)
    (storage : MongoStorage) : Listing :=
  match propertySearchSchema_parse (searchParamsOf query) with
  | inl errors => Refused (respond 400 (JMessage (firstMessage errors)))
  | inr search =>
      match searchProperties storage search with
      | Ok properties => Listed 200 properties
      | Throw _ =>
          Refused (respond 500 (JMessage "حدث خطأ أثناء البحث عن العقارات"))
      end
  end.

End SearchRoute.

(** *** Routes registered behind [isAdmin] *)

(** What the client gets: an answer, or none when the guard failed with
    an exception that nothing catches. *)
Inductive Served :=
| Answered (r : Response)
| Unanswered (e : Error).

(** [app.METHOD(path, guard, handler)]: the handler runs when the guard
    calls [next()]. *)
Definition behind (guard : Outcome) (handler : Response * MongoStorage)
    (storage : MongoStorage) : Served * MongoStorage :=
  match guard with
  | Next => (Answered handler.1, handler.2)
  | Reply r => (Answered r, storage)
  | Uncaught e => (Unanswered e, storage)
  end.

(** The requests to the writing routes registered with [isAdmin], each
    with what its handler draws. *)
Inductive AdminRequest :=
| POST_properties (random : Qc) (now : Z) (oid : ObjectId) (body : Document)
| PUT_properties (id : string) (body : Document)
| DELETE_properties (id : string)
| POST_contact_read (id : string)
| POST_testimonials_approve (id : string).

Section AdminRoutes.

Variable emailRegex : string → bool.

Definition adminHandler (req : AdminRequest) (storage : MongoStorage)
    : Response * MongoStorage :=
  match req with
  | POST_properties random now oid body =>
      POST_api_properties emailRegex random now oid body storage
  | PUT_properties id body => PUT_api_properties_id emailRegex id body storage
  | DELETE_properties id => DELETE_api_properties_id id storage
  | POST_contact_read id => POST_api_contact_id_read id storage
  | POST_testimonials_approve id =>
      POST_api_admin_testimonials_id_approve id storage
  end.

Definition adminRoute (session : Session) (req : AdminRequest)
    (storage : MongoStorage) : Served * MongoStorage :=
  behind (isAdmin session storage) (adminHandler req storage) storage.

End AdminRoutes.
(* ===================================================================== *)
(** * Vocabulary of the specification                                    *)
(* ===================================================================== *)

(** The filter with no field present. *)
Definition emptySearch : PropertySearch :=
  {| city := None; area := None; neighborhood := None; type := None;
     minPrice := None; maxPrice := None; minSize := None; maxSize := None;
     bedrooms := None; isRental := None |}.

Definition withCity (v : option string) (s : PropertySearch) :=
  {| city := v; area := area s; neighborhood := neighborhood s;
     type := type s; minPrice := minPrice s; maxPrice := maxPrice s;
     minSize := minSize s; maxSize := maxSize s; bedrooms := bedrooms s;
     isRental := isRental s |}.

Definition withArea (v : option string) (s : PropertySearch) :=
  {| city := city s; area := v; neighborhood := neighborhood s;
     type := type s; minPrice := minPrice s; maxPrice := maxPrice s;
     minSize := minSize s; maxSize := maxSize s; bedrooms := bedrooms s;
     isRental := isRental s |}.

Definition withNeighborhood (v : option string) (s : PropertySearch) :=
  {| city := city s; area := area s; neighborhood := v;
     type := type s; minPrice := minPrice s; maxPrice := maxPrice s;
     minSize := minSize s; maxSize := maxSize s; bedrooms := bedrooms s;
     isRental := isRental s |}.

Definition withType (v : option string) (s : PropertySearch) :=
  {| city := city s; area := area s; neighborhood := neighborhood s;
     type := v; minPrice := minPrice s; maxPrice := maxPrice s;
     minSize := minSize s; maxSize := maxSize s; bedrooms := bedrooms s;
     isRental := isRental s |}.

Definition withPrice (lo hi : option Qc) (s : PropertySearch) :=
  {| city := city s; area := area s; neighborhood := neighborhood s;
     type := type s; minPrice := lo; maxPrice := hi;
     minSize := minSize s; maxSize := maxSize s; bedrooms := bedrooms s;
     isRental := isRental s |}.

Definition withBedrooms (v : option Qc) (s : PropertySearch) :=
  {| city := city s; area := area s; neighborhood := neighborhood s;
     type := type s; minPrice := minPrice s; maxPrice := maxPrice s;
     minSize := minSize s; maxSize := maxSize s; bedrooms := v;
     isRental := isRental s |}.

(** The price of [d] satisfies every bound that is present. *)
Definition priceWithin (lo hi : option Qc) (d : Document) : Prop :=
  (lo = None ∧ hi = None)
  ∨ ∃ p, d !! "price" = Some (VNum p)
         ∧ (∀ x, lo = Some x → (x ≤ p)%Qc)
         ∧ (∀ y, hi = Some y → (p ≤ y)%Qc).

Definition priceWithinb (lo hi : option Qc) (d : Document) : bool :=
  match lo, hi with
  | None, None => true
  | _, _ =>
      match d !! "price" with
      | Some (VNum p) =>
          match lo with Some x => bool_decide (x ≤ p)%Qc | None => true end
          && match hi with Some y => bool_decide (p ≤ y)%Qc | None => true end
      | _ => false
      end
  end.

(** [d] has a bedrooms value, and it is at least [n]. *)
Definition bedroomsAtLeast (n : Qc) (d : Document) : Prop :=
  ∃ b, d !! "bedrooms" = Some (VNum b) ∧ (n ≤ b)%Qc.

Definition bedroomsAtLeastb (n : Qc) (d : Document) : bool :=
  match d !! "bedrooms" with
  | Some (VNum b) => bool_decide (n ≤ b)%Qc
  | _ => false
  end.

(** [a] may precede [b] in a newest-first listing: [b] was not created
    after [a]. *)
Definition newestFirst (a b : Document) : Prop :=
  match Mongo.createdAt a, Mongo.createdAt b with
  | Some ta, Some tb => (tb ≤ ta)%Z
  | None, Some _ => False
  | _, None => True
  end.

(** The value of field [k] in the document of id [o], if there is such a
    document and it has the field. *)
Definition fieldById (o : ObjectId) (k : string) (coll : list Document)
    : option Value :=
  Mongo.findOne (Mongo.byId o) coll ≫= (fun d => d !! k).

(** The values of field [k] along a listing. *)
Definition column (k : string) (r : Result (list Document))
    : list (option Value) :=
  match r with
  | Ok l => map (fun d => d !! k) l
  | Throw _ => []
  end.

(** ** Sample data, after [seedData] *)

Definition sampleOid (h : Hex) : ObjectId := replicate 23 h0 ++ [h].

Definition sampleVilla : Document :=
  list_to_map
    [ ("_id", VOid (sampleOid h1)); ("type", VStr "villa");
      ("price", VNum (Q2Qc 2800000)); ("currency", VStr "SAR");
      ("isRental", VBool false); ("bedrooms", VNum (Q2Qc 5));
      ("bathrooms", VNum (Q2Qc 4)); ("size", VNum (Q2Qc 450));
      ("status", VStr "available"); ("propertyCode", VStr "SA-12345");
      ("createdAt", VDate 1000) ].

Definition sampleApartment : Document :=
  list_to_map
    [ ("_id", VOid (sampleOid h2)); ("type", VStr "apartment");
      ("price", VNum (Q2Qc 85000)); ("currency", VStr "SAR");
      ("isRental", VBool true); ("rentalPeriod", VStr "yearly");
      ("bedrooms", VNum (Q2Qc 3)); ("bathrooms", VNum (Q2Qc 2));
      ("size", VNum (Q2Qc 180)); ("status", VStr "available");
      ("propertyCode", VStr "SA-12346"); ("createdAt", VDate 2000) ].

(** The seeded plot of land has no [bedrooms] field. *)
Definition sampleLand : Document :=
  list_to_map
    [ ("_id", VOid (sampleOid h3)); ("type", VStr "land");
      ("price", VNum (Q2Qc 1200000)); ("currency", VStr "SAR");
      ("isRental", VBool false); ("size", VNum (Q2Qc 750));
      ("status", VStr "available"); ("propertyCode", VStr "SA-12347");
      ("createdAt", VDate 3000) ].

Definition sampleProperties : list Document :=
  [sampleVilla; sampleApartment; sampleLand].

(** The seeded apartment once it has been rented out. *)
Definition rentedApartment : Document :=
  <["status" := VStr "rented"]> sampleApartment.

Definition rentedStorage : MongoStorage :=
  {| usersCollection := Some [];
     propertiesCollection := Some [sampleVilla; rentedApartment; sampleLand];
     contactMessagesCollection := Some [];
     testimonialsCollection := Some [] |}.

(** An inquiry the admin has already marked as read. *)
Definition sampleMessage : Document :=
  list_to_map
    [ ("_id", VOid (sampleOid h5)); ("name", VStr "Customer");
      ("email", VStr "customer@example.com"); ("subject", VStr "Villa");
      ("message", VStr "Is it still available?");
      ("createdAt", VDate 4000); ("isRead", VBool true) ].

(** A review that has already been approved. *)
Definition sampleTestimonial : Document :=
  list_to_map
    [ ("_id", VOid (sampleOid h6)); ("name", VStr "Customer");
      ("location", VStr "Riyadh"); ("message", VStr "Excellent service");
      ("rating", VNum (Q2Qc 5)); ("createdAt", VDate 4500);
      ("isApproved", VBool true) ].

Definition sampleStorage : MongoStorage :=
  {| usersCollection := Some [];
     propertiesCollection := Some sampleProperties;
     contactMessagesCollection := Some [sampleMessage];
     testimonialsCollection := Some [sampleTestimonial] |}.

(** A submitted review whose sender put [isApproved: true] in it. *)
Definition submittedTestimonial : Document :=
  list_to_map
    [ ("name", VStr "Visitor"); ("location", VStr "Jeddah");
      ("message", VStr "Very helpful"); ("rating", VNum (Q2Qc 4));
      ("isApproved", VBool true) ].

(** A request body for POST /api/properties that satisfies every field of
    the schema except that it carries no [propertyCode], [currency],
    [isRental] or [status]. *)
Definition bodyWithoutCode : Document :=
  list_to_map
    [ ("title", VStr "Villa"); ("description", VStr "Villa with a pool");
      ("type", VStr "villa"); ("price", VNum (Q2Qc 2800000));
      ("city", VStr "Riyadh"); ("neighborhood", VStr "Al Malqa");
      ("address", VStr "Olaya street"); ("bedrooms", VNum (Q2Qc 5));
      ("size", VNum (Q2Qc 450)); ("images", VArr [VStr "villa.jpg"]) ].

(** A registration body without [role]. *)
Definition bodyWithoutRole : Document :=
  list_to_map
    [ ("username", VStr "editor"); ("password", VStr "secret1");
      ("name", VStr "Editor"); ("email", VStr "editor@example.com") ].


(** ** Vocabulary for the remaining operations *)

(** The ids, and the property codes, along a collection. *)
Definition idsOf (coll : list Document) : list (option Value) :=
  map (fun d => d !! "_id") coll.

Definition codesOf (coll : list Document) : list (option Value) :=
  map (fun d => d !! "propertyCode") coll.

Definition usernamesOf (coll : list Document) : list (option Value) :=
  map (fun d => d !! "username") coll.

(** [d'] is [d] except possibly under the keys in [keys]. *)
Definition sameExcept (keys : list string) (d d' : Document) : Prop :=
  ∀ k, ¬ In k keys → d' !! k = d !! k.

(** A stored user whose password is long enough for the login form. *)
Definition sampleAdmin : Document :=
  list_to_map
    [ ("_id", VOid (sampleOid h8)); ("username", VStr "manager");
      ("password", VStr "S3cret-pass"); ("name", VStr "Manager");
      ("role", VStr "admin"); ("email", VStr "manager@example.com");
      ("createdAt", VDate 500) ].

Definition sampleClerk : Document :=
  list_to_map
    [ ("_id", VOid (sampleOid h9)); ("username", VStr "clerk");
      ("password", VStr "clerk-pass"); ("name", VStr "Clerk");
      ("role", VStr "user"); ("email", VStr "clerk@example.com");
      ("createdAt", VDate 600) ].

Definition staffedStorage : MongoStorage :=
  {| usersCollection := Some [sampleAdmin; sampleClerk];
     propertiesCollection := Some sampleProperties;
     contactMessagesCollection := Some [sampleMessage];
     testimonialsCollection := Some [sampleTestimonial] |}.

Definition emptyStorage : MongoStorage :=
  {| usersCollection := Some [];
     propertiesCollection := Some [];
     contactMessagesCollection := Some [];
     testimonialsCollection := Some [] |}.

Definition emptyDatabase : Database :=
  {| users := []; properties := []; contact_messages := [];
     testimonials := [] |}.

(** Six distinct draws for the six creations of the seeding. *)
Definition seedDraw (i : nat) : Draw :=
  {| at_ := 1000 + Z.of_nat i;
     oid_ := sampleOid (nth i [h1; h2; h3; h4; h5; h6] h0) |}.

(** An inquiry as a visitor submits it, with fields the form does not
    have. *)
Definition submittedInquiry : Document :=
  list_to_map
    [ ("name", VStr "Visitor"); ("email", VStr "visitor@example.com");
      ("subject", VStr "Viewing"); ("message", VStr "May I visit?");
      ("isRead", VBool true); ("createdAt", VDate 1) ].


(** What a collection holds after the documents of [l] were created in
    turn with the draws [i], [i+1], ... *)
Definition stamped (dr : Draw) (d : Document) : Document :=
  <["_id" := VOid (oid_ dr)]> (<["createdAt" := VDate (at_ dr)]> d).

Fixpoint stampedFrom (draw : nat → Draw) (i : nat) (l : list Document)
    : list Document :=
  match l with
  | [] => []
  | d :: rest => stamped (draw i) d :: stampedFrom draw (S i) rest
  end.

(** The same for testimonials created and then approved. *)
Definition approvedTestimonial (dr : Draw) (t : Document) : Document :=
  <["isApproved" := VBool true]>
    (<["_id" := VOid (oid_ dr)]>
       (<["isApproved" := VBool false]>
          (<["createdAt" := VDate (at_ dr)]> t))).

Fixpoint approvedFrom (draw : nat → Draw) (i : nat) (l : list Document)
    : list Document :=
  match l with
  | [] => []
  | t :: rest =>
      approvedTestimonial (draw i) t :: approvedFrom draw (S i) rest
  end.

Definition collectionsOf (db : Database) : MongoStorage :=
  {| usersCollection := Some (users db);
     propertiesCollection := Some (properties db);
     contactMessagesCollection := Some (contact_messages db);
     testimonialsCollection := Some (testimonials db) |}.

(** What a search asks of a property, clause by clause. *)
Definition hasText (k : string) (v : option string) (d : Document) : Prop :=
  ∀ s, v = Some s → s ≠ "" → d !! k = Some (VStr s).

Definition sizeWithin (lo hi : option Qc) (d : Document) : Prop :=
  (lo = None ∧ hi = None)
  ∨ ∃ n, d !! "size" = Some (VNum n)
         ∧ (∀ x, lo = Some x → (x ≤ n)%Qc)
         ∧ (∀ y, hi = Some y → (n ≤ y)%Qc).

Definition satisfies (s : PropertySearch) (d : Document) : Prop :=
  hasText "city" (city s) d
  ∧ hasText "area" (area s) d
  ∧ hasText "neighborhood" (neighborhood s) d
  ∧ hasText "type" (type s) d
  ∧ (∀ b, isRental s = Some b → d !! "isRental" = Some (VBool b))
  ∧ priceWithin (minPrice s) (maxPrice s) d
  ∧ sizeWithin (minSize s) (maxSize s) d
  ∧ (∀ n, bedrooms s = Some n → n ≠ 0%Qc → bedroomsAtLeast n d).





(** A reading of numbers that knows one word that is none. *)
Definition sampleParse (s : string) : Parsed_number :=
  if bool_decide (s = "cheap") then NaN else Finite (Q2Qc 1).

(** ** What the insert schemas ask of a body *)

Definition isString (v : option Value) : Prop := ∃ s, v = Some (VStr s).

(** A string that is not empty. *)
Definition isText (v : option Value) : Prop :=
  ∃ s, v = Some (VStr s) ∧ s ≠ "".

(** A string of at least [n] characters (UTF-16 code units). *)
Definition isTextOf (n : nat) (v : option Value) : Prop :=
  ∃ s, v = Some (VStr s) ∧ (n ≤ JsString.length s)%nat.

Definition isNumber (v : option Value) : Prop := ∃ n, v = Some (VNum n).

(** A number that is not negative. *)
Definition isAmount (v : option Value) : Prop :=
  ∃ n, v = Some (VNum n) ∧ (0 ≤ n)%Qc.

Definition isBoolean (v : option Value) : Prop := ∃ b, v = Some (VBool b).

(** An array of strings. *)
Definition isTexts (v : option Value) : Prop :=
  ∃ items, v = Some (VArr (map VStr items)).

Definition absentOr (P : option Value → Prop) (v : option Value) : Prop :=
  v = None ∨ P v.

(** A body that [insertPropertySchema] has no objection to, field by
    field. *)
Definition acceptableProperty (body : Document) : Prop :=
  isText (body !! "title")
  ∧ isText (body !! "description")
  ∧ isText (body !! "type")
  ∧ isAmount (body !! "price")
  ∧ absentOr isString (body !! "currency")
  ∧ absentOr isBoolean (body !! "isRental")
  ∧ absentOr isString (body !! "rentalPeriod")
  ∧ isText (body !! "city")
  ∧ absentOr isString (body !! "area")
  ∧ isText (body !! "neighborhood")
  ∧ isText (body !! "address")
  ∧ absentOr isNumber (body !! "bedrooms")
  ∧ absentOr isNumber (body !! "bathrooms")
  ∧ isAmount (body !! "size")
  ∧ absentOr isTexts (body !! "features")
  ∧ (∃ items, body !! "images" = Some (VArr (map VStr items))
              ∧ items ≠ [])
  ∧ absentOr isString (body !! "status")
  ∧ isString (body !! "propertyCode")
  ∧ absentOr isNumber (body !! "latitude")
  ∧ absentOr isNumber (body !! "longitude").

(** The same for [insertUserSchema]; the e-mail pattern is Zod's. *)
Definition acceptableUser (emailRegex : string → bool) (body : Document)
    : Prop :=
  isTextOf 3 (body !! "username")
  ∧ isTextOf 6 (body !! "password")
  ∧ isText (body !! "name")
  ∧ absentOr isString (body !! "role")
  ∧ (∃ s, body !! "email" = Some (VStr s) ∧ emailRegex s = true)
  ∧ absentOr isString (body !! "phone").
(* ===================================================================== *)
(** * Properties                                                         *)
(* ===================================================================== *)

(** ** Values and ObjectIds *)

(** Induction over values that also covers the items of an array. *)
Lemma Value_nested_ind (P : Value → Prop) :
  P VNull →
  (∀ b, P (VBool b)) →
  (∀ n, P (VNum n)) →
  (∀ s, P (VStr s)) →
  (∀ ms, P (VDate ms)) →
  (∀ o, P (VOid o)) →
  (∀ items, Forall P items → P (VArr items)) →
  ∀ v, P v.
Proof.
  intros Hnull Hbool Hnum Hstr Hdate Hoid Harr.
  fix IH 1. intros [ | b | n | s | ms | o | items ].
  - exact Hnull.
  - apply Hbool.
  - apply Hnum.
  - apply Hstr.
  - apply Hdate.
  - apply Hoid.
  - apply Harr. induction items as [ | x xs IHxs ]; constructor.
    + apply IH.
    + exact IHxs.
Qed.

Lemma Value_eqb_eq (a b : Value) : Value_eqb a b = true ↔ a = b.
Proof.
  revert b. induction a as [ | x | x | x | x | x | xs IHxs ]
    using Value_nested_ind; intros [ | y | y | y | y | y | ys ]; simpl;
    try (split; [discriminate | congruence]);
    try (rewrite bool_decide_eq_true; split; congruence).
  - split; [reflexivity | reflexivity].
  - rewrite eqb_true_iff. split; congruence.
  - rewrite Z.eqb_eq. split; congruence.
  - revert ys. induction IHxs as [ | x xs Hx _ IH ]; intros [ | y ys ];
      try (split; [discriminate | congruence]).
    + split; reflexivity.
    + rewrite andb_true_iff, Hx, IH. split.
      * intros [-> [= ->]]. reflexivity.
      * intros [= -> ->]. auto.
Qed.

Lemma field_eqb_eq (a b : option Value) : field_eqb a b = true ↔ a = b.
Proof.
  destruct a as [x | ], b as [y | ]; simpl;
    try rewrite Value_eqb_eq; split; congruence.
Qed.

Lemma hexOfAscii_asciiOfHex (h : Hex) :
  Bson.hexOfAscii (Bson.asciiOfHex h) = Some h.
Proof. destruct h; reflexivity. Qed.

Lemma fromHex_toHexString (o : ObjectId) :
  Bson.fromHex (Bson.toHexString o) = Some o.
Proof.
  induction o as [ | h t IH ]; simpl; [reflexivity | ].
  rewrite hexOfAscii_asciiOfHex, IH. reflexivity.
Qed.

Lemma length_toHexString (o : ObjectId) :
  String.length (Bson.toHexString o) = length o.
Proof. induction o; simpl; congruence. Qed.

(** The string an ObjectId prints as is accepted back by the
    constructor, and gives the same id. *)
Lemma newObjectId_toHexString (o : ObjectId) :
  length o = 24%nat → Bson.newObjectId (Bson.toHexString o) = Ok o.
Proof.
  intros Hlen. unfold Bson.newObjectId.
  rewrite length_toHexString, Hlen, fromHex_toHexString. reflexivity.
Qed.

(** The constructor accepts an id or fails with a [BSONError]; it fails
    exactly on strings that are not 24 hexadecimal characters. *)
Lemma newObjectId_cases (id : string) :
  (∃ o, Bson.newObjectId id = Ok o) ∨ Bson.newObjectId id = Throw BSONError.
Proof.
  unfold Bson.newObjectId.
  destruct (String.length id =? 24)%nat; [ | right; reflexivity ].
  destruct (Bson.fromHex id) as [o | ]; [left; eauto | right; reflexivity].
Qed.

Lemma newObjectId_Throw (id : string) :
  Bson.newObjectId id = Throw BSONError
  ↔ String.length id ≠ 24%nat ∨ Bson.fromHex id = None.
Proof.
  unfold Bson.newObjectId.
  destruct (String.length id =? 24)%nat eqn:Hlen.
  - apply Nat.eqb_eq in Hlen.
    destruct (Bson.fromHex id) as [o | ]; split; auto; try discriminate.
    intros [Hne | Hnone]; [contradiction | discriminate].
  - apply Nat.eqb_neq in Hlen. split; auto.
Qed.

(** ** Queries *)

Lemma matches_app (q1 q2 : Mongo.Query) (d : Document) :
  Mongo.matches (q1 ++ q2) d = Mongo.matches q1 d && Mongo.matches q2 d.
Proof. unfold Mongo.matches. apply forallb_app. Qed.

Lemma find_nil (coll : list Document) : Mongo.find [] coll = coll.
Proof.
  unfold Mongo.find. induction coll as [ | d coll IH ]; simpl; congruence.
Qed.

Lemma matches_byId (o : ObjectId) (d : Document) :
  Mongo.matches (Mongo.byId o) d = true ↔ d !! "_id" = Some (VOid o).
Proof.
  unfold Mongo.matches, Mongo.byId. simpl. rewrite andb_true_r.
  destruct (d !! "_id") as [v | ]; simpl.
  - rewrite Value_eqb_eq. split; congruence.
  - split; discriminate.
Qed.

Lemma matches_byId_false (o : ObjectId) (d : Document) :
  d !! "_id" ≠ Some (VOid o) → Mongo.matches (Mongo.byId o) d = false.
Proof.
  intros Hne. apply not_true_is_false. rewrite matches_byId. exact Hne.
Qed.


(** ** Sorting by creation time *)

Lemma newestFirst_newer (a b : Document) :
  newestFirst a b ↔ Mongo.newer (Mongo.createdAt b) (Mongo.createdAt a) = false.
Proof.
  unfold newestFirst, Mongo.newer.
  destruct (Mongo.createdAt a) as [ta | ], (Mongo.createdAt b) as [tb | ];
    try rewrite Z.ltb_ge; intuition discriminate.
Qed.

Lemma newer_newestFirst (a b : Document) :
  Mongo.newer (Mongo.createdAt a) (Mongo.createdAt b) = true → newestFirst a b.
Proof.
  unfold newestFirst, Mongo.newer.
  destruct (Mongo.createdAt a) as [ta | ], (Mongo.createdAt b) as [tb | ];
    try rewrite Z.ltb_lt; try discriminate; auto; lia.
Qed.

Lemma newestFirst_trans (a b c : Document) :
  newestFirst a b → newestFirst b c → newestFirst a c.
Proof.
  unfold newestFirst.
  destruct (Mongo.createdAt a), (Mongo.createdAt b), (Mongo.createdAt c);
    try tauto; lia.
Qed.

Lemma insertDesc_Permutation (d : Document) (l : list Document) :
  Permutation (Mongo.insertDesc d l) (d :: l).
Proof.
  induction l as [ | x xs IH ]; simpl; [reflexivity | ].
  destruct (Mongo.newer _ _); [ | reflexivity ].
  rewrite IH. apply perm_swap.
Qed.

Lemma sortByCreatedAtDesc_Permutation (l : list Document) :
  Permutation (Mongo.sortByCreatedAtDesc l) l.
Proof.
  induction l as [ | x xs IH ]; simpl; [reflexivity | ].
  rewrite insertDesc_Permutation. constructor. exact IH.
Qed.

Lemma In_sortByCreatedAtDesc (d : Document) (l : list Document) :
  In d (Mongo.sortByCreatedAtDesc l) ↔ In d l.
Proof.
  split; apply Permutation_in;
    [ | symmetry ]; apply sortByCreatedAtDesc_Permutation.
Qed.

Lemma insertDesc_sorted (d : Document) (l : list Document) :
  StronglySorted newestFirst l →
  StronglySorted newestFirst (Mongo.insertDesc d l).
Proof.
  induction 1 as [ | x xs Hsorted IH Hall ]; simpl.
  - repeat constructor.
  - destruct (Mongo.newer _ _) eqn:Hnewer.
    + constructor; [exact IH | ].
      rewrite insertDesc_Permutation. constructor; [ | exact Hall ].
      apply newer_newestFirst. exact Hnewer.
    + apply newestFirst_newer in Hnewer.
      constructor; [constructor; assumption | ].
      constructor; [exact Hnewer | ].
      eapply Forall_impl; [ | exact Hall ].
      intros y Hy. eapply newestFirst_trans; eassumption.
Qed.

Lemma sortByCreatedAtDesc_sorted (l : list Document) :
  StronglySorted newestFirst (Mongo.sortByCreatedAtDesc l).
Proof.
  induction l as [ | x xs IH ]; simpl; [constructor | ].
  apply insertDesc_sorted. exact IH.
Qed.

(** A document that nothing in [l] is newer than goes to the front. *)
Lemma insertDesc_front (d : Document) (l : list Document) :
  Forall (newestFirst d) l → Mongo.insertDesc d l = d :: l.
Proof.
  intros Hall. destruct l as [ | x xs ]; simpl; [reflexivity | ].
  apply Forall_cons_1 in Hall as [Hx _].
  apply newestFirst_newer in Hx. rewrite Hx. reflexivity.
Qed.

Lemma filter_insertDesc (p : Document → bool) (d : Document)
    (l : list Document) :
  StronglySorted newestFirst l →
  List.filter p (Mongo.insertDesc d l)
  = if p d then Mongo.insertDesc d (List.filter p l) else List.filter p l.
Proof.
  induction 1 as [ | x xs Hsorted IH Hall ]; simpl.
  - destruct (p d); reflexivity.
  - destruct (Mongo.newer _ _) eqn:Hnewer; simpl.
    + destruct (p x) eqn:Hpx; simpl; rewrite IH; destruct (p d); simpl;
        rewrite ?Hnewer; reflexivity.
    + destruct (p d) eqn:Hpd; [ | reflexivity ].
      symmetry. apply insertDesc_front.
      apply newestFirst_newer in Hnewer.
      assert (Hfront : Forall (newestFirst d) (x :: xs)).
      { constructor; [exact Hnewer | ].
        eapply Forall_impl; [ | exact Hall ].
        intros y Hy. eapply newestFirst_trans; eassumption. }
      rewrite Forall_forall in Hfront. apply Forall_forall.
      intros y Hy. apply Hfront.
      change (In y (List.filter p (x :: xs))) in Hy.
      apply filter_In in Hy. tauto.
Qed.

(** Filtering before or after the sort gives the same listing. *)
Lemma sort_filter (p : Document → bool) (l : list Document) :
  Mongo.sortByCreatedAtDesc (List.filter p l)
  = List.filter p (Mongo.sortByCreatedAtDesc l).
Proof.
  induction l as [ | x xs IH ]; simpl; [reflexivity | ].
  rewrite filter_insertDesc by apply sortByCreatedAtDesc_sorted.
  destruct (p x); simpl; rewrite IH; reflexivity.
Qed.

Lemma filter_andb (p q : Document → bool) (l : list Document) :
  List.filter (fun d => p d && q d) l = List.filter q (List.filter p l).
Proof.
  induction l as [ | x xs IH ]; simpl; [reflexivity | ].
  destruct (p x); simpl; [destruct (q x) | ]; rewrite IH; reflexivity.
Qed.

(** ** The query [searchProperties] builds *)

Lemma searchProperties_unfold (this : MongoStorage) (coll : list Document)
    (s : PropertySearch) :
  propertiesCollection this = Some coll →
  searchProperties this s
  = Ok (Mongo.sortByCreatedAtDesc (Mongo.find (searchFilter s) coll)).
Proof. intros Hcoll. unfold searchProperties. rewrite Hcoll. reflexivity. Qed.

Lemma matches_price (lo hi : option Qc) (d : Document) :
  Mongo.matches (rangeIfDefined "price" lo hi) d = priceWithinb lo hi d.
Proof.
  unfold rangeIfDefined, priceWithinb, Mongo.matches.
  destruct lo, hi; simpl; try reflexivity;
    destruct (d !! "price") as [[ | | | | | | ] | ]; simpl;
    unfold Mongo.inRange; rewrite ?andb_true_r; reflexivity.
Qed.

Lemma priceWithinb_spec (lo hi : option Qc) (d : Document) :
  priceWithinb lo hi d = true ↔ priceWithin lo hi d.
Proof.
  unfold priceWithinb, priceWithin.
  destruct lo as [x | ], hi as [y | ];
    try (split; [intros _; left; split; reflexivity | reflexivity]).
  all: destruct (d !! "price") as [[ | | p | | | | ] | ]; simpl.
  all: try (split; [discriminate | intros [[? ?] | (p' & ? & _)]; discriminate]).
  all: rewrite ?andb_true_iff, ?bool_decide_eq_true; split.
  all: try (intros H; right; exists p; split; [reflexivity | ];
            split; intros ? [= <-]; tauto).
  all: try (intros H; right; exists p; split; [reflexivity | ];
            split; intros ? [= ]; tauto).
  all: intros [[? ?] | (p' & [= <-] & Hlo & Hhi)]; try discriminate;
    repeat split; auto.
Qed.

Lemma matches_bedrooms (n : Qc) (d : Document) :
  Mongo.matches [("bedrooms", Mongo.CRange (Some n) None)] d
  = bedroomsAtLeastb n d.
Proof.
  unfold bedroomsAtLeastb, Mongo.matches. simpl.
  destruct (d !! "bedrooms") as [[ | | | | | | ] | ]; simpl;
    unfold Mongo.inRange; rewrite ?andb_true_r; reflexivity.
Qed.

Lemma bedroomsAtLeastb_spec (n : Qc) (d : Document) :
  bedroomsAtLeastb n d = true ↔ bedroomsAtLeast n d.
Proof.
  unfold bedroomsAtLeastb, bedroomsAtLeast.
  destruct (d !! "bedrooms") as [[ | | b | | | | ] | ];
    try (split; [discriminate | intros (b' & ? & _); discriminate]).
  rewrite bool_decide_eq_true. split.
  - intros H. exists b. auto.
  - intros (b' & [= <-] & H). exact H.
Qed.

(** The query splits into its price clause and the query of the same
    filter without price bounds. *)
Lemma searchFilter_price (s : PropertySearch) (d : Document) :
  Mongo.matches (searchFilter s) d
  = Mongo.matches (searchFilter (withPrice None None s)) d
    && priceWithinb (minPrice s) (maxPrice s) d.
Proof.
  unfold searchFilter. rewrite !matches_app. simpl.
  rewrite matches_price.
  generalize (priceWithinb (minPrice s) (maxPrice s) d). intros within.
  repeat match goal with
         | |- context [Mongo.matches ?q d] =>
             let b := fresh "b" in
             generalize (Mongo.matches q d); intros b
         end.
  repeat match goal with b : bool |- _ => destruct b end; reflexivity.
Qed.

Lemma truthy_num (n : Qc) : truthy (Some (VNum n)) = true ↔ n ≠ 0%Qc.
Proof.
  simpl. rewrite negb_true_iff, bool_decide_eq_false. reflexivity.
Qed.

Lemma searchFilter_bedrooms (s : PropertySearch) (n : Qc) (d : Document) :
  bedrooms s = Some n → n ≠ 0%Qc →
  Mongo.matches (searchFilter s) d
  = Mongo.matches (searchFilter (withBedrooms None s)) d
    && bedroomsAtLeastb n d.
Proof.
  intros Hbed Hn. apply truthy_num in Hn.
  unfold searchFilter. rewrite Hbed. cbv beta iota. rewrite Hn.
  rewrite !matches_app, matches_bedrooms. simpl.
  generalize (bedroomsAtLeastb n d). intros atLeast.
  repeat match goal with
         | |- context [Mongo.matches ?q d] =>
             let b := fresh "b" in
             generalize (Mongo.matches q d); intros b
         end.
  repeat match goal with b : bool |- _ => destruct b end; reflexivity.
Qed.

(** ** Search: price range, ordering, bedrooms, falsy filter values *)

(** C1.  For every filter, the result of [searchProperties] is the result
    of the same filter without price bounds, restricted to the documents
    whose price satisfies every bound that is present ([minPrice ≤ price]
    and [price ≤ maxPrice], each only when given); with no bound the
    restriction is vacuous; and for a filter that has nothing but price
    bounds the result is exactly the documents of the collection within
    the bounds. *)
Theorem searchProperties_price_bounds (this : MongoStorage)
    (coll : list Document) (s : PropertySearch) :
  propertiesCollection this = Some coll →
  ∃ unbounded result,
    searchProperties this (withPrice None None s) = Ok unbounded
    ∧ searchProperties this s = Ok result
    ∧ Permutation result
        (List.filter (priceWithinb (minPrice s) (maxPrice s)) unbounded)
    ∧ (∀ d, In d result ↔
            In d unbounded ∧ priceWithin (minPrice s) (maxPrice s) d)
    ∧ (withPrice None None s = emptySearch →
       ∀ d, In d result ↔
            In d coll ∧ priceWithin (minPrice s) (maxPrice s) d).
Proof.
  intros Hcoll.
  rewrite !(searchProperties_unfold this coll) by exact Hcoll.
  eexists _, _. split; [reflexivity | ]. split; [reflexivity | ].
  assert (Heq : Mongo.sortByCreatedAtDesc (Mongo.find (searchFilter s) coll)
                = List.filter (priceWithinb (minPrice s) (maxPrice s))
                    (Mongo.sortByCreatedAtDesc
                       (Mongo.find (searchFilter (withPrice None None s)) coll))).
  { unfold Mongo.find. rewrite <- sort_filter, <- filter_andb. f_equal.
    apply List.filter_ext. intros d. apply searchFilter_price. }
  split; [rewrite Heq; reflexivity | ]. split.
  - intros d. rewrite Heq, filter_In, priceWithinb_spec. reflexivity.
  - intros Hempty d. rewrite Heq, filter_In, priceWithinb_spec, Hempty.
    change (searchFilter emptySearch) with (@nil (string * Mongo.Condition)).
    rewrite find_nil, In_sortByCreatedAtDesc. reflexivity.
Qed.

Lemma searchProperties_price_bounds_witness :
  propertiesCollection sampleStorage = Some sampleProperties
  ∧ ∃ unbounded result,
      searchProperties sampleStorage
        (withPrice None None
           (withPrice (Some (Q2Qc 2000000)) (Some (Q2Qc 3000000)) emptySearch))
      = Ok unbounded
      ∧ searchProperties sampleStorage
          (withPrice (Some (Q2Qc 2000000)) (Some (Q2Qc 3000000)) emptySearch)
        = Ok result
      ∧ Permutation result
          (List.filter
             (priceWithinb (Some (Q2Qc 2000000)) (Some (Q2Qc 3000000)))
             unbounded)
      ∧ (∀ d, In d result ↔
              In d unbounded
              ∧ priceWithin (Some (Q2Qc 2000000)) (Some (Q2Qc 3000000)) d)
      ∧ (withPrice None None
           (withPrice (Some (Q2Qc 2000000)) (Some (Q2Qc 3000000)) emptySearch)
         = emptySearch →
         ∀ d, In d result ↔
              In d sampleProperties
              ∧ priceWithin (Some (Q2Qc 2000000)) (Some (Q2Qc 3000000)) d).
Proof.
  split; [reflexivity | ].
  apply (searchProperties_price_bounds sampleStorage sampleProperties
           (withPrice (Some (Q2Qc 2000000)) (Some (Q2Qc 3000000)) emptySearch)).
  reflexivity.
Defined.

(** C2.  With the empty filter [searchProperties] returns every document
    of the collection (a rearrangement of it), and for every filter the
    result is ordered newest first by [createdAt]. *)
Theorem searchProperties_all_newest_first (this : MongoStorage)
    (coll : list Document) :
  propertiesCollection this = Some coll →
  (∃ result, searchProperties this emptySearch = Ok result
             ∧ Permutation result coll)
  ∧ (∀ s, ∃ result, searchProperties this s = Ok result
                    ∧ StronglySorted newestFirst result).
Proof.
  intros Hcoll. split.
  - rewrite (searchProperties_unfold this coll) by exact Hcoll.
    eexists. split; [reflexivity | ].
    change (searchFilter emptySearch) with (@nil (string * Mongo.Condition)).
    rewrite find_nil. apply sortByCreatedAtDesc_Permutation.
  - intros s. rewrite (searchProperties_unfold this coll) by exact Hcoll.
    eexists. split; [reflexivity | ]. apply sortByCreatedAtDesc_sorted.
Qed.

Lemma searchProperties_all_newest_first_witness :
  propertiesCollection sampleStorage = Some sampleProperties
  ∧ (∃ result, searchProperties sampleStorage emptySearch = Ok result
               ∧ Permutation result sampleProperties)
  ∧ (∀ s, ∃ result, searchProperties sampleStorage s = Ok result
                    ∧ StronglySorted newestFirst result).
Proof.
  split; [reflexivity | ].
  apply (searchProperties_all_newest_first sampleStorage sampleProperties).
  reflexivity.
Defined.

(** The seeded listing comes back newest first. *)
Example searchProperties_sample :
  column "createdAt" (searchProperties sampleStorage emptySearch)
  = [Some (VDate 3000); Some (VDate 2000); Some (VDate 1000)].
Proof. vm_compute. reflexivity. Qed.

(** The end-to-end scenario of the specification: the villa (price
    2800000, 5 bedrooms) is found by [{ minPrice: 2000000, maxPrice:
    3000000, bedrooms: 4 }] and not by [{ bedrooms: 6 }]. *)
Example searchProperties_scenario :
  column "propertyCode"
    (searchProperties sampleStorage
       (withBedrooms (Some (Q2Qc 4))
          (withPrice (Some (Q2Qc 2000000)) (Some (Q2Qc 3000000))
             emptySearch)))
  = [Some (VStr "SA-12345")]
  ∧ column "propertyCode"
      (searchProperties sampleStorage
         (withBedrooms (Some (Q2Qc 6)) emptySearch))
    = [].
Proof. split; vm_compute; reflexivity. Qed.

(** C3, as the code has it.  For every filter whose [bedrooms] is a
    non-zero number [n], the result of [searchProperties] is the result
    of the same filter without [bedrooms], restricted to the documents
    that have a bedrooms value of at least [n]; documents with more
    bedrooms are kept. *)
Theorem searchProperties_bedrooms_at_least (this : MongoStorage)
    (coll : list Document) (s : PropertySearch) (n : Qc) :
  propertiesCollection this = Some coll →
  bedrooms s = Some n →
  n ≠ 0%Qc →
  ∃ unbounded result,
    searchProperties this (withBedrooms None s) = Ok unbounded
    ∧ searchProperties this s = Ok result
    ∧ Permutation result (List.filter (bedroomsAtLeastb n) unbounded)
    ∧ (∀ d, In d result ↔ In d unbounded ∧ bedroomsAtLeast n d)
    ∧ (withBedrooms None s = emptySearch →
       ∀ d, In d result ↔ In d coll ∧ bedroomsAtLeast n d).
Proof.
  intros Hcoll Hbed Hn.
  rewrite !(searchProperties_unfold this coll) by exact Hcoll.
  eexists _, _. split; [reflexivity | ]. split; [reflexivity | ].
  assert (Heq : Mongo.sortByCreatedAtDesc (Mongo.find (searchFilter s) coll)
                = List.filter (bedroomsAtLeastb n)
                    (Mongo.sortByCreatedAtDesc
                       (Mongo.find (searchFilter (withBedrooms None s)) coll))).
  { unfold Mongo.find. rewrite <- sort_filter, <- filter_andb. f_equal.
    apply List.filter_ext. intros d. apply searchFilter_bedrooms; assumption. }
  split; [rewrite Heq; reflexivity | ]. split.
  - intros d. rewrite Heq, filter_In, bedroomsAtLeastb_spec. reflexivity.
  - intros Hempty d. rewrite Heq, filter_In, bedroomsAtLeastb_spec, Hempty.
    change (searchFilter emptySearch) with (@nil (string * Mongo.Condition)).
    rewrite find_nil, In_sortByCreatedAtDesc. reflexivity.
Qed.

Lemma searchProperties_bedrooms_at_least_witness :
  propertiesCollection sampleStorage = Some sampleProperties
  ∧ bedrooms (withBedrooms (Some (Q2Qc 4)) emptySearch) = Some (Q2Qc 4)
  ∧ Q2Qc 4 ≠ 0%Qc
  ∧ ∃ unbounded result,
      searchProperties sampleStorage
        (withBedrooms None (withBedrooms (Some (Q2Qc 4)) emptySearch))
      = Ok unbounded
      ∧ searchProperties sampleStorage
          (withBedrooms (Some (Q2Qc 4)) emptySearch) = Ok result
      ∧ Permutation result
          (List.filter (bedroomsAtLeastb (Q2Qc 4)) unbounded)
      ∧ (∀ d, In d result ↔ In d unbounded ∧ bedroomsAtLeast (Q2Qc 4) d)
      ∧ (withBedrooms None (withBedrooms (Some (Q2Qc 4)) emptySearch)
         = emptySearch →
         ∀ d, In d result ↔
              In d sampleProperties ∧ bedroomsAtLeast (Q2Qc 4) d).
Proof.
  split; [reflexivity | ]. split; [reflexivity | ].
  split; [discriminate | ].
  apply (searchProperties_bedrooms_at_least sampleStorage sampleProperties
           (withBedrooms (Some (Q2Qc 4)) emptySearch) (Q2Qc 4)).
  - reflexivity.
  - reflexivity.
  - discriminate.
Defined.

(** C3 as stated fails at [bedrooms = 0]: the search returns the seeded
    plot of land, which has no bedrooms value at all, so the result is not
    "exactly the properties whose bedrooms value is ≥ 0". *)
Lemma searchProperties_bedrooms_zero_counterexample :
  bedrooms (withBedrooms (Some 0%Qc) emptySearch) = Some 0%Qc
  ∧ column "type"
      (searchProperties sampleStorage (withBedrooms (Some 0%Qc) emptySearch))
    = [Some (VStr "land"); Some (VStr "apartment"); Some (VStr "villa")]
  ∧ column "bedrooms"
      (searchProperties sampleStorage (withBedrooms (Some 0%Qc) emptySearch))
    = [None; Some (VNum (Q2Qc 3)); Some (VNum (Q2Qc 5))]
  ∧ (∃ result,
       searchProperties sampleStorage (withBedrooms (Some 0%Qc) emptySearch)
       = Ok result
       ∧ In sampleLand result
       ∧ ¬ bedroomsAtLeast 0%Qc sampleLand)
  ∧ ¬ (∀ (this : MongoStorage) (coll : list Document) (s : PropertySearch)
         (n : Qc) (result : list Document),
         propertiesCollection this = Some coll →
         bedrooms s = Some n →
         searchProperties this s = Ok result →
         ∀ d, In d result → bedroomsAtLeast n d).
Proof.
  assert (Hnone : sampleLand !! "bedrooms" = None) by (vm_compute; reflexivity).
  assert (Hnot : ¬ bedroomsAtLeast 0%Qc sampleLand).
  { intros (b & Hb & _). rewrite Hnone in Hb. discriminate. }
  assert (Hrun : searchProperties sampleStorage
                   (withBedrooms (Some 0%Qc) emptySearch)
                 = Ok (Mongo.sortByCreatedAtDesc sampleProperties)).
  { rewrite (searchProperties_unfold sampleStorage sampleProperties)
      by reflexivity.
    change (searchFilter (withBedrooms (Some 0%Qc) emptySearch))
      with (@nil (string * Mongo.Condition)).
    rewrite find_nil. reflexivity. }
  assert (Hin : In sampleLand (Mongo.sortByCreatedAtDesc sampleProperties)).
  { apply In_sortByCreatedAtDesc. simpl. auto. }
  split; [reflexivity | ].
  split; [vm_compute; reflexivity | ].
  split; [vm_compute; reflexivity | ].
  split; [eauto | ].
  intros Hclaim. apply Hnot.
  exact (Hclaim sampleStorage sampleProperties
           (withBedrooms (Some 0%Qc) emptySearch) 0%Qc _
           eq_refl eq_refl Hrun sampleLand Hin).
Qed.

(** C10.  A falsy filter value is treated as an absent one: [bedrooms = 0]
    and an empty [city], [area], [neighborhood] or [type] give the same
    outcome as the filter with that field omitted; in particular the
    filter [{ bedrooms: 0 }] lists every property, like
    [getAllProperties], including those without a bedrooms value. *)
Theorem searchProperties_falsy_as_absent (this : MongoStorage)
    (s : PropertySearch) :
  searchProperties this (withBedrooms (Some 0%Qc) s)
  = searchProperties this (withBedrooms None s)
  ∧ searchProperties this (withCity (Some "") s)
    = searchProperties this (withCity None s)
  ∧ searchProperties this (withArea (Some "") s)
    = searchProperties this (withArea None s)
  ∧ searchProperties this (withNeighborhood (Some "") s)
    = searchProperties this (withNeighborhood None s)
  ∧ searchProperties this (withType (Some "") s)
    = searchProperties this (withType None s)
  ∧ searchProperties this (withBedrooms (Some 0%Qc) emptySearch)
    = getAllProperties this
  ∧ (∀ coll d,
       propertiesCollection this = Some coll →
       In d coll → d !! "bedrooms" = None →
       ∃ result,
         searchProperties this (withBedrooms (Some 0%Qc) emptySearch)
         = Ok result
         ∧ In d result).
Proof.
  do 6 (split; [reflexivity | ]).
  intros coll d Hcoll Hd _.
  rewrite (searchProperties_unfold this coll) by exact Hcoll.
  eexists. split; [reflexivity | ].
  change (searchFilter (withBedrooms (Some 0%Qc) emptySearch))
    with (@nil (string * Mongo.Condition)).
  rewrite find_nil. apply In_sortByCreatedAtDesc. exact Hd.
Qed.

(** ** Read by id *)

Lemma find_all_false (p : Document → bool) (coll : list Document) :
  (∀ d, In d coll → p d = false) → List.find p coll = None.
Proof.
  induction coll as [ | x xs IH ]; simpl; intros Hall; [reflexivity | ].
  rewrite (Hall x) by auto. apply IH. auto.
Qed.

Lemma getProperty_unfold (this : MongoStorage) (coll : list Document)
    (id : string) :
  propertiesCollection this = Some coll →
  getProperty this id
  = match Bson.newObjectId id with
    | Ok o => Ok (Mongo.findOne (Mongo.byId o) coll)
    | Throw e => Throw e
    end.
Proof.
  intros Hcoll. unfold getProperty. rewrite Hcoll. simpl.
  destruct (Bson.newObjectId id); reflexivity.
Qed.

(** C4, as the code has it.  On an initialized store, [getProperty]
    returns [undefined] (and the route answers 404) when the id is a
    well-formed ObjectId string that no document carries; when the id is
    not 24 hexadecimal characters the ObjectId constructor throws, the
    call fails with that error and the route answers 500.  Every id falls
    in one of: malformed, well-formed and absent, well-formed and found. *)
Theorem getProperty_absent_or_error (this : MongoStorage)
    (coll : list Document) (id : string) :
  propertiesCollection this = Some coll →
  (∀ o, Bson.newObjectId id = Ok o →
        (∀ d, In d coll → d !! "_id" ≠ Some (VOid o)) →
        getProperty this id = Ok None
        ∧ status (GET_api_properties_id id this) = 404%nat)
  ∧ (Bson.newObjectId id = Throw BSONError →
     getProperty this id = Throw BSONError
     ∧ status (GET_api_properties_id id this) = 500%nat)
  ∧ (Bson.newObjectId id = Throw BSONError
     ↔ String.length id ≠ 24%nat ∨ Bson.fromHex id = None)
  ∧ ((∃ o, Bson.newObjectId id = Ok o)
     ∨ Bson.newObjectId id = Throw BSONError)
  ∧ (∀ o d, Bson.newObjectId id = Ok o →
            In d coll → d !! "_id" = Some (VOid o) →
            ∃ found, getProperty this id = Ok (Some found)
                     ∧ found !! "_id" = Some (VOid o)
                     ∧ status (GET_api_properties_id id this) = 200%nat).
Proof.
  intros Hcoll.
  split; [ | split; [ | split; [ | split ]]].
  - intros o Ho Habsent.
    assert (Hget : getProperty this id = Ok None).
    { rewrite (getProperty_unfold this coll) by exact Hcoll. rewrite Ho.
      unfold Mongo.findOne. rewrite find_all_false; [reflexivity | ].
      intros d Hd. apply matches_byId_false. auto. }
    split; [exact Hget | ].
    unfold GET_api_properties_id. rewrite Hget. reflexivity.
  - intros Hthrow.
    assert (Hget : getProperty this id = Throw BSONError).
    { rewrite (getProperty_unfold this coll) by exact Hcoll.
      rewrite Hthrow. reflexivity. }
    split; [exact Hget | ].
    unfold GET_api_properties_id. rewrite Hget. reflexivity.
  - apply newObjectId_Throw.
  - apply newObjectId_cases.
  - intros o d Ho Hd Hid.
    unfold GET_api_properties_id.
    rewrite (getProperty_unfold this coll) by exact Hcoll. rewrite Ho.
    unfold Mongo.findOne.
    destruct (List.find (Mongo.matches (Mongo.byId o)) coll) as [found | ]
      eqn:Hfind.
    + exists found. apply find_some in Hfind as [_ Hm].
      apply matches_byId in Hm. auto.
    + exfalso. eapply find_none in Hfind; [ | exact Hd ].
      apply matches_byId in Hid. congruence.
Qed.

Lemma getProperty_absent_or_error_witness :
  propertiesCollection sampleStorage = Some sampleProperties
  ∧ (∀ o, Bson.newObjectId "abc" = Ok o →
          (∀ d, In d sampleProperties → d !! "_id" ≠ Some (VOid o)) →
          getProperty sampleStorage "abc" = Ok None
          ∧ status (GET_api_properties_id "abc" sampleStorage) = 404%nat)
  ∧ (Bson.newObjectId "abc" = Throw BSONError →
     getProperty sampleStorage "abc" = Throw BSONError
     ∧ status (GET_api_properties_id "abc" sampleStorage) = 500%nat)
  ∧ (Bson.newObjectId "abc" = Throw BSONError
     ↔ String.length "abc" ≠ 24%nat ∨ Bson.fromHex "abc" = None)
  ∧ ((∃ o, Bson.newObjectId "abc" = Ok o)
     ∨ Bson.newObjectId "abc" = Throw BSONError)
  ∧ (∀ o d, Bson.newObjectId "abc" = Ok o →
            In d sampleProperties → d !! "_id" = Some (VOid o) →
            ∃ found, getProperty sampleStorage "abc" = Ok (Some found)
                     ∧ found !! "_id" = Some (VOid o)
                     ∧ status (GET_api_properties_id "abc" sampleStorage)
                       = 200%nat).
Proof.
  split; [reflexivity | ].
  apply (getProperty_absent_or_error sampleStorage sampleProperties "abc").
  reflexivity.
Defined.

(** C4 as stated fails: for the malformed id ["abc"] [getProperty] does
    not return [undefined] but throws, and the caller can tell the two
    cases apart (500 for the malformed id, 404 for a well-formed id that
    is not in the collection). *)
Lemma getProperty_invalid_id_counterexample :
  getProperty sampleStorage "abc" = Throw BSONError
  ∧ getProperty sampleStorage "00000000000000000000000f" = Ok None
  ∧ status (GET_api_properties_id "abc" sampleStorage) = 500%nat
  ∧ status (GET_api_properties_id "00000000000000000000000f" sampleStorage)
    = 404%nat
  ∧ ¬ (∀ (this : MongoStorage) (coll : list Document) (id : string),
         propertiesCollection this = Some coll →
         (∀ d, In d coll → d !! "_id" ≠ VOid <$> Bson.fromHex id) →
         getProperty this id = Ok None).
Proof.
  repeat split; try (vm_compute; reflexivity).
  intros Hclaim.
  specialize (Hclaim sampleStorage sampleProperties "abc" eq_refl).
  assert (Hthrow : getProperty sampleStorage "abc" = Throw BSONError)
    by (vm_compute; reflexivity).
  rewrite Hthrow in Hclaim.
  assert (Hfalse : @Throw (option Document) BSONError = Ok None);
    [ | discriminate Hfalse ].
  apply Hclaim. intros d Hd.
  destruct Hd as [<- | [<- | [<- | []]]]; vm_compute; discriminate.
Qed.

(** ** Validation *)

Section ZodFacts.

Variable emailRegex : string → bool.

(** An issue raised by one field makes the whole object invalid. *)
Lemma parseShape_issue (shape : list (string * ZodType)) (data : Document)
    (k : string) (t : ZodType) (m : string) (ms : list string) :
  In (k, t) shape →
  parse emailRegex t (data !! k) = Invalid (m :: ms) →
  (parseShape emailRegex shape data).1 ≠ [].
Proof.
  induction shape as [ | [k' t'] rest IH ]; simpl; [tauto | ].
  intros [[= -> ->] | Hin] Hparse.
  - rewrite Hparse. simpl. discriminate.
  - specialize (IH Hin Hparse).
    destruct (parse emailRegex t' (data !! k')) as [[v | ] | issues];
      simpl; try exact IH.
    intros Happ. apply app_eq_nil in Happ as [_ Hnil]. auto.
Qed.

Lemma object_parse_issue (shape : list (string * ZodType)) (data : Document)
    (k : string) (t : ZodType) (m : string) (ms : list string) :
  In (k, t) shape →
  parse emailRegex t (data !! k) = Invalid (m :: ms) →
  ∃ e es, object_parse emailRegex shape data = ZodError (e :: es).
Proof.
  intros Hin Hparse. unfold object_parse.
  pose proof (parseShape_issue shape data k t m ms Hin Hparse) as Hne.
  destruct (parseShape emailRegex shape data) as [[ | e es] out];
    simpl in Hne; [congruence | eauto].
Qed.

(** Two bodies that every field of the shape parses alike are parsed
    alike. *)
Lemma parseShape_ext (shape : list (string * ZodType)) (d1 d2 : Document) :
  (∀ k t, In (k, t) shape →
          parse emailRegex t (d1 !! k) = parse emailRegex t (d2 !! k)) →
  parseShape emailRegex shape d1 = parseShape emailRegex shape d2.
Proof.
  induction shape as [ | [k t] rest IH ]; simpl; intros Hext;
    [reflexivity | ].
  rewrite (Hext k t) by auto. rewrite IH by auto. reflexivity.
Qed.

Lemma issuesOrValid_nonempty (issues : list string) (v : Value) :
  issuesOrValid issues v ≠ Invalid [].
Proof. destruct issues; discriminate. Qed.

(** A rejected value always comes with at least one issue. *)
Lemma parse_Invalid_nonempty (t : ZodType) (input : option Value) :
  parse emailRegex t input ≠ Invalid [].
Proof.
  revert input. induction t as [ checks | min | | element IH min | inner IH
                               | inner IH def ]; intros [v | ]; simpl;
    try discriminate; try apply IH;
    try (destruct v; try discriminate; apply issuesOrValid_nonempty).
Qed.

(** The normalized object holds, under each key of the shape, what the
    field's schema returned. *)
Lemma parseShape_lookup (shape : list (string * ZodType)) (data : Document)
    (k : string) (t : ZodType) :
  List.NoDup (map fst shape) →
  In (k, t) shape →
  (parseShape emailRegex shape data).1 = [] →
  parse emailRegex t (data !! k)
  = Valid ((parseShape emailRegex shape data).2 !! k).
Proof.
  induction shape as [ | [k' t'] rest IH ]; simpl; [tauto | ].
  intros Hnodup Hin. apply NoDup_cons_iff in Hnodup as [Hfresh Hnodup].
  assert (Hout : ∀ j, ¬ In j (map fst rest) →
                      (parseShape emailRegex rest data).2 !! j = None).
  { clear. induction rest as [ | [j' u] rest IH ]; simpl; intros j Hj.
    - apply lookup_empty.
    - apply Decidable.not_or in Hj as [Hne Hj].
      destruct (parse emailRegex u (data !! j')) as [[v | ] | issues];
        simpl; rewrite ?lookup_insert_ne by congruence; auto. }
  destruct Hin as [[= -> ->] | Hin].
  - destruct (parse emailRegex t (data !! k)) as [[v | ] | issues] eqn:Hparse;
      simpl.
    + intros _. rewrite lookup_insert_eq. reflexivity.
    + intros _. rewrite Hout by exact Hfresh. reflexivity.
    + intros Happ. apply app_eq_nil in Happ as [-> _].
      exfalso. exact (parse_Invalid_nonempty _ _ Hparse).
  - assert (Hne : k' ≠ k).
    { intros ->. apply Hfresh. apply (in_map fst) in Hin. exact Hin. }
    destruct (parse emailRegex t' (data !! k')) as [[v | ] | issues]; simpl.
    + intros Hnil. rewrite lookup_insert_ne by exact Hne. auto.
    + auto.
    + intros Happ. apply app_eq_nil in Happ as [_ Hnil]. auto.
Qed.

End ZodFacts.

(** ** Numbers: rounding to the nearest double *)

Section NumberFacts.
Import Number.
Local Open Scope Q_scope.

Lemma roundToInteger_bounds (q : Q) :
  (Qfloor q <= roundToInteger q <= Qfloor q + 1)%Z.
Proof.
  unfold roundToInteger. destruct (q - inject_Z (Qfloor q) ?= 1 # 2);
    [destruct (Z.even _) | | ]; lia.
Qed.

Lemma roundToInteger_mono (x y : Q) :
  x <= y -> (roundToInteger x <= roundToInteger y)%Z.
Proof.
  intros Hle.
  pose proof (Qfloor_resp_le x y Hle) as Hfloor.
  pose proof (roundToInteger_bounds x) as Hx.
  pose proof (roundToInteger_bounds y) as Hy.
  destruct (Z.eq_dec (Qfloor x) (Qfloor y)) as [Heq | Hne]; [ | lia ].
  unfold roundToInteger. rewrite <- Heq.
  destruct (Qcompare_spec (x - inject_Z (Qfloor x)) (1 # 2)) as [Hx' | Hx' | Hx'];
    destruct (Qcompare_spec (y - inject_Z (Qfloor x)) (1 # 2)) as [Hy' | Hy' | Hy'];
    try (destruct (Z.even (Qfloor x))); try lia; exfalso; lra.
Qed.

Lemma roundToInteger_inject_Z (k : Z) : roundToInteger (inject_Z k) = k.
Proof.
  unfold roundToInteger. rewrite Qfloor_Z.
  destruct (Qcompare_spec (inject_Z k - inject_Z k) (1 # 2)) as [H | H | H];
    [exfalso; lra | reflexivity | exfalso; lra].
Qed.

Lemma two_power_pos (e : Z) : 0 < 2 ^ e.
Proof. apply Qpower_0_lt. reflexivity. Qed.

Lemma two_power_S (e : Z) : 2 ^ (e + 1) == 2 * 2 ^ e.
Proof. rewrite Qpower_plus by discriminate. rewrite Qpower_1_r. ring. Qed.

Lemma Z_log2_Qpower (n : Z) :
  (0 < n)%Z ->
  2 ^ Z.log2 n <= inject_Z n /\ inject_Z n < 2 ^ (Z.log2 n + 1).
Proof.
  intros Hn. destruct (Z.log2_spec n Hn) as [Hlo Hhi].
  pose proof (Z.log2_nonneg n) as Hnonneg.
  rewrite <- !(Zpower_Qpower 2) by lia.
  rewrite <- Zle_Qle, <- Zlt_Qlt. replace (Z.succ (Z.log2 n)) with (Z.log2 n + 1)%Z in Hhi by lia.
  auto.
Qed.

Lemma floorLog2_spec (q : Q) :
  0 < q -> 2 ^ floorLog2 q <= q /\ q < 2 ^ (floorLog2 q + 1).
Proof.
  intros Hq. destruct q as [n d]. unfold floorLog2. cbn [Qnum Qden].
  assert (Hn : (0 < n)%Z).
  { unfold Qlt in Hq. simpl in Hq. lia. }
  destruct (Z_log2_Qpower n Hn) as [Hn_lo Hn_hi].
  destruct (Z_log2_Qpower (Z.pos d) eq_refl) as [Hd_lo Hd_hi].
  set (a := Z.log2 n) in *. set (b := Z.log2 (Z.pos d)) in *.
  assert (Hq_eq : n # d == inject_Z n / inject_Z (Z.pos d)) by apply Qmake_Qdiv.
  assert (Hd_pos : 0 < inject_Z (Z.pos d)) by reflexivity.
  pose proof (two_power_pos b) as Hb_pos.
  pose proof (two_power_pos (a - b)) as Hk_pos.
  assert (Hupper : n # d < 2 ^ (a - b + 1)).
  { rewrite Hq_eq. apply Qlt_shift_div_r; [exact Hd_pos | ].
    eapply Qlt_le_trans; [exact Hn_hi | ].
    replace (a + 1)%Z with ((a - b + 1) + b)%Z by lia.
    rewrite (Qpower_plus 2 (a - b + 1) b) by discriminate.
    apply Qmult_le_l; [apply two_power_pos | exact Hd_lo]. }
  assert (Hlower : 2 ^ (a - b - 1) <= n # d).
  { rewrite Hq_eq. apply Qle_shift_div_l; [exact Hd_pos | ].
    eapply Qle_trans; [ | exact Hn_lo ].
    replace a with ((a - b - 1) + (b + 1))%Z at 2 by lia.
    rewrite (Qpower_plus 2 (a - b - 1) (b + 1)) by discriminate.
    apply Qmult_le_l; [apply two_power_pos | ].
    apply Qlt_le_weak. exact Hd_hi. }
  destruct (Qle_bool (2 ^ (a - b)) (n # d)) eqn:Hcmp.
  - apply Qle_bool_iff in Hcmp. auto.
  - assert (Hlt : n # d < 2 ^ (a - b)).
    { apply Qnot_le_lt. intros Hle. apply Qle_bool_iff in Hle. congruence. }
    replace (a - b - 1 + 1)%Z with (a - b)%Z by lia. auto.
Qed.

Lemma floorLog2_mono (x y : Q) :
  0 < x -> x <= y -> (floorLog2 x <= floorLog2 y)%Z.
Proof.
  intros Hx Hle.
  destruct (floorLog2_spec x Hx) as [Hx_lo _].
  destruct (floorLog2_spec y (Qlt_le_trans _ _ _ Hx Hle)) as [_ Hy_hi].
  assert (Hlt : 2 ^ floorLog2 x < 2 ^ (floorLog2 y + 1)).
  { eapply Qle_lt_trans; [exact Hx_lo | ].
    eapply Qle_lt_trans; [exact Hle | exact Hy_hi]. }
  apply Qpower_lt_compat_l_inv in Hlt; [lia | reflexivity].
Qed.

(** The scaled value has at most 53 bits, and exactly 53 above the
    subnormal range. *)
Lemma scaled_bounds (q : Q) :
  0 < q ->
  q / 2 ^ ulpExponent q < inject_Z (2 ^ 53)
  /\ ((-1074 < ulpExponent q)%Z ->
      inject_Z (2 ^ 52) <= q / 2 ^ ulpExponent q).
Proof.
  intros Hq. destruct (floorLog2_spec q Hq) as [Hlo Hhi].
  pose proof (two_power_pos (ulpExponent q)) as He.
  rewrite !(Zpower_Qpower 2) by lia. split.
  - apply Qlt_shift_div_r; [exact He | ].
    rewrite <- Qpower_plus by discriminate.
    eapply Qlt_le_trans; [exact Hhi | ].
    apply Qpower_le_compat_l; [unfold ulpExponent; lia | discriminate].
  - intros Hnormal. apply Qle_shift_div_l; [exact He | ].
    rewrite <- Qpower_plus by discriminate.
    eapply Qle_trans; [ | exact Hlo ].
    apply Qpower_le_compat_l; [unfold ulpExponent in *; lia | discriminate].
Qed.

Lemma roundPositive_mono (x y : Q) :
  0 < x -> x <= y -> roundPositive x <= roundPositive y.
Proof.
  intros Hx Hle.
  assert (Hy : 0 < y) by (eapply Qlt_le_trans; eassumption).
  pose proof (floorLog2_mono x y Hx Hle) as Hlog.
  unfold roundPositive.
  destruct (Z.eq_dec (ulpExponent x) (ulpExponent y)) as [Heq | Hne].
  - rewrite Heq. apply Qmult_le_compat_r; [ | apply Qlt_le_weak, two_power_pos ].
    rewrite <- Zle_Qle. apply roundToInteger_mono.
    apply Qmult_le_compat_r; [exact Hle | ].
    apply Qlt_le_weak, Qinv_lt_0_compat, two_power_pos.
  - assert (Hlt : (ulpExponent x + 1 <= ulpExponent y)%Z)
      by (unfold ulpExponent in *; lia).
    destruct (scaled_bounds x Hx) as [Hx_hi _].
    destruct (scaled_bounds y Hy) as [_ Hy_lo].
    specialize (Hy_lo ltac:(unfold ulpExponent in *; lia)).
    apply Qlt_le_weak, roundToInteger_mono in Hx_hi.
    apply roundToInteger_mono in Hy_lo.
    rewrite roundToInteger_inject_Z in Hx_hi, Hy_lo.
    rewrite Zle_Qle in Hx_hi, Hy_lo.
    eapply Qle_trans;
      [apply Qmult_le_compat_r;
       [exact Hx_hi | apply Qlt_le_weak, two_power_pos] | ].
    eapply Qle_trans;
      [ | apply Qmult_le_compat_r;
          [exact Hy_lo | apply Qlt_le_weak, two_power_pos] ].
    rewrite !(Zpower_Qpower 2) by lia.
    rewrite <- !Qpower_plus by discriminate.
    apply Qpower_le_compat_l; [lia | discriminate].
Qed.

Lemma roundPositive_nonneg (x : Q) : 0 < x -> 0 <= roundPositive x.
Proof.
  intros Hx. unfold roundPositive.
  apply Qmult_le_0_compat; [ | apply Qlt_le_weak, two_power_pos ].
  change 0 with (inject_Z 0). rewrite <- Zle_Qle.
  pose proof (roundToInteger_bounds (x / 2 ^ ulpExponent x)) as Hb.
  assert (Hfloor : (0 <= Qfloor (x / 2 ^ ulpExponent x))%Z).
  { change 0%Z with (Qfloor 0). apply Qfloor_resp_le.
    apply Qlt_le_weak. apply Qlt_shift_div_l; [apply two_power_pos | ].
    rewrite Qmult_0_l. exact Hx. }
  lia.
Qed.

(** Rounding keeps the order of non-negative values. *)
Lemma round_mono (x y : Q) : 0 <= x -> x <= y -> round x <= round y.
Proof.
  intros Hx Hle. unfold round.
  destruct (Qcompare_spec x 0) as [Hx0 | Hx0 | Hx0]; [ | exfalso; lra | ];
    destruct (Qcompare_spec y 0) as [Hy0 | Hy0 | Hy0];
    try (exfalso; lra).
  - apply Qle_refl.
  - apply roundPositive_nonneg. exact Hy0.
  - apply roundPositive_mono; assumption.
Qed.


(** No double lies strictly between 1 - 2^-53 and 1. *)
Lemma double_below_one (r : Qc) :
  isDouble r -> r < 1 -> r <= 1 - (1 # 2 ^ 53).
Proof.
  intros Hdouble Hlt.
  destruct (Qlt_le_dec (1 - (1 # 2 ^ 53)) r) as [Hgt | Hle]; [ | exact Hle ].
  exfalso.
  assert (Hpos : 0 < r) by (eapply Qlt_trans; [ | exact Hgt ]; reflexivity).
  destruct (floorLog2_spec r Hpos) as [Hlo Hhi].
  assert (HL : floorLog2 r = (-1)%Z).
  { assert (H1 : 2 ^ floorLog2 r < 2 ^ 0).
    { eapply Qle_lt_trans; [exact Hlo | exact Hlt]. }
    assert (H2 : 2 ^ (-1) < 2 ^ (floorLog2 r + 1)).
    { eapply Qlt_trans; [ | exact Hhi ].
      eapply Qlt_trans; [ | exact Hgt ]. reflexivity. }
    apply Qpower_lt_compat_l_inv in H1; [ | reflexivity ].
    apply Qpower_lt_compat_l_inv in H2; [ | reflexivity ].
    lia. }
  unfold isDouble, round in Hdouble.
  destruct (Qcompare_spec r 0) as [H0 | H0 | H0]; try (exfalso; lra).
  unfold roundPositive, ulpExponent in Hdouble. rewrite HL in Hdouble.
  change (Z.max (-1 - 52) (-1074)) with (-53)%Z in Hdouble.
  set (m := roundToInteger (r / 2 ^ (-53))) in *.
  assert (Hscale : 2 ^ (-53) == 1 # 2 ^ 53) by reflexivity.
  rewrite Hscale in Hdouble.
  assert (Hm_hi : inject_Z m < inject_Z (2 ^ 53)).
  { apply (Qmult_lt_r _ _ (1 # 2 ^ 53)); [reflexivity | ].
    rewrite Hdouble. eapply Qlt_le_trans; [exact Hlt | ].
    apply Qle_lteq. right. reflexivity. }
  assert (Hm_lo : inject_Z (2 ^ 53 - 1) < inject_Z m).
  { apply (Qmult_lt_r _ _ (1 # 2 ^ 53)); [reflexivity | ].
    rewrite Hdouble. eapply Qle_lt_trans; [ | exact Hgt ].
    apply Qle_lteq. right. reflexivity. }
  rewrite <- Zlt_Qlt in Hm_hi, Hm_lo. lia.
Qed.

Lemma Q2Qc_eq (q : Q) : Q2Qc q == q.
Proof. apply Qred_correct. Qed.

(** The generated code is the prefix followed by a number of exactly five
    digits, for any double in [0, 1) that [Math.random()] draws. *)
Lemma generatePropertyCode_five_digits (random : Qc) :
  (0 ≤ random)%Qc → (random < 1)%Qc → isDouble random →
  ∃ n : Z, (10000 ≤ n ≤ 99999)%Z
           ∧ generatePropertyCode random = String.append "SA-" (pretty n).
Proof.
  intros Hlo Hhi Hdouble. eexists. split; [ | reflexivity ].
  pose proof (double_below_one random Hdouble Hhi) as Hmax.
  unfold Number.floor, Number.add, Number.mul.
  set (t := Q2Qc (round (random * Q2Qc 90000)%Qc)).
  assert (Ht : 0 <= t /\ t <= 90000 - (1 # 2 ^ 36)).
  { unfold t. rewrite !Q2Qc_eq. split.
    - change 0 with (round 0). apply round_mono; [apply Qle_refl | ].
      simpl. rewrite Qred_correct. change (Q2Qc 90000 : Q) with 90000.
      apply Qmult_le_0_compat; [exact Hlo | discriminate].
    - assert (Hedge : round ((1 - (1 # 2 ^ 53)) * 90000)
                      == 90000 - (1 # 2 ^ 36)) by (vm_compute; reflexivity).
      rewrite <- Hedge. apply round_mono.
      + simpl. rewrite Qred_correct.
        apply Qmult_le_0_compat; [exact Hlo | discriminate].
      + simpl. rewrite Qred_correct.
        apply Qmult_le_compat_r; [exact Hmax | discriminate]. }
  destruct Ht as [Ht_lo Ht_hi].
  set (u := Q2Qc (round (Q2Qc 10000 + t)%Qc)).
  assert (Hu : 10000 <= u /\ u <= 100000 - (1 # 2 ^ 36)).
  { unfold u. rewrite !Q2Qc_eq.
    assert (Hsum : (Q2Qc 10000 + t)%Qc == 10000 + t).
    { simpl. rewrite Qred_correct. reflexivity. }
    split.
    - assert (Hedge : round 10000 == 10000) by (vm_compute; reflexivity).
      rewrite <- Hedge at 1. apply round_mono; [discriminate | ].
      rewrite Hsum. lra.
    - assert (Hedge : round (100000 - (1 # 2 ^ 36))
                      == 100000 - (1 # 2 ^ 36)) by (vm_compute; reflexivity).
      rewrite <- Hedge. apply round_mono; rewrite Hsum; lra. }
  destruct Hu as [Hu_lo Hu_hi]. split.
  - change 10000%Z with (Qfloor 10000). apply Qfloor_resp_le. exact Hu_lo.
  - assert (Hlt : (Qfloor u < 100000)%Z); [ | lia ].
    rewrite Zlt_Qlt. eapply Qle_lt_trans; [apply Qfloor_le | ].
    eapply Qle_lt_trans; [exact Hu_hi | ]. reflexivity.
Qed.

End NumberFacts.

(** The rounding shows: at this draw the exact sum lies just below 64496
    and the doubles give 64496. *)
Example generatePropertyCode_rounds :
  Number.isDouble (Q2Qc (2726979614368695 # 4503599627370496))
  ∧ Qfloor (10000 + (2726979614368695 # 4503599627370496) * 90000)%Q
    = 64495%Z
  ∧ generatePropertyCode (Q2Qc (2726979614368695 # 4503599627370496))
    = "SA-64496".
Proof. repeat split; vm_compute; reflexivity. Qed.

Lemma insertPropertySchema_keys : List.NoDup (map fst insertPropertySchema).
Proof. apply NoDup_ListNoDup, (bool_decide_unpack _). vm_compute. reflexivity. Qed.

Lemma insertUserSchema_keys : List.NoDup (map fst insertUserSchema).
Proof. apply NoDup_ListNoDup, (bool_decide_unpack _). vm_compute. reflexivity. Qed.

(** What a successful parse returns under a key of the schema. *)
Lemma object_parse_lookup (emailRegex : string → bool)
    (shape : list (string * ZodType)) (data out : Document)
    (k : string) (t : ZodType) :
  List.NoDup (map fst shape) →
  In (k, t) shape →
  object_parse emailRegex shape data = Success out →
  parse emailRegex t (data !! k) = Valid (out !! k).
Proof.
  intros Hnodup Hin. unfold object_parse.
  pose proof (parseShape_lookup emailRegex shape data k t Hnodup Hin) as Hl.
  destruct (parseShape emailRegex shape data) as [[ | e es] o];
    [ | discriminate ].
  intros [= <-]. auto.
Qed.

(** Leaving a defaulted field out is the same as sending its default. *)
Lemma object_parse_default (emailRegex : string → bool)
    (shape : list (string * ZodType)) (body : Document)
    (k : string) (inner : ZodType) (def : Value) :
  (∀ k' t, In (k', t) shape → k' = k → t = z_default inner def) →
  object_parse emailRegex shape (delete k body)
  = object_parse emailRegex shape (<[k := def]> body).
Proof.
  intros Hdefault. unfold object_parse.
  rewrite (parseShape_ext emailRegex shape (delete k body) (<[k := def]> body));
    [reflexivity | ].
  intros k' t Hin. destruct (decide (k' = k)) as [-> | Hne].
  - rewrite (Hdefault k t Hin eq_refl).
    rewrite lookup_delete_eq, lookup_insert_eq. reflexivity.
  - rewrite lookup_delete_ne, lookup_insert_ne by congruence. reflexivity.
Qed.

(** A shape with distinct keys gives each key one schema. *)
Lemma shape_functional (shape : list (string * ZodType)) (k : string)
    (t t' : ZodType) :
  List.NoDup (map fst shape) →
  In (k, t) shape → In (k, t') shape → t' = t.
Proof.
  induction shape as [ | [j u] rest IH ]; simpl; [tauto | ].
  intros Hnodup Hin Hin'.
  apply NoDup_cons_iff in Hnodup as [Hfresh Hnodup].
  destruct Hin as [[= -> ->] | Hin], Hin' as [[= <-] | Hin']; auto.
  - exfalso. apply Hfresh. apply (in_map fst) in Hin'. exact Hin'.
  - exfalso. apply Hfresh. apply (in_map fst) in Hin. subst. exact Hin.
Qed.

(** On success an omitted field with a valid default holds the default. *)
Lemma object_parse_omitted (emailRegex : string → bool)
    (shape : list (string * ZodType)) (body out : Document)
    (k : string) (inner : ZodType) (def : Value) :
  In (k, z_default inner def) shape →
  List.NoDup (map fst shape) →
  parse emailRegex inner (Some def) = Valid (Some def) →
  object_parse emailRegex shape body = Success out →
  body !! k = None → out !! k = Some def.
Proof.
  intros Hin Hnodup Hdef Hparse Hnone.
  pose proof (object_parse_lookup emailRegex shape body out k _
                Hnodup Hin Hparse) as Hl.
  rewrite Hnone in Hl. simpl in Hl. rewrite Hdef in Hl.
  injection Hl as <-. reflexivity.
Qed.

(** ** Strings: length in code units *)

Lemma leading_positive (b : N) : (1 ≤ (JsString.leading b).1)%nat.
Proof.
  unfold JsString.leading.
  repeat match goal with |- context [if ?c then _ else _] => destruct c end;
    simpl; lia.
Qed.

(** Only the empty string has length 0. *)
Lemma JsString_length_nonempty (s : string) :
  s ≠ "" → (1 ≤ JsString.length s)%nat.
Proof.
  destruct s as [ | c rest ]; [contradiction | ]. intros _.
  unfold JsString.length. cbn [JsString.units].
  pose proof (leading_positive (N_of_ascii c)). lia.
Qed.

(** ** Validation, continued *)

Section ZodMoreFacts.

Variable emailRegex : string → bool.

(** The normalized object has no key outside the shape. *)
Lemma parseShape_dom (shape : list (string * ZodType)) (data : Document)
    (k : string) :
  ¬ In k (map fst shape) → (parseShape emailRegex shape data).2 !! k = None.
Proof.
  induction shape as [ | [j t] rest IH ]; simpl; intros Hk.
  - apply lookup_empty.
  - apply Decidable.not_or in Hk as [Hne Hk].
    destruct (parse emailRegex t (data !! j)) as [[v | ] | issues]; simpl;
      rewrite ?lookup_insert_ne by congruence; auto.
Qed.

Lemma object_parse_dom (shape : list (string * ZodType))
    (data out : Document) (k : string) :
  object_parse emailRegex shape data = Success out →
  ¬ In k (map fst shape) → out !! k = None.
Proof.
  unfold object_parse. intros Hparse Hk.
  pose proof (parseShape_dom shape data k Hk) as Hdom.
  destruct (parseShape emailRegex shape data) as [[ | e es] o];
    [ | discriminate ].
  injection Hparse as <-. exact Hdom.
Qed.

(** If every field is valid, so is the object. *)
Lemma parseShape_valid (shape : list (string * ZodType)) (data : Document) :
  (∀ k t, In (k, t) shape →
          ∃ out, parse emailRegex t (data !! k) = Valid out) →
  (parseShape emailRegex shape data).1 = [].
Proof.
  induction shape as [ | [k t] rest IH ]; simpl; intros Hall;
    [reflexivity | ].
  destruct (Hall k t (or_introl eq_refl)) as [out ->].
  destruct out; simpl; apply IH; auto.
Qed.

(** A string schema, optional or not, hands the value on as it is. *)
Lemma parse_string_same (checks : list StringCheck) (input out : option Value) :
  (parse emailRegex (z_string checks) input = Valid out
   ∨ parse emailRegex (z_optional (z_string checks)) input = Valid out) →
  out = input.
Proof.
  intros [Hparse | Hparse]; simpl in Hparse;
    destruct input as [[ | | | s | | | ] | ]; simpl in Hparse;
    try discriminate; try congruence;
    unfold issuesOrValid in Hparse;
    destruct (stringIssues emailRegex checks s); congruence.
Qed.

End ZodMoreFacts.

(** A string with a minimal length is accepted exactly when it is a
    string that long. *)
Lemma parse_min_length (emailRegex : string → bool) (n : nat)
    (message : string) (input out : option Value) :
  parse emailRegex (z_string [min_length n message]) input = Valid out
  ↔ ∃ s, input = Some (VStr s) ∧ out = Some (VStr s)
         ∧ (n ≤ JsString.length s)%nat.
Proof.
  simpl. split.
  - destruct input as [[ | | | s | | | ] | ]; try discriminate.
    simpl. rewrite app_nil_r.
    destruct (Nat.ltb_spec (JsString.length s) n) as [Hlt | Hge]; simpl;
      [discriminate | ].
    intros [= <-]. eauto.
  - intros (s & -> & -> & Hlen). simpl. rewrite app_nil_r.
    destruct (Nat.ltb_spec (JsString.length s) n) as [Hlt | Hge]; simpl;
      [lia | reflexivity].
Qed.

Section ZodPassThrough.

Variable emailRegex : string → bool.

Lemma issuesOrValid_Valid (issues : list string) (v : Value)
    (out : option Value) :
  issuesOrValid issues v = Valid out → issues = [] ∧ out = Some v.
Proof.
  destruct issues; simpl; [intros [= <-]; auto | discriminate].
Qed.

(** A schema changes no value it accepts: what is given comes out as it
    went in. *)
Lemma parse_Some_same (t : ZodType) (v : Value) (out : option Value) :
  parse emailRegex t (Some v) = Valid out → out = Some v.
Proof.
  revert v out.
  induction t as [ checks | min | | element IH min | inner IH
                 | inner IH def ]; intros v out; simpl.
  - destruct v; try discriminate.
    intros H. apply issuesOrValid_Valid in H. tauto.
  - destruct v; try discriminate.
    intros H. apply issuesOrValid_Valid in H. tauto.
  - destruct v; try discriminate. intros [= <-]. reflexivity.
  - destruct v as [ | | | | | | items ]; try discriminate.
    intros H. apply issuesOrValid_Valid in H as [Hissues ->].
    apply app_eq_nil in Hissues as [_ Hissues].
    do 2 f_equal.
    induction items as [ | x xs IHitems ]; simpl in *; [reflexivity | ].
    destruct (parse emailRegex element (Some x)) as [o | msgs] eqn:Hx.
    + apply IH in Hx as ->. simpl. f_equal. apply IHitems. exact Hissues.
    + apply app_eq_nil in Hissues as [-> _].
      exfalso. exact (parse_Invalid_nonempty emailRegex _ _ Hx).
  - apply IH.
  - apply IH.
Qed.

(** Under [partial()], the parsed object is the body cut down to the keys
    of the schema. *)
Lemma partial_parse_restricts (shape : list (string * ZodType))
    (body data : Document) (k : string) :
  List.NoDup (map fst shape) →
  object_parse emailRegex (partial shape) body = Success data →
  (In k (map fst shape) → data !! k = body !! k)
  ∧ (¬ In k (map fst shape) → data !! k = None).
Proof.
  intros Hnodup Hparse.
  assert (Hkeys : map fst (partial shape) = map fst shape).
  { unfold partial. rewrite map_map. reflexivity. }
  split; [intros Hin | intros Hout].
  - apply in_map_iff in Hin as ([k' t] & Hk & Hin). simpl in Hk. subst k'.
    assert (Hin' : In (k, z_optional t) (partial shape)).
    { unfold partial. apply in_map_iff. exists (k, t). auto. }
    pose proof (object_parse_lookup emailRegex (partial shape) body data k
                  (z_optional t) ltac:(rewrite Hkeys; exact Hnodup)
                  Hin' Hparse) as Hfield.
    simpl in Hfield. destruct (body !! k) as [v | ].
    + apply parse_Some_same in Hfield. exact Hfield.
    + congruence.
  - apply (object_parse_dom emailRegex (partial shape) body data k Hparse).
    rewrite Hkeys. exact Hout.
Qed.

End ZodPassThrough.

(** ** What each field schema accepts *)

Section ZodAccepts.

Variable emailRegex : string → bool.

Lemma parse_isText (message : string) (v : option Value) :
  isText v → parse emailRegex (z_string [min_length 1 message]) v = Valid v.
Proof.
  intros (s & -> & Hs). apply parse_min_length. exists s.
  split; [reflexivity | ]. split; [reflexivity | ].
  apply JsString_length_nonempty. exact Hs.
Qed.

Lemma parse_isTextOf (n : nat) (message : string) (v : option Value) :
  isTextOf n v →
  parse emailRegex (z_string [min_length n message]) v = Valid v.
Proof.
  intros (s & -> & Hs). apply parse_min_length. eauto.
Qed.

Lemma parse_isString (v : option Value) :
  isString v → parse emailRegex (z_string []) v = Valid v.
Proof. intros (s & ->). reflexivity. Qed.

Lemma parse_isEmail (message : string) (s : string) :
  emailRegex s = true →
  parse emailRegex (z_string [email message]) (Some (VStr s))
  = Valid (Some (VStr s)).
Proof. intros Hs. simpl. rewrite Hs. reflexivity. Qed.

Lemma parse_isNumber (v : option Value) :
  isNumber v → parse emailRegex (z_number None) v = Valid v.
Proof. intros (n & ->). reflexivity. Qed.

Lemma parse_isAmount (message : string) (v : option Value) :
  isAmount v →
  parse emailRegex (z_number (Some (0%Qc, message))) v = Valid v.
Proof.
  intros (n & -> & Hn). simpl.
  rewrite bool_decide_eq_true_2 by exact Hn. reflexivity.
Qed.

Lemma parse_isBoolean (v : option Value) :
  isBoolean v → parse emailRegex z_boolean v = Valid v.
Proof. intros (b & ->). reflexivity. Qed.

Lemma texts_valid (f : Value → ParseReturn) (items : list string) :
  (∀ s, f (VStr s) = Valid (Some (VStr s))) →
  flat_map (fun r => match r with Invalid msgs => msgs | Valid _ => [] end)
    (map f (map VStr items)) = []
  ∧ flat_map (fun r => match r with Valid (Some v) => [v] | _ => [] end)
      (map f (map VStr items)) = map VStr items.
Proof.
  intros Hf. induction items as [ | s rest [IH1 IH2] ]; simpl; [auto | ].
  rewrite Hf. simpl. split; [exact IH1 | ]. f_equal. exact IH2.
Qed.

Lemma parse_isTexts (v : option Value) :
  isTexts v → parse emailRegex (z_array (z_string []) None) v = Valid v.
Proof.
  intros (items & ->). cbn [parse].
  match goal with
  | |- context [map ?f (map VStr items)] =>
      destruct (texts_valid f items) as [-> ->]; [reflexivity | ]
  end.
  reflexivity.
Qed.

Lemma parse_images (message : string) (items : list string) :
  items ≠ [] →
  parse emailRegex (z_array (z_string []) (Some (1%nat, message)))
    (Some (VArr (map VStr items)))
  = Valid (Some (VArr (map VStr items))).
Proof.
  intros Hne. cbn [parse].
  match goal with
  | |- context [map ?f (map VStr items)] =>
      destruct (texts_valid f items) as [-> ->]; [reflexivity | ]
  end.
  destruct items as [ | s rest ]; [contradiction | reflexivity].
Qed.

Lemma parse_absentOr (P : option Value → Prop) (t : ZodType)
    (v : option Value) :
  (P v → parse emailRegex t v = Valid v) →
  absentOr P v → parse emailRegex (z_optional t) v = Valid v.
Proof.
  intros Hparse [-> | Hv]; [reflexivity | ].
  specialize (Hparse Hv). destruct v; [exact Hparse | reflexivity].
Qed.

Lemma parse_defaulted (P : option Value → Prop) (t : ZodType) (def : Value)
    (v : option Value) :
  (P v → parse emailRegex t v = Valid v) →
  parse emailRegex t (Some def) = Valid (Some def) →
  absentOr P v →
  parse emailRegex (z_default t def) v = Valid (Some (default def v)).
Proof.
  intros Hparse Hdef [-> | Hv]; [exact Hdef | ].
  specialize (Hparse Hv). destruct v as [w | ]; [exact Hparse | exact Hdef].
Qed.

(** When no field raises an issue, validation succeeds. *)
Lemma object_parse_accepts (shape : list (string * ZodType))
    (body : Document) :
  (∀ k t, In (k, t) shape →
          ∃ out, parse emailRegex t (body !! k) = Valid out) →
  ∃ out, object_parse emailRegex shape body = Success out.
Proof.
  intros Hall. pose proof (parseShape_valid emailRegex shape body Hall) as H.
  unfold object_parse.
  destruct (parseShape emailRegex shape body) as [issues out].
  simpl in H. subst issues. eauto.
Qed.

Lemma parse_None_same (t : ZodType) (out : option Value) :
  (∀ inner def, t ≠ z_default inner def) →
  parse emailRegex t None = Valid out → out = None.
Proof.
  intros Hplain. destruct t; simpl; try discriminate.
  - intros [= <-]. reflexivity.
  - exfalso. exact (Hplain _ _ eq_refl).
Qed.

(** A field without a default comes out as it went in. *)
Lemma object_parse_same (shape : list (string * ZodType))
    (body out : Document) (k : string) (t : ZodType) :
  List.NoDup (map fst shape) →
  In (k, t) shape →
  (∀ inner def, t ≠ z_default inner def) →
  object_parse emailRegex shape body = Success out →
  out !! k = body !! k.
Proof.
  intros Hnodup Hin Hplain Hparse.
  pose proof (object_parse_lookup emailRegex shape body out k t Hnodup Hin
                Hparse) as Hfield.
  destruct (body !! k) as [v | ].
  - apply parse_Some_same in Hfield. exact Hfield.
  - apply parse_None_same in Hfield; assumption.
Qed.

(** A field with a default comes out as it went in, or as the default
    when it was left out. *)
Lemma object_parse_defaulted (shape : list (string * ZodType))
    (body out : Document) (k : string) (inner : ZodType) (def : Value) :
  List.NoDup (map fst shape) →
  In (k, z_default inner def) shape →
  object_parse emailRegex shape body = Success out →
  out !! k = Some (default def (body !! k)).
Proof.
  intros Hnodup Hin Hparse.
  pose proof (object_parse_lookup emailRegex shape body out k _ Hnodup Hin
                Hparse) as Hfield.
  simpl in Hfield.
  destruct (body !! k) as [v | ]; apply parse_Some_same in Hfield;
    exact Hfield.
Qed.

End ZodAccepts.

Ltac field_accepted :=
  first
    [ eexists; apply parse_isText; eassumption
    | eexists; apply parse_isTextOf; eassumption
    | eexists; apply parse_isString; eassumption
    | eexists; apply parse_isAmount; eassumption
    | eexists; eapply parse_absentOr; [ | eassumption ];
      first [ apply parse_isString | apply parse_isNumber
            | apply parse_isTexts ]
    | eexists; eapply parse_defaulted; [ | | eassumption ];
      [ first [ apply parse_isString | apply parse_isBoolean ]
      | reflexivity ] ].

(** C8.  A body that the property schema has no objection to is
    accepted, and the normalized value holds ["SAR"], [false] and
    ["available"] under [currency], [isRental] and [status] where the
    body omits them (and the body's value where it does not), the other
    fields being those of the body; likewise a user body is accepted with
    ["user"] under [role] when it omits it.  More generally a body
    without one of these fields is validated exactly as if it carried the
    default there, and whenever validation succeeds on a body that omits
    one of them, the normalized value holds the default. *)
Theorem insert_schemas_apply_defaults (emailRegex : string → bool)
    (body : Document) :
  object_parse emailRegex insertPropertySchema (delete "currency" body)
  = object_parse emailRegex insertPropertySchema
      (<["currency" := VStr "SAR"]> body)
  ∧ object_parse emailRegex insertPropertySchema (delete "isRental" body)
    = object_parse emailRegex insertPropertySchema
        (<["isRental" := VBool false]> body)
  ∧ object_parse emailRegex insertPropertySchema (delete "status" body)
    = object_parse emailRegex insertPropertySchema
        (<["status" := VStr "available"]> body)
  ∧ object_parse emailRegex insertUserSchema (delete "role" body)
    = object_parse emailRegex insertUserSchema
        (<["role" := VStr "user"]> body)
  ∧ (∀ out, object_parse emailRegex insertPropertySchema body = Success out →
       (body !! "currency" = None → out !! "currency" = Some (VStr "SAR"))
       ∧ (body !! "isRental" = None → out !! "isRental" = Some (VBool false))
       ∧ (body !! "status" = None →
          out !! "status" = Some (VStr "available")))
  ∧ (∀ out, object_parse emailRegex insertUserSchema body = Success out →
       body !! "role" = None → out !! "role" = Some (VStr "user"))
  ∧ (acceptableProperty body →
     ∃ out,
       object_parse emailRegex insertPropertySchema body = Success out
       ∧ out !! "currency"
         = Some (default (VStr "SAR") (body !! "currency"))
       ∧ out !! "isRental"
         = Some (default (VBool false) (body !! "isRental"))
       ∧ out !! "status"
         = Some (default (VStr "available") (body !! "status"))
       ∧ (∀ k, ¬ In k ["currency"; "isRental"; "status"] →
               In k (map fst insertPropertySchema) →
               out !! k = body !! k)
       ∧ (∀ k, ¬ In k (map fst insertPropertySchema) → out !! k = None))
  ∧ (acceptableUser emailRegex body →
     ∃ out,
       object_parse emailRegex insertUserSchema body = Success out
       ∧ out !! "role" = Some (default (VStr "user") (body !! "role"))
       ∧ (∀ k, k ≠ "role" → In k (map fst insertUserSchema) →
               out !! k = body !! k)
       ∧ (∀ k, ¬ In k (map fst insertUserSchema) → out !! k = None)).
Proof.
  split; [ | split; [ | split; [ | split; [ | split; [ | split;
    [ | split ]]]]]].
  - apply (object_parse_default _ _ _ _ (z_string []) (VStr "SAR")).
    intros k' t Hin ->.
    eapply (shape_functional _ _ _ _ insertPropertySchema_keys);
      [ | exact Hin ].
    unfold insertPropertySchema. simpl. tauto.
  - apply (object_parse_default _ _ _ _ z_boolean (VBool false)).
    intros k' t Hin ->.
    eapply (shape_functional _ _ _ _ insertPropertySchema_keys);
      [ | exact Hin ].
    unfold insertPropertySchema. simpl. tauto.
  - apply (object_parse_default _ _ _ _ (z_string []) (VStr "available")).
    intros k' t Hin ->.
    eapply (shape_functional _ _ _ _ insertPropertySchema_keys);
      [ | exact Hin ].
    unfold insertPropertySchema. simpl. tauto.
  - apply (object_parse_default _ _ _ _ (z_string []) (VStr "user")).
    intros k' t Hin ->.
    eapply (shape_functional _ _ _ _ insertUserSchema_keys);
      [ | exact Hin ].
    unfold insertUserSchema. simpl. tauto.
  - intros out Hparse.
    split; [ | split ]; intros Hnone;
      (eapply object_parse_omitted;
       [ | apply insertPropertySchema_keys | | exact Hparse | exact Hnone ];
       [ unfold insertPropertySchema; simpl; tauto | reflexivity ]).
  - intros out Hparse Hnone.
    eapply object_parse_omitted;
      [ | apply insertUserSchema_keys | | exact Hparse | exact Hnone ];
      [ unfold insertUserSchema; simpl; tauto | reflexivity ].
  - intros (Htitle & Hdescription & Htype & Hprice & Hcurrency & HisRental
            & HrentalPeriod & Hcity & Harea & Hneighborhood & Haddress
            & Hbedrooms & Hbathrooms & Hsize & Hfeatures & Himages & Hstatus
            & HpropertyCode & Hlatitude & Hlongitude).
    destruct (object_parse_accepts emailRegex insertPropertySchema body)
      as [out Hparse].
    { intros k t Hin. unfold insertPropertySchema in Hin.
      repeat (destruct Hin as [[= <- <-] | Hin]);
        first
          [ field_accepted
          | destruct Himages as (items & -> & Hne);
            eexists; apply parse_images; exact Hne
          | destruct Hin ]. }
    exists out. split; [exact Hparse | ].
    split.
    { apply (object_parse_defaulted emailRegex insertPropertySchema body out
               "currency" (z_string []) _ insertPropertySchema_keys);
        [simpl; auto 25 | exact Hparse]. }
    split.
    { apply (object_parse_defaulted emailRegex insertPropertySchema body out
               "isRental" z_boolean _ insertPropertySchema_keys);
        [simpl; auto 25 | exact Hparse]. }
    split.
    { apply (object_parse_defaulted emailRegex insertPropertySchema body out
               "status" (z_string []) _ insertPropertySchema_keys);
        [simpl; auto 25 | exact Hparse]. }
    split.
    + intros k Hk Hin. apply in_map_iff in Hin as ([k' t] & Hfst & Hin).
      simpl in Hfst. subst k'.
      apply (object_parse_same emailRegex insertPropertySchema body out k t
               insertPropertySchema_keys Hin); [ | exact Hparse ].
      unfold insertPropertySchema in Hin. simpl in Hk.
      repeat (destruct Hin as [[= <- <-] | Hin]);
        first [ discriminate | tauto | destruct Hin ].
    + intros k Hk.
      exact (object_parse_dom emailRegex _ body out k Hparse Hk).
  - intros (Husername & Hpassword & Hname & Hrole & Hemail & Hphone).
    destruct (object_parse_accepts emailRegex insertUserSchema body)
      as [out Hparse].
    { intros k t Hin. unfold insertUserSchema in Hin.
      repeat (destruct Hin as [[= <- <-] | Hin]);
        first
          [ field_accepted
          | destruct Hemail as (s & -> & Hs);
            eexists; apply parse_isEmail; exact Hs
          | destruct Hin ]. }
    exists out. split; [exact Hparse | ].
    split.
    { apply (object_parse_defaulted emailRegex insertUserSchema body out
               "role" (z_string []) _ insertUserSchema_keys);
        [simpl; auto 25 | exact Hparse]. }
    split.
    + intros k Hk Hin. apply in_map_iff in Hin as ([k' t] & Hfst & Hin).
      simpl in Hfst. subst k'.
      apply (object_parse_same emailRegex insertUserSchema body out k t
               insertUserSchema_keys Hin); [ | exact Hparse ].
      unfold insertUserSchema in Hin.
      repeat (destruct Hin as [[= <- <-] | Hin]);
        first [ discriminate | tauto | destruct Hin ].
    + intros k Hk.
      exact (object_parse_dom emailRegex _ body out k Hparse Hk).
Qed.

Ltac sample_field :=
  first
    [ left; vm_compute; reflexivity
    | right; eexists; vm_compute; reflexivity
    | eexists; split;
      [ vm_compute; reflexivity
      | first [ discriminate | vm_compute; discriminate | reflexivity
              | apply (bool_decide_unpack _); vm_compute; exact I ] ]
    | exists ["villa.jpg"]; split; [vm_compute; reflexivity | discriminate]
    | eexists; vm_compute; reflexivity ].

Lemma sample_bodies_acceptable :
  acceptableProperty (<["propertyCode" := VStr "SA-20001"]> bodyWithoutCode)
  ∧ acceptableUser (fun _ => true) bodyWithoutRole.
Proof.
  split.
  - unfold acceptableProperty. repeat (split; [sample_field | ]).
    sample_field.
  - unfold acceptableUser. repeat (split; [sample_field | ]).
    sample_field.
Qed.

Lemma insert_schemas_apply_defaults_witness :
  (∃ out,
     object_parse (fun _ => true) insertPropertySchema
       (<["propertyCode" := VStr "SA-20001"]> bodyWithoutCode) = Success out
     ∧ out !! "currency" = Some (VStr "SAR")
     ∧ out !! "isRental" = Some (VBool false)
     ∧ out !! "status" = Some (VStr "available")
     ∧ out !! "title" = Some (VStr "Villa"))
  ∧ (∃ out,
       object_parse (fun _ => true) insertUserSchema bodyWithoutRole
       = Success out
       ∧ out !! "role" = Some (VStr "user")
       ∧ out !! "username" = Some (VStr "editor")).
Proof.
  destruct sample_bodies_acceptable as [Hproperty Huser].
  split.
  - destruct (insert_schemas_apply_defaults (fun _ => true)
                (<["propertyCode" := VStr "SA-20001"]> bodyWithoutCode))
      as (_ & _ & _ & _ & _ & _ & Haccept & _).
    destruct (Haccept Hproperty)
      as (out & Hparse & Hcurrency & HisRental & Hstatus & Hsame & _).
    exists out. split; [exact Hparse | ].
    split; [rewrite Hcurrency; vm_compute; reflexivity | ].
    split; [rewrite HisRental; vm_compute; reflexivity | ].
    split; [rewrite Hstatus; vm_compute; reflexivity | ].
    rewrite Hsame; [vm_compute; reflexivity | | ].
    + simpl. intuition discriminate.
    + simpl. auto.
  - destruct (insert_schemas_apply_defaults (fun _ => true) bodyWithoutRole)
      as (_ & _ & _ & _ & _ & _ & _ & Haccept).
    destruct (Haccept Huser) as (out & Hparse & Hrole & Hsame & _).
    exists out. split; [exact Hparse | ].
    split; [rewrite Hrole; vm_compute; reflexivity | ].
    rewrite Hsame; [vm_compute; reflexivity | discriminate | ].
    simpl. auto.
Defined.

(** Both insert schemas accept a body that leaves the defaulted fields
    out (with a supplied propertyCode for the property), and fill them
    in. *)
Example insertPropertySchema_defaults_sample :
  match object_parse (fun _ => true) insertPropertySchema
          (<["propertyCode" := VStr "SA-20001"]> bodyWithoutCode) with
  | Success out =>
      out !! "currency" = Some (VStr "SAR")
      ∧ out !! "isRental" = Some (VBool false)
      ∧ out !! "status" = Some (VStr "available")
  | ZodError _ => False
  end.
Proof. vm_compute. repeat split; reflexivity. Qed.

Example insertUserSchema_defaults_sample :
  match object_parse (fun _ => true) insertUserSchema bodyWithoutRole with
  | Success out => out !! "role" = Some (VStr "user")
  | ZodError _ => False
  end.
Proof. vm_compute. reflexivity. Qed.

(** ** Creating a property *)

(** C5, what the code does instead: a body without [propertyCode] never
    reaches the generation step; validation rejects it and the route
    answers 400 without touching the store. *)
Theorem POST_api_properties_without_code_rejected
    (emailRegex : string → bool) (random : Qc) (now : Z) (oid : ObjectId)
    (body : Document) (storage : MongoStorage) :
  body !! "propertyCode" = None →
  ∃ message,
    POST_api_properties emailRegex random now oid body storage
    = (respond 400 (JMessage message), storage).
Proof.
  intros Hnone. unfold POST_api_properties.
  destruct (object_parse_issue emailRegex insertPropertySchema body
              "propertyCode" (z_string []) "Required" [])
    as (e & es & ->).
  - unfold insertPropertySchema. simpl. tauto.
  - rewrite Hnone. reflexivity.
  - eauto.
Qed.

Lemma POST_api_properties_without_code_rejected_witness :
  bodyWithoutCode !! "propertyCode" = None
  ∧ ∃ message,
      POST_api_properties (fun _ => true) (Q2Qc (1 # 2)) 5000
        (sampleOid h4) bodyWithoutCode sampleStorage
      = (respond 400 (JMessage message), sampleStorage).
Proof.
  split; [vm_compute; reflexivity | ].
  apply (POST_api_properties_without_code_rejected (fun _ => true)
           (Q2Qc (1 # 2)) 5000 (sampleOid h4) bodyWithoutCode sampleStorage).
  vm_compute. reflexivity.
Defined.

(** The same body is rejected with the message "Required"; with an empty
    string as [propertyCode] it is accepted and a code is generated. *)
Example POST_api_properties_sample :
  (POST_api_properties (fun _ => true) (Q2Qc (1 # 2)) 5000 (sampleOid h4)
     bodyWithoutCode sampleStorage).1
  = respond 400 (JMessage "Required")
  ∧ match (POST_api_properties (fun _ => true) (Q2Qc (1 # 2)) 5000
             (sampleOid h4) (<["propertyCode" := VStr ""]> bodyWithoutCode)
             sampleStorage).1 with
    | {| status := code; json := JDoc property |} =>
        code = 201%nat ∧ property !! "propertyCode" = Some (VStr "SA-55000")
    | _ => False
    end.
Proof.
  split; [vm_compute; reflexivity | ].
  vm_compute. split; reflexivity.
Qed.


(** ** Updates *)

Lemma splitFirst_Some (p : Document → bool) (coll pre post : list Document)
    (d : Document) :
  Mongo.splitFirst p coll = Some (pre, d, post) →
  coll = pre ++ d :: post ∧ p d = true ∧ ∀ x, In x pre → p x = false.
Proof.
  revert pre. induction coll as [ | x xs IH ]; simpl; intros pre;
    [discriminate | ].
  destruct (p x) eqn:Hpx.
  - intros [= <- <- <-]. simpl. tauto.
  - destruct (Mongo.splitFirst p xs) as [[[pre' d'] post'] | ];
      [ | discriminate ].
    intros [= <- <- <-]. destruct (IH pre' eq_refl) as (-> & Hd & Hpre).
    split; [reflexivity | ]. split; [exact Hd | ].
    intros y [<- | Hy]; auto.
Qed.

Lemma splitFirst_first (p : Document → bool) (pre post : list Document)
    (d : Document) :
  (∀ x, In x pre → p x = false) → p d = true →
  Mongo.splitFirst p (pre ++ d :: post) = Some (pre, d, post).
Proof.
  intros Hpre Hd. induction pre as [ | x xs IH ]; simpl.
  - rewrite Hd. reflexivity.
  - rewrite (Hpre x) by (simpl; auto).
    rewrite IH by (intros y Hy; apply Hpre; simpl; auto). reflexivity.
Qed.

Lemma splitFirst_find (p : Document → bool) (coll : list Document) :
  match List.find p coll with
  | Some d => ∃ pre post, Mongo.splitFirst p coll = Some (pre, d, post)
  | None => Mongo.splitFirst p coll = None
  end.
Proof.
  induction coll as [ | x xs IH ]; simpl; [reflexivity | ].
  destruct (p x); [eauto | ].
  destruct (List.find p xs) as [d | ].
  - destruct IH as (pre & post & ->). eauto.
  - rewrite IH. reflexivity.
Qed.

(** The update changes nothing exactly when merging it into the document
    gives the document back. *)
Lemma isNoop_spec (upd d : Document) :
  Mongo.isNoop upd d = true ↔ Mongo.applySet upd d = d.
Proof.
  unfold Mongo.isNoop, Mongo.applySet. rewrite forallb_forall. split.
  - intros Hall. apply map_subseteq_union. apply map_subseteq_spec.
    intros k v Hk. apply field_eqb_eq.
    apply (Hall (k, v)). apply list_elem_of_In, elem_of_map_to_list. exact Hk.
  - intros Heq [k v] Hin. simpl. apply field_eqb_eq.
    apply list_elem_of_In, elem_of_map_to_list in Hin.
    rewrite <- Heq. apply lookup_union_Some_l. exact Hin.
Qed.

Lemma violatesUnique_nil (d : Document) (others : list Document) :
  Mongo.violatesUnique [] d others = false.
Proof.
  unfold Mongo.violatesUnique. induction others; simpl; auto.
Qed.

Lemma violatesUnique_false (unique : list string) (d : Document)
    (others : list Document) :
  Mongo.violatesUnique unique d others = false ↔
  ∀ x k, In x others → In k unique → x !! k ≠ d !! k.
Proof.
  unfold Mongo.violatesUnique. split.
  - intros Hnone x k Hx Hk Heq.
    assert (Htrue : existsb (fun o => existsb
              (fun k => field_eqb (o !! k) (d !! k)) unique) others = true).
    { apply existsb_exists. exists x. split; [exact Hx | ].
      apply existsb_exists. exists k. split; [exact Hk | ].
      apply field_eqb_eq. exact Heq. }
    congruence.
  - intros Hall. apply not_true_is_false. intros Htrue.
    apply existsb_exists in Htrue as (x & Hx & Htrue).
    apply existsb_exists in Htrue as (k & Hk & Heq).
    apply field_eqb_eq in Heq. exact (Hall x k Hx Hk Heq).
Qed.

(** What [updateOne] does to the document it matched, for an update that
    does not touch [_id]. *)
Lemma updateOne_matched (unique : list string) (o : ObjectId)
    (upd : Document) (pre post : list Document) (d : Document) :
  (∀ x, In x pre → x !! "_id" ≠ Some (VOid o)) →
  d !! "_id" = Some (VOid o) →
  upd !! "_id" = None →
  Mongo.updateOne unique (Mongo.byId o) upd (pre ++ d :: post)
  = if Mongo.isNoop upd d then
      Ok ({| Mongo.matchedCount := 1; Mongo.modifiedCount := 0 |},
          Some d, pre ++ d :: post)
    else if Mongo.violatesUnique unique (Mongo.applySet upd d) (pre ++ post)
    then Throw DuplicateKey
    else Ok ({| Mongo.matchedCount := 1; Mongo.modifiedCount := 1 |},
             Some (Mongo.applySet upd d),
             pre ++ Mongo.applySet upd d :: post).
Proof.
  intros Hpre Hd Hupd. unfold Mongo.updateOne.
  rewrite splitFirst_first;
    [ | intros x Hx; apply matches_byId_false; auto
      | apply matches_byId; exact Hd ].
  destruct (Mongo.isNoop upd d); [reflexivity | ].
  assert (Hid : Mongo.applySet upd d !! "_id" = d !! "_id").
  { unfold Mongo.applySet. apply lookup_union_r. exact Hupd. }
  rewrite Hid.
  assert (Hrefl : field_eqb (d !! "_id") (d !! "_id") = true)
    by (apply field_eqb_eq; reflexivity).
  rewrite Hrefl. reflexivity.
Qed.

Lemma updateOne_unmatched (unique : list string) (o : ObjectId)
    (upd : Document) (coll : list Document) :
  (∀ x, In x coll → x !! "_id" ≠ Some (VOid o)) →
  Mongo.updateOne unique (Mongo.byId o) upd coll
  = Ok ({| Mongo.matchedCount := 0; Mongo.modifiedCount := 0 |}, None, coll).
Proof.
  intros Hnone. unfold Mongo.updateOne.
  pose proof (splitFirst_find (Mongo.matches (Mongo.byId o)) coll) as Hsplit.
  rewrite find_all_false in Hsplit
    by (intros x Hx; apply matches_byId_false; auto).
  rewrite Hsplit. reflexivity.
Qed.

(** Every collection either has no document of a given id or splits
    around the first one. *)
Lemma collection_by_id (o : ObjectId) (coll : list Document) :
  (∀ x, In x coll → x !! "_id" ≠ Some (VOid o))
  ∨ ∃ pre d post,
      coll = pre ++ d :: post
      ∧ d !! "_id" = Some (VOid o)
      ∧ ∀ x, In x pre → x !! "_id" ≠ Some (VOid o).
Proof.
  pose proof (splitFirst_find (Mongo.matches (Mongo.byId o)) coll) as Hsplit.
  destruct (List.find (Mongo.matches (Mongo.byId o)) coll) as [d | ] eqn:Hfind.
  - right. destruct Hsplit as (pre & post & Hsplit).
    apply splitFirst_Some in Hsplit as (-> & Hd & Hpre).
    exists pre, d, post. split; [reflexivity | ].
    split; [apply matches_byId; exact Hd | ].
    intros x Hx Hid. apply matches_byId in Hid.
    rewrite (Hpre x Hx) in Hid. discriminate.
  - left. intros x Hx Hid. apply matches_byId in Hid.
    rewrite (find_none _ _ Hfind x Hx) in Hid. discriminate.
Qed.

Lemma isNoop_flag (k : string) (v : Value) (d : Document) :
  Mongo.isNoop {[k := v]} d = field_eqb (d !! k) (Some v).
Proof.
  unfold Mongo.isNoop. rewrite map_to_list_singleton. simpl.
  apply andb_true_r.
Qed.

Lemma applySet_flag (k : string) (v : Value) (d : Document) :
  Mongo.applySet {[k := v]} d = <[k := v]> d.
Proof. unfold Mongo.applySet. symmetry. apply insert_union_singleton_l. Qed.

Lemma find_first (p : Document → bool) (pre post : list Document)
    (d : Document) :
  (∀ x, In x pre → p x = false) → p d = true →
  List.find p (pre ++ d :: post) = Some d.
Proof.
  intros Hpre Hd. induction pre as [ | x xs IH ]; simpl.
  - rewrite Hd. reflexivity.
  - rewrite (Hpre x) by (simpl; auto).
    apply IH. intros y Hy. apply Hpre. simpl. auto.
Qed.

(** Setting a boolean flag by id always succeeds; it either leaves the
    collection as it is and counts no modification, or changes it and
    counts one; a document whose flag is already set is not modified. *)
Lemma updateOne_flag (o : ObjectId) (k : string) (coll : list Document) :
  k ≠ "_id" →
  ∃ r after coll',
    Mongo.updateOne [] (Mongo.byId o) {[k := VBool true]} coll
    = Ok (r, after, coll')
    ∧ ((Mongo.modifiedCount r = 0%nat ∧ coll' = coll)
       ∨ (Mongo.modifiedCount r = 1%nat ∧ coll' ≠ coll))
    ∧ (∀ d, Mongo.findOne (Mongo.byId o) coll = Some d →
            d !! k = Some (VBool true) → Mongo.modifiedCount r = 0%nat).
Proof.
  intros Hk.
  destruct (collection_by_id o coll)
    as [Hnone | (pre & d & post & -> & Hd & Hpre)].
  - rewrite updateOne_unmatched by exact Hnone.
    eexists _, _, _. split; [reflexivity | ]. split; [left; auto | ].
    intros d Hfind. reflexivity.
  - rewrite updateOne_matched;
      [ | exact Hpre | exact Hd | apply lookup_singleton_ne; exact Hk ].
    rewrite violatesUnique_nil.
    destruct (Mongo.isNoop {[k := VBool true]} d) eqn:Hnoop.
    + eexists _, _, _. split; [reflexivity | ]. split; [left; auto | ].
      reflexivity.
    + eexists _, _, _. split; [reflexivity | ]. split.
      * right. split; [reflexivity | ].
        intros Heq. apply app_inv_head in Heq. injection Heq as Heq.
        apply isNoop_spec in Heq. congruence.
      * intros d' Hfind Hflag. exfalso.
        unfold Mongo.findOne in Hfind.
        rewrite find_first in Hfind;
          [ | intros x Hx; apply matches_byId_false; auto
            | apply matches_byId; exact Hd ].
        injection Hfind as <-.
        rewrite isNoop_flag, Hflag in Hnoop. simpl in Hnoop. discriminate.
Qed.

Lemma setContactMessages_same (this : MongoStorage)
    (coll coll' : list Document) :
  contactMessagesCollection this = Some coll →
  setContactMessages this coll' = this ↔ coll' = coll.
Proof.
  destruct this as [u p c t]. unfold setContactMessages. simpl.
  intros ->. split; intros H; [injection H as -> | subst ]; reflexivity.
Qed.

Lemma setTestimonials_same (this : MongoStorage)
    (coll coll' : list Document) :
  testimonialsCollection this = Some coll →
  setTestimonials this coll' = this ↔ coll' = coll.
Proof.
  destruct this as [u p c t]. unfold setTestimonials. simpl.
  intros ->. split; intros H; [injection H as -> | subst ]; reflexivity.
Qed.

Lemma modified_flag (n : nat) :
  n = 0%nat ∨ n = 1%nat → (bool_decide (0 < n) = true ↔ n = 1%nat).
Proof.
  rewrite bool_decide_eq_true. lia.
Qed.

(** C9.  [markContactMessageAsRead] and [approveTestimonial] answer
    [true] exactly when the store was changed, on every store, for every
    id and independently of each other.  On a document that exists and
    already has [isRead = true] (resp. [isApproved = true]) they answer
    [false] and change nothing, and the routes answer 404. *)
Theorem flag_updates_report_modification (this : MongoStorage) :
  (∀ id b this', markContactMessageAsRead id this = Ok (b, this') →
                 (b = true ↔ this' ≠ this))
  ∧ (∀ id b this', approveTestimonial id this = Ok (b, this') →
                   (b = true ↔ this' ≠ this))
  ∧ (∀ msgs mid mo,
       contactMessagesCollection this = Some msgs →
       Bson.newObjectId mid = Ok mo →
       fieldById mo "isRead" msgs = Some (VBool true) →
       markContactMessageAsRead mid this = Ok (false, this)
       ∧ status (POST_api_contact_id_read mid this).1 = 404%nat
       ∧ (POST_api_contact_id_read mid this).2 = this)
  ∧ (∀ tests tid to,
       testimonialsCollection this = Some tests →
       Bson.newObjectId tid = Ok to →
       fieldById to "isApproved" tests = Some (VBool true) →
       approveTestimonial tid this = Ok (false, this)
       ∧ status (POST_api_admin_testimonials_id_approve tid this).1
         = 404%nat
       ∧ (POST_api_admin_testimonials_id_approve tid this).2 = this).
Proof.
  split; [ | split; [ | split ] ].
  - intros id b this'. unfold markContactMessageAsRead.
    destruct (contactMessagesCollection this) as [msgs | ] eqn:Hmsgs;
      [ | discriminate ].
    simpl.
    destruct (Bson.newObjectId id) as [o | e]; simpl; [ | discriminate ].
    destruct (updateOne_flag o "isRead" msgs) as
      (r & after & coll' & -> & Hcases & _); [discriminate | ].
    simpl. intros [= <- <-].
    rewrite (setContactMessages_same this msgs coll' Hmsgs).
    rewrite modified_flag by tauto.
    destruct Hcases as [[Hn Heq] | [Hn Hne]]; rewrite Hn; split;
      congruence.
  - intros id b this'. unfold approveTestimonial.
    destruct (testimonialsCollection this) as [tests | ] eqn:Htests;
      [ | discriminate ].
    simpl.
    destruct (Bson.newObjectId id) as [o | e]; simpl; [ | discriminate ].
    destruct (updateOne_flag o "isApproved" tests) as
      (r & after & coll' & -> & Hcases & _); [discriminate | ].
    simpl. intros [= <- <-].
    rewrite (setTestimonials_same this tests coll' Htests).
    rewrite modified_flag by tauto.
    destruct Hcases as [[Hn Heq] | [Hn Hne]]; rewrite Hn; split;
      congruence.
  - intros msgs mid mo Hmsgs Hmo Hread. unfold fieldById in Hread.
    destruct (Mongo.findOne (Mongo.byId mo) msgs) as [m | ] eqn:Hm;
      [ | discriminate ].
    simpl in Hread.
    assert (Hmark : markContactMessageAsRead mid this = Ok (false, this)).
    { unfold markContactMessageAsRead. rewrite Hmsgs, Hmo. simpl.
      destruct (updateOne_flag mo "isRead" msgs) as
        (r & after & coll' & Hupd & Hcases & Hset); [discriminate | ].
      rewrite Hm in Hset. rewrite Hupd.
      simpl. specialize (Hset m eq_refl Hread).
      destruct Hcases as [[_ ->] | [Hone _]]; [ | congruence ].
      rewrite Hset. simpl. f_equal. f_equal.
      apply (setContactMessages_same this msgs msgs Hmsgs). reflexivity. }
    split; [exact Hmark | ].
    unfold POST_api_contact_id_read. rewrite Hmark. split; reflexivity.
  - intros tests tid to Htests Hto Happroved. unfold fieldById in Happroved.
    destruct (Mongo.findOne (Mongo.byId to) tests) as [t | ] eqn:Ht;
      [ | discriminate ].
    simpl in Happroved.
    assert (Happrove : approveTestimonial tid this = Ok (false, this)).
    { unfold approveTestimonial. rewrite Htests, Hto. simpl.
      destruct (updateOne_flag to "isApproved" tests) as
        (r & after & coll' & Hupd & Hcases & Hset); [discriminate | ].
      rewrite Ht in Hset. rewrite Hupd.
      simpl. specialize (Hset t eq_refl Happroved).
      destruct Hcases as [[_ ->] | [Hone _]]; [ | congruence ].
      rewrite Hset. simpl. f_equal. f_equal.
      apply (setTestimonials_same this tests tests Htests). reflexivity. }
    split; [exact Happrove | ].
    unfold POST_api_admin_testimonials_id_approve. rewrite Happrove.
    split; reflexivity.
Qed.

Lemma flag_updates_report_modification_witness :
  contactMessagesCollection sampleStorage = Some [sampleMessage]
  ∧ testimonialsCollection sampleStorage = Some [sampleTestimonial]
  ∧ markContactMessageAsRead "000000000000000000000005" sampleStorage
    = Ok (false, sampleStorage)
  ∧ status (POST_api_contact_id_read "000000000000000000000005"
              sampleStorage).1 = 404%nat
  ∧ approveTestimonial "000000000000000000000006" sampleStorage
    = Ok (false, sampleStorage)
  ∧ status (POST_api_admin_testimonials_id_approve
              "000000000000000000000006" sampleStorage).1 = 404%nat
  ∧ (∀ b this', approveTestimonial "000000000000000000000006"
                  (setContactMessages sampleStorage []) = Ok (b, this') →
                (b = true ↔ this' ≠ setContactMessages sampleStorage [])).
Proof.
  split; [reflexivity | ]. split; [reflexivity | ].
  destruct (flag_updates_report_modification sampleStorage)
    as (_ & _ & Hmark & Happrove).
  destruct (Hmark [sampleMessage] "000000000000000000000005" (sampleOid h5))
    as (Hm & Hstatus & _).
  { reflexivity. }
  { vm_compute. reflexivity. }
  { vm_compute. reflexivity. }
  destruct (Happrove [sampleTestimonial] "000000000000000000000006"
              (sampleOid h6))
    as (Ha & Hstatus' & _).
  { reflexivity. }
  { vm_compute. reflexivity. }
  { vm_compute. reflexivity. }
  repeat (split; [assumption | ]).
  destruct (flag_updates_report_modification
              (setContactMessages sampleStorage []))
    as (_ & Hgeneral & _).
  intros b this'. apply Hgeneral.
Defined.

(** ** Testimonials: created unapproved, listed once approved *)

Lemma insertOne_fresh (unique : list string) (oid : ObjectId) (d : Document)
    (coll : list Document) :
  d !! "_id" = None →
  (∀ x k, In x coll → In k ("_id" :: unique) →
          x !! k ≠ <["_id" := VOid oid]> d !! k) →
  Mongo.insertOne unique oid d coll
  = Ok (VOid oid, coll ++ [<["_id" := VOid oid]> d]).
Proof.
  intros Hnone Hfresh. unfold Mongo.insertOne. rewrite Hnone.
  assert (Hok : Mongo.violatesUnique ("_id" :: unique)
                  (<["_id" := VOid oid]> d) coll = false)
    by (apply violatesUnique_false; exact Hfresh).
  rewrite Hok. reflexivity.
Qed.

Lemma matches_isApproved (d : Document) :
  Mongo.matches [("isApproved", Mongo.CEq (VBool true))] d = true
  ↔ d !! "isApproved" = Some (VBool true).
Proof.
  unfold Mongo.matches. simpl. rewrite andb_true_r.
  destruct (d !! "isApproved") as [v | ]; simpl.
  - rewrite Value_eqb_eq. split; congruence.
  - split; discriminate.
Qed.

(** A document that is not approved is not in the public listing. *)
Lemma approved_without (oid : ObjectId) (coll : list Document) :
  (∀ d, In d coll → d !! "_id" = Some (VOid oid) →
        d !! "isApproved" ≠ Some (VBool true)) →
  ∀ d, In d (Mongo.find [("isApproved", Mongo.CEq (VBool true))] coll) →
       d !! "_id" ≠ Some (VOid oid).
Proof.
  intros Hunapproved d Hd Hid. unfold Mongo.find in Hd.
  apply filter_In in Hd as [Hin Hm]. apply matches_isApproved in Hm.
  exact (Hunapproved d Hin Hid Hm).
Qed.

(** C6.  A testimonial created by [createTestimonial] is stored and
    returned with [isApproved = false] whatever the caller put in the
    object; right after creation the public listing
    [getApprovedTestimonials] does not contain it; approving any other id
    does not make it appear; [approveTestimonial] on its id succeeds and
    from then on the listing contains it, approved. *)
Theorem testimonial_lifecycle (this : MongoStorage) (coll : list Document)
    (now : Z) (oid : ObjectId) (testimonial : Document) :
  testimonialsCollection this = Some coll →
  length oid = 24%nat →
  testimonial !! "_id" = None →
  (∀ d, In d coll → d !! "_id" ≠ Some (VOid oid)) →
  ∃ created stored this1,
    createTestimonial now oid testimonial this = Ok (created, this1)
    ∧ created !! "isApproved" = Some (VBool false)
    ∧ created !! "_id" = Some (VStr (Bson.toHexString oid))
    ∧ testimonialsCollection this1 = Some (coll ++ [stored])
    ∧ stored !! "_id" = Some (VOid oid)
    ∧ stored !! "isApproved" = Some (VBool false)
    ∧ (∃ approved,
         getApprovedTestimonials this1 = Ok approved
         ∧ ∀ d, In d approved → d !! "_id" ≠ Some (VOid oid))
    ∧ (∀ id o b this2 approved,
         Bson.newObjectId id = Ok o → o ≠ oid →
         approveTestimonial id this1 = Ok (b, this2) →
         getApprovedTestimonials this2 = Ok approved →
         ∀ d, In d approved → d !! "_id" ≠ Some (VOid oid))
    ∧ (∃ this2 approved,
         approveTestimonial (Bson.toHexString oid) this1 = Ok (true, this2)
         ∧ getApprovedTestimonials this2 = Ok approved
         ∧ In (<["isApproved" := VBool true]> stored) approved
         ∧ <["isApproved" := VBool true]> stored !! "_id" = Some (VOid oid)).
Proof.
  intros Hcoll Hlen Hnone Hfresh.
  set (newTestimonial :=
         <["isApproved" := VBool false]>
           (<["createdAt" := VDate now]> testimonial)).
  set (stored := <["_id" := VOid oid]> newTestimonial).
  assert (Hnew_id : newTestimonial !! "_id" = None).
  { unfold newTestimonial. rewrite !lookup_insert_ne by discriminate.
    exact Hnone. }
  assert (Hstored_id : stored !! "_id" = Some (VOid oid))
    by apply lookup_insert_eq.
  assert (Hstored_flag : stored !! "isApproved" = Some (VBool false)).
  { unfold stored, newTestimonial.
    rewrite lookup_insert_ne by discriminate. apply lookup_insert_eq. }
  assert (Hcreate : createTestimonial now oid testimonial this
                    = Ok (<["_id" := VStr (Bson.toHexString oid)]> newTestimonial,
                          setTestimonials this (coll ++ [stored]))).
  { unfold createTestimonial. rewrite Hcoll. simpl.
    fold newTestimonial.
    rewrite (insertOne_fresh [] oid newTestimonial coll Hnew_id);
      [reflexivity | ].
    intros x k Hx [<- | []]. fold stored. rewrite Hstored_id. auto. }
  assert (Hunapproved : ∀ d, In d (coll ++ [stored]) →
            d !! "_id" = Some (VOid oid) →
            d !! "isApproved" ≠ Some (VBool true)).
  { intros d Hd Hid. apply in_app_or in Hd as [Hd | [<- | []]].
    - exfalso. exact (Hfresh d Hd Hid).
    - rewrite Hstored_flag. discriminate. }
  exists (<["_id" := VStr (Bson.toHexString oid)]> newTestimonial), stored,
         (setTestimonials this (coll ++ [stored])).
  split; [exact Hcreate | ].
  split.
  { rewrite lookup_insert_ne by discriminate. apply lookup_insert_eq. }
  split; [apply lookup_insert_eq | ].
  split; [reflexivity | ].
  split; [exact Hstored_id | ].
  split; [exact Hstored_flag | ].
  split.
  { eexists. split; [reflexivity | ]. simpl.
    apply approved_without. exact Hunapproved. }
  split.
  - intros id o b this2 approved Ho Hne.
    unfold approveTestimonial. simpl. rewrite Ho. simpl.
    destruct (collection_by_id o (coll ++ [stored]))
      as [Habsent | (pre & d0 & post & Hsplit & Hd0 & Hpre)].
    + rewrite updateOne_unmatched by exact Habsent. simpl.
      intros [= <- <-] [= <-]. simpl.
      apply approved_without. exact Hunapproved.
    + rewrite Hsplit.
      rewrite updateOne_matched;
        [ | exact Hpre | exact Hd0 | apply lookup_singleton_ne; discriminate ].
      rewrite violatesUnique_nil.
      destruct (Mongo.isNoop _ d0); simpl; intros [= <- <-] [= <-]; simpl.
      * rewrite <- Hsplit. apply approved_without. exact Hunapproved.
      * apply approved_without. intros d Hd Hid.
        apply in_app_or in Hd as [Hd | [<- | Hd]].
        -- apply Hunapproved; [ | exact Hid ].
           rewrite Hsplit. apply in_or_app. auto.
        -- exfalso. rewrite applySet_flag in Hid.
           rewrite lookup_insert_ne in Hid by discriminate. congruence.
        -- apply Hunapproved; [ | exact Hid ].
           rewrite Hsplit. apply in_or_app. simpl. auto.
  - set (approvedDoc := <["isApproved" := VBool true]> stored).
    assert (Happrove :
              approveTestimonial (Bson.toHexString oid)
                (setTestimonials this (coll ++ [stored]))
              = Ok (true, setTestimonials
                            (setTestimonials this (coll ++ [stored]))
                            (coll ++ [approvedDoc]))).
    { unfold approveTestimonial. simpl.
      rewrite newObjectId_toHexString by exact Hlen. simpl.
      rewrite updateOne_matched;
        [ | exact Hfresh | exact Hstored_id
          | apply lookup_singleton_ne; discriminate ].
      rewrite violatesUnique_nil, isNoop_flag, Hstored_flag, applySet_flag.
      reflexivity. }
    eexists _, _. split; [exact Happrove | ].
    split; [reflexivity | ]. split.
    + simpl. unfold Mongo.find. apply filter_In. split.
      * apply in_or_app. right. left. reflexivity.
      * apply matches_isApproved. apply lookup_insert_eq.
    + unfold approvedDoc. rewrite lookup_insert_ne by discriminate.
      exact Hstored_id.
Qed.

Lemma testimonial_lifecycle_witness :
  testimonialsCollection sampleStorage = Some [sampleTestimonial]
  ∧ length (sampleOid h7) = 24%nat
  ∧ submittedTestimonial !! "_id" = None
  ∧ submittedTestimonial !! "isApproved" = Some (VBool true)
  ∧ ∃ created this1,
      createTestimonial 6000 (sampleOid h7) submittedTestimonial sampleStorage
      = Ok (created, this1)
      ∧ created !! "isApproved" = Some (VBool false)
      ∧ ∃ this2 approved,
          approveTestimonial (Bson.toHexString (sampleOid h7)) this1
          = Ok (true, this2)
          ∧ getApprovedTestimonials this2 = Ok approved
          ∧ ∃ d, In d approved ∧ d !! "_id" = Some (VOid (sampleOid h7)).
Proof.
  split; [reflexivity | ]. split; [reflexivity | ].
  split; [vm_compute; reflexivity | ].
  split; [vm_compute; reflexivity | ].
  destruct (testimonial_lifecycle sampleStorage [sampleTestimonial] 6000
              (sampleOid h7) submittedTestimonial)
    as (created & stored & this1 & Hcreate & Hflag & _ & _ & _ & _ & _ & _
        & this2 & approved & Happrove & Hlist & Hin & Hid).
  - reflexivity.
  - reflexivity.
  - vm_compute. reflexivity.
  - intros d [<- | []]. vm_compute. discriminate.
  - exists created, this1. split; [exact Hcreate | ].
    split; [exact Hflag | ].
    exists this2, approved. eauto.
Defined.

(** ** Partial update of a property *)

(** C7.  For an existing property (the document [d] of the given id, in
    a store whose property codes are distinct) and an update object,
    [updateProperty] returns and stores the document in which every field
    present in the update has the update's value and every other field
    keeps the stored value; the other documents are left as they are.
    The update object has no [_id] ([Partial<InsertProperty>]), and if it
    sets [propertyCode] the new code is not the code of another
    property. *)
Theorem updateProperty_merges (this : MongoStorage)
    (pre post : list Document) (d : Document) (id : string) (o : ObjectId)
    (updateData : Document) :
  propertiesCollection this = Some (pre ++ d :: post) →
  Bson.newObjectId id = Ok o →
  d !! "_id" = Some (VOid o) →
  (∀ x, In x pre → x !! "_id" ≠ Some (VOid o)) →
  (∀ x, In x (pre ++ post) → x !! "propertyCode" ≠ d !! "propertyCode") →
  updateData !! "_id" = None →
  (∀ code x, updateData !! "propertyCode" = Some code →
             In x (pre ++ post) → x !! "propertyCode" ≠ Some code) →
  updateProperty id updateData this
  = Ok (Some (updateData ∪ d),
        setProperties this (pre ++ (updateData ∪ d) :: post))
  ∧ (∀ k v, updateData !! k = Some v → (updateData ∪ d) !! k = Some v)
  ∧ (∀ k, updateData !! k = None → (updateData ∪ d) !! k = d !! k).
Proof.
  intros Hcoll Hid Hd Hpre Hcodes Hupd Hcode. split; [ | split ].
  - unfold updateProperty. rewrite Hcoll, Hid. simpl.
    rewrite updateOne_matched by assumption.
    destruct (Mongo.isNoop updateData d) eqn:Hnoop.
    + apply isNoop_spec in Hnoop. unfold Mongo.applySet in Hnoop.
      rewrite Hnoop. reflexivity.
    + assert (Hok : Mongo.violatesUnique propertiesIndexes
                      (Mongo.applySet updateData d) (pre ++ post) = false).
      { apply violatesUnique_false. intros x k Hx [<- | []].
        unfold Mongo.applySet.
        destruct (updateData !! "propertyCode") as [code | ] eqn:Hnew.
        - rewrite (lookup_union_Some_l _ _ _ _ Hnew).
          exact (Hcode code x eq_refl Hx).
        - rewrite (lookup_union_r _ _ _ Hnew). exact (Hcodes x Hx). }
      rewrite Hok. reflexivity.
  - intros k v Hk. apply lookup_union_Some_l. exact Hk.
  - intros k Hk. apply lookup_union_r. exact Hk.
Qed.

Lemma updateProperty_merges_witness :
  propertiesCollection sampleStorage
  = Some ([sampleVilla] ++ sampleApartment :: [sampleLand])
  ∧ Bson.newObjectId "000000000000000000000002" = Ok (sampleOid h2)
  ∧ updateProperty "000000000000000000000002"
      {["price" := VNum (Q2Qc 90000)]} sampleStorage
    = Ok (Some ({["price" := VNum (Q2Qc 90000)]} ∪ sampleApartment),
          setProperties sampleStorage
            ([sampleVilla]
             ++ ({["price" := VNum (Q2Qc 90000)]} ∪ sampleApartment)
                :: [sampleLand])).
Proof.
  split; [reflexivity | ]. split; [vm_compute; reflexivity | ].
  apply (updateProperty_merges sampleStorage [sampleVilla] [sampleLand]
           sampleApartment "000000000000000000000002" (sampleOid h2)
           {["price" := VNum (Q2Qc 90000)]}).
  - reflexivity.
  - vm_compute. reflexivity.
  - vm_compute. reflexivity.
  - intros x [<- | []]. vm_compute. discriminate.
  - intros x [<- | [<- | []]]; vm_compute; discriminate.
  - vm_compute. reflexivity.
  - intros code x Hnew. vm_compute in Hnew. discriminate.
Defined.

(** An update that would give the property the code of another one is
    refused by the unique index: the call fails and nothing is stored. *)
Lemma updateProperty_duplicate_code (this : MongoStorage)
    (pre post : list Document) (d other : Document) (id : string)
    (o : ObjectId) (updateData : Document) :
  propertiesCollection this = Some (pre ++ d :: post) →
  Bson.newObjectId id = Ok o →
  d !! "_id" = Some (VOid o) →
  (∀ x, In x pre → x !! "_id" ≠ Some (VOid o)) →
  updateData !! "_id" = None →
  updateData ∪ d ≠ d →
  In other (pre ++ post) →
  other !! "propertyCode" = (updateData ∪ d) !! "propertyCode" →
  updateProperty id updateData this = Throw DuplicateKey.
Proof.
  intros Hcoll Hid Hd Hpre Hupd Hchange Hother Hcode.
  unfold updateProperty. rewrite Hcoll, Hid. simpl.
  rewrite updateOne_matched by assumption.
  destruct (Mongo.isNoop updateData d) eqn:Hnoop.
  - apply isNoop_spec in Hnoop. contradiction.
  - destruct (Mongo.violatesUnique propertiesIndexes
                (Mongo.applySet updateData d) (pre ++ post)) eqn:Hv;
      [reflexivity | ].
    exfalso. rewrite violatesUnique_false in Hv.
    apply (Hv other "propertyCode" Hother); [left; reflexivity | exact Hcode].
Qed.

(** C7 as stated fails for the update [{propertyCode: "SA-12345"}] of
    the seeded apartment: the villa has that code, the unique index on
    [propertyCode] refuses the update, [updateProperty] throws instead of
    setting the field, and the route answers 500. *)
Lemma updateProperty_merges_counterexample :
  fieldById (sampleOid h2) "propertyCode" sampleProperties
  = Some (VStr "SA-12346")
  ∧ fieldById (sampleOid h1) "propertyCode" sampleProperties
    = Some (VStr "SA-12345")
  ∧ updateProperty "000000000000000000000002"
      {["propertyCode" := VStr "SA-12345"]} sampleStorage
    = Throw DuplicateKey
  ∧ status (PUT_api_properties_id (fun _ => true) "000000000000000000000002"
              {["propertyCode" := VStr "SA-12345"]} sampleStorage).1
    = 500%nat
  ∧ ¬ (∀ (this : MongoStorage) (pre post : list Document) (d : Document)
         (id : string) (o : ObjectId) (updateData : Document),
         propertiesCollection this = Some (pre ++ d :: post) →
         Bson.newObjectId id = Ok o →
         d !! "_id" = Some (VOid o) →
         (∀ x, In x pre → x !! "_id" ≠ Some (VOid o)) →
         (∀ x, In x (pre ++ post) →
               x !! "propertyCode" ≠ d !! "propertyCode") →
         updateData !! "_id" = None →
         ∃ this', updateProperty id updateData this
                  = Ok (Some (updateData ∪ d), this')).
Proof.
  assert (Hthrow : updateProperty "000000000000000000000002"
                     {["propertyCode" := VStr "SA-12345"]} sampleStorage
                   = Throw DuplicateKey) by (vm_compute; reflexivity).
  split; [vm_compute; reflexivity | ].
  split; [vm_compute; reflexivity | ].
  split; [exact Hthrow | ].
  split; [vm_compute; reflexivity | ].
  intros Hall.
  destruct (Hall sampleStorage [sampleVilla] [sampleLand] sampleApartment
              "000000000000000000000002" (sampleOid h2)
              {["propertyCode" := VStr "SA-12345"]})
    as [this' Hok].
  - reflexivity.
  - vm_compute. reflexivity.
  - vm_compute. reflexivity.
  - intros x [<- | []]. vm_compute. discriminate.
  - intros x [<- | [<- | []]]; vm_compute; discriminate.
  - vm_compute. reflexivity.
  - rewrite Hthrow in Hok. discriminate.
Qed.

(** The values of a field along the stored properties after an update. *)
Example updateProperty_sample :
  match updateProperty "000000000000000000000002"
          (list_to_map [("price", VNum (Q2Qc 90000));
                        ("status", VStr "rented")]) sampleStorage with
  | Ok (Some after, this') =>
      after !! "price" = Some (VNum (Q2Qc 90000))
      ∧ after !! "status" = Some (VStr "rented")
      ∧ after !! "bedrooms" = Some (VNum (Q2Qc 3))
      ∧ after !! "propertyCode" = Some (VStr "SA-12346")
      ∧ column "price" (getAllProperties this')
        = [Some (VNum (Q2Qc 1200000)); Some (VNum (Q2Qc 90000));
           Some (VNum (Q2Qc 2800000))]
  | _ => False
  end
  ∧ updateProperty "000000000000000000000002"
      {["propertyCode" := VStr "SA-12345"]} sampleStorage
    = Throw DuplicateKey.
Proof.
  split; [vm_compute; repeat split; reflexivity | vm_compute; reflexivity].
Qed.

(** Through the route: the partial schema passes on only the fields that
    were sent, so a PUT of a new price leaves the stored status
    ["rented"] and currency as they are instead of resetting them to the
    schema defaults. *)
Example PUT_api_properties_id_sample :
  match PUT_api_properties_id (fun _ => true) "000000000000000000000002"
          {["price" := VNum (Q2Qc 90000)]} rentedStorage with
  | ({| status := code; json := JDoc updated |}, storage') =>
      code = 200%nat
      ∧ updated !! "price" = Some (VNum (Q2Qc 90000))
      ∧ updated !! "status" = Some (VStr "rented")
      ∧ updated !! "currency" = Some (VStr "SAR")
      ∧ column "status" (getAllProperties storage')
        = [Some (VStr "available"); Some (VStr "rented");
           Some (VStr "available")]
  | _ => False
  end.
Proof. vm_compute. repeat split; reflexivity. Qed.

(* ===================================================================== *)
(** * Further properties of the storage layer and the routes             *)
(* ===================================================================== *)

(** ** Lookups and collections *)

Lemma matches_eq (k : string) (v : Value) (d : Document) :
  Mongo.matches [(k, Mongo.CEq v)] d = true ↔ d !! k = Some v.
Proof.
  unfold Mongo.matches. simpl. rewrite andb_true_r.
  destruct (d !! k) as [w | ]; simpl.
  - rewrite Value_eqb_eq. split; congruence.
  - split; discriminate.
Qed.

Lemma findOne_Some (q : Mongo.Query) (coll : list Document) (d : Document) :
  Mongo.findOne q coll = Some d → In d coll ∧ Mongo.matches q d = true.
Proof. unfold Mongo.findOne. apply find_some. Qed.

Lemma findOne_None (q : Mongo.Query) (coll : list Document) :
  Mongo.findOne q coll = None ↔ ∀ d, In d coll → Mongo.matches q d = false.
Proof.
  unfold Mongo.findOne. split.
  - intros Hnone d Hd. exact (find_none _ _ Hnone d Hd).
  - apply find_all_false.
Qed.

(** Appending a document does not hide what was found before. *)
Lemma findOne_app (q : Mongo.Query) (coll : list Document) (new : Document) :
  Mongo.findOne q (coll ++ [new])
  = match Mongo.findOne q coll with
    | Some d => Some d
    | None => if Mongo.matches q new then Some new else None
    end.
Proof.
  unfold Mongo.findOne. induction coll as [ | x xs IH ]; simpl.
  - destruct (Mongo.matches q new); reflexivity.
  - destruct (Mongo.matches q x); [reflexivity | exact IH].
Qed.

Lemma deleteOne_absent (o : ObjectId) (coll : list Document) :
  (∀ x, In x coll → x !! "_id" ≠ Some (VOid o)) →
  Driver.deleteOne (Mongo.byId o) coll = (0%nat, coll).
Proof.
  intros Hnone. unfold Driver.deleteOne.
  pose proof (splitFirst_find (Mongo.matches (Mongo.byId o)) coll) as Hsplit.
  rewrite find_all_false in Hsplit
    by (intros x Hx; apply matches_byId_false; auto).
  rewrite Hsplit. reflexivity.
Qed.

Lemma deleteOne_present (o : ObjectId) (pre post : list Document)
    (d : Document) :
  (∀ x, In x pre → x !! "_id" ≠ Some (VOid o)) →
  d !! "_id" = Some (VOid o) →
  Driver.deleteOne (Mongo.byId o) (pre ++ d :: post) = (1%nat, pre ++ post).
Proof.
  intros Hpre Hd. unfold Driver.deleteOne.
  rewrite splitFirst_first;
    [reflexivity
    | intros x Hx; apply matches_byId_false; auto
    | apply matches_byId; exact Hd ].
Qed.

Lemma setProperties_same (this : MongoStorage) (coll : list Document) :
  propertiesCollection this = Some coll → setProperties this coll = this.
Proof.
  destruct this as [u p c t]. unfold setProperties. simpl.
  intros ->. reflexivity.
Qed.

Lemma getProperty_setProperties (this : MongoStorage) (coll : list Document)
    (id : string) :
  getProperty (setProperties this coll) id
  = match Bson.newObjectId id with
    | Ok o => Ok (Mongo.findOne (Mongo.byId o) coll)
    | Throw e => Throw e
    end.
Proof.
  unfold getProperty. simpl. destruct (Bson.newObjectId id); reflexivity.
Qed.

(** ** Deleting a property *)

(** X1.  [deleteProperty] on a well-formed id that no document carries
    answers [false] and leaves the store as it is, and the route reports
    404; on a malformed id the ObjectId constructor throws and the route
    reports 500, again without touching the store. *)
Theorem deleteProperty_absent (this : MongoStorage) (coll : list Document)
    (id : string) :
  propertiesCollection this = Some coll →
  (∀ o, Bson.newObjectId id = Ok o →
        (∀ x, In x coll → x !! "_id" ≠ Some (VOid o)) →
        deleteProperty id this = Ok (false, this)
        ∧ status (DELETE_api_properties_id id this).1 = 404%nat
        ∧ (DELETE_api_properties_id id this).2 = this)
  ∧ (Bson.newObjectId id = Throw BSONError →
     deleteProperty id this = Throw BSONError
     ∧ status (DELETE_api_properties_id id this).1 = 500%nat
     ∧ (DELETE_api_properties_id id this).2 = this).
Proof.
  intros Hcoll. split.
  - intros o Ho Habsent.
    assert (Hdel : deleteProperty id this = Ok (false, this)).
    { unfold deleteProperty. rewrite Hcoll, Ho. simpl.
      rewrite deleteOne_absent by exact Habsent. simpl.
      rewrite (setProperties_same this coll Hcoll). reflexivity. }
    unfold DELETE_api_properties_id. rewrite Hdel. auto.
  - intros Hthrow.
    assert (Hdel : deleteProperty id this = Throw BSONError).
    { unfold deleteProperty. rewrite Hcoll, Hthrow. reflexivity. }
    unfold DELETE_api_properties_id. rewrite Hdel. auto.
Qed.

Lemma deleteProperty_absent_witness :
  propertiesCollection sampleStorage = Some sampleProperties
  ∧ deleteProperty "00000000000000000000000f" sampleStorage
    = Ok (false, sampleStorage)
  ∧ deleteProperty "not-an-id" sampleStorage = Throw BSONError.
Proof.
  split; [reflexivity | ].
  destruct (deleteProperty_absent sampleStorage sampleProperties
              "00000000000000000000000f" eq_refl) as [Habsent _].
  destruct (deleteProperty_absent sampleStorage sampleProperties
              "not-an-id" eq_refl) as [_ Hbad].
  split.
  - apply (Habsent (sampleOid hf)); [vm_compute; reflexivity | ].
    intros x [<- | [<- | [<- | []]]]; vm_compute; discriminate.
  - apply Hbad. vm_compute. reflexivity.
Defined.

(** X2.  [deleteProperty] on the id of a stored property answers [true]
    and removes that document and no other: afterwards the id is not
    found any more, and every other id reads exactly what it read
    before. *)
Theorem deleteProperty_removes (this : MongoStorage)
    (pre post : list Document) (d : Document) (id : string) (o : ObjectId) :
  propertiesCollection this = Some (pre ++ d :: post) →
  Bson.newObjectId id = Ok o →
  d !! "_id" = Some (VOid o) →
  (∀ x, In x (pre ++ post) → x !! "_id" ≠ Some (VOid o)) →
  deleteProperty id this = Ok (true, setProperties this (pre ++ post))
  ∧ status (DELETE_api_properties_id id this).1 = 200%nat
  ∧ getProperty (setProperties this (pre ++ post)) id = Ok None
  ∧ (∀ id' o', Bson.newObjectId id' = Ok o' → o' ≠ o →
               getProperty (setProperties this (pre ++ post)) id'
               = getProperty this id').
Proof.
  intros Hcoll Hid Hd Hothers.
  assert (Hpre : ∀ x, In x pre → x !! "_id" ≠ Some (VOid o))
    by (intros x Hx; apply Hothers, in_or_app; auto).
  assert (Hdel : deleteProperty id this
                 = Ok (true, setProperties this (pre ++ post))).
  { unfold deleteProperty. rewrite Hcoll, Hid. simpl.
    rewrite deleteOne_present by assumption. reflexivity. }
  split; [exact Hdel | ].
  split; [unfold DELETE_api_properties_id; rewrite Hdel; reflexivity | ].
  split.
  - rewrite getProperty_setProperties, Hid. f_equal.
    apply findOne_None. intros x Hx. apply matches_byId_false. auto.
  - intros id' o' Ho' Hne.
    rewrite getProperty_setProperties.
    rewrite (getProperty_unfold this _ id' Hcoll), Ho'. f_equal.
    assert (Hskip : Mongo.matches (Mongo.byId o') d = false).
    { apply matches_byId_false. rewrite Hd. congruence. }
    unfold Mongo.findOne. clear -Hskip.
    induction pre as [ | x xs IH ]; cbn [app List.find].
    + rewrite Hskip. reflexivity.
    + destruct (Mongo.matches (Mongo.byId o') x); [reflexivity | exact IH].
Qed.

Lemma deleteProperty_removes_witness :
  propertiesCollection sampleStorage
  = Some ([sampleVilla] ++ sampleApartment :: [sampleLand])
  ∧ deleteProperty "000000000000000000000002" sampleStorage
    = Ok (true, setProperties sampleStorage ([sampleVilla] ++ [sampleLand]))
  ∧ getProperty (setProperties sampleStorage ([sampleVilla] ++ [sampleLand]))
      "000000000000000000000002" = Ok None.
Proof.
  split; [reflexivity | ].
  destruct (deleteProperty_removes sampleStorage [sampleVilla] [sampleLand]
              sampleApartment "000000000000000000000002" (sampleOid h2))
    as (Hdel & _ & Hgone & _).
  - reflexivity.
  - vm_compute. reflexivity.
  - vm_compute. reflexivity.
  - intros x [<- | [<- | []]]; vm_compute; discriminate.
  - split; assumption.
Defined.

(** ** Creating a property and reading it back *)

Lemma createProperty_fresh (this : MongoStorage) (coll : list Document)
    (now : Z) (oid : ObjectId) (p : Document) :
  propertiesCollection this = Some coll →
  p !! "_id" = None →
  (∀ x, In x coll → x !! "_id" ≠ Some (VOid oid)) →
  (∀ x, In x coll → x !! "propertyCode" ≠ p !! "propertyCode") →
  createProperty now oid p this
  = Ok (<["_id" := VStr (Bson.toHexString oid)]>
          (<["createdAt" := VDate now]> p),
        setProperties this
          (coll ++ [<["_id" := VOid oid]> (<["createdAt" := VDate now]> p)])).
Proof.
  intros Hcoll Hnone Hid Hcode. unfold createProperty. rewrite Hcoll. simpl.
  rewrite (insertOne_fresh propertiesIndexes oid
             (<["createdAt" := VDate now]> p) coll); [reflexivity | | ].
  - rewrite lookup_insert_ne by discriminate. exact Hnone.
  - intros x k Hx [<- | [<- | []]].
    + rewrite lookup_insert_eq. auto.
    + rewrite !lookup_insert_ne by discriminate. auto.
Qed.

(** X3.  A property created with a fresh id and an unused code is stored
    with the generated ObjectId and the server's clock under [createdAt]
    (whatever the input carried there), and is otherwise the input; it is
    read back by the id string the creation returned and by its code, and
    every property that could be read before still reads the same. *)
Theorem createProperty_round_trip (this : MongoStorage)
    (coll : list Document) (now : Z) (oid : ObjectId) (p : Document)
    (code : string) :
  propertiesCollection this = Some coll →
  length oid = 24%nat →
  p !! "_id" = None →
  p !! "propertyCode" = Some (VStr code) →
  (∀ x, In x coll → x !! "_id" ≠ Some (VOid oid)) →
  (∀ x, In x coll → x !! "propertyCode" ≠ Some (VStr code)) →
  ∃ created stored this',
    createProperty now oid p this = Ok (created, this')
    ∧ propertiesCollection this' = Some (coll ++ [stored])
    ∧ created !! "_id" = Some (VStr (Bson.toHexString oid))
    ∧ stored !! "_id" = Some (VOid oid)
    ∧ stored !! "createdAt" = Some (VDate now)
    ∧ sameExcept ["_id"; "createdAt"] p stored
    ∧ getProperty this' (Bson.toHexString oid) = Ok (Some stored)
    ∧ getPropertyByCode this' code = Ok (Some stored)
    ∧ (∀ id d, getProperty this id = Ok (Some d) →
               getProperty this' id = Ok (Some d)).
Proof.
  intros Hcoll Hlen Hnone Hcode Hid Hfresh.
  set (stored := <["_id" := VOid oid]> (<["createdAt" := VDate now]> p)).
  assert (Hstored_id : stored !! "_id" = Some (VOid oid))
    by apply lookup_insert_eq.
  assert (Hstored_code : stored !! "propertyCode" = Some (VStr code)).
  { unfold stored. rewrite !lookup_insert_ne by discriminate. exact Hcode. }
  eexists _, stored, _. split.
  { apply (createProperty_fresh this coll); try assumption.
    rewrite Hcode. exact Hfresh. }
  split; [reflexivity | ].
  split; [apply lookup_insert_eq | ].
  split; [exact Hstored_id | ].
  split.
  { unfold stored. rewrite lookup_insert_ne by discriminate.
    apply lookup_insert_eq. }
  split.
  { intros k Hk. unfold stored. simpl in Hk.
    rewrite !lookup_insert_ne by (intros <-; tauto). reflexivity. }
  split.
  { rewrite getProperty_setProperties, newObjectId_toHexString by exact Hlen.
    f_equal. rewrite findOne_app.
    assert (Hnone' : Mongo.findOne (Mongo.byId oid) coll = None).
    { apply findOne_None. intros x Hx. apply matches_byId_false. auto. }
    rewrite Hnone'. fold stored.
    assert (Hm : Mongo.matches (Mongo.byId oid) stored = true)
      by (apply matches_byId; exact Hstored_id).
    rewrite Hm. reflexivity. }
  split.
  { unfold getPropertyByCode. simpl. f_equal. rewrite findOne_app.
    assert (Hnone' : Mongo.findOne
                       [("propertyCode", Mongo.CEq (VStr code))] coll = None).
    { apply findOne_None. intros x Hx. apply not_true_is_false.
      rewrite matches_eq. auto. }
    rewrite Hnone'. fold stored.
    assert (Hm : Mongo.matches [("propertyCode", Mongo.CEq (VStr code))]
                   stored = true)
      by (apply matches_eq; exact Hstored_code).
    rewrite Hm. reflexivity. }
  intros id d. rewrite getProperty_setProperties.
  rewrite (getProperty_unfold this coll id Hcoll).
  destruct (Bson.newObjectId id) as [o | e]; [ | discriminate ].
  intros [= Hfound]. f_equal. rewrite findOne_app, Hfound. reflexivity.
Qed.

Lemma createProperty_round_trip_witness :
  propertiesCollection sampleStorage = Some sampleProperties
  ∧ ∃ created stored this',
      createProperty 5000 (sampleOid h4)
        (<["propertyCode" := VStr "SA-20001"]> bodyWithoutCode) sampleStorage
      = Ok (created, this')
      ∧ getProperty this' (Bson.toHexString (sampleOid h4)) = Ok (Some stored)
      ∧ getPropertyByCode this' "SA-20001" = Ok (Some stored)
      ∧ stored !! "createdAt" = Some (VDate 5000).
Proof.
  split; [reflexivity | ].
  destruct (createProperty_round_trip sampleStorage sampleProperties 5000
              (sampleOid h4)
              (<["propertyCode" := VStr "SA-20001"]> bodyWithoutCode)
              "SA-20001")
    as (created & stored & this' & Hcreate & _ & _ & _ & Hat & _ & Hget
        & Hcode & _).
  - reflexivity.
  - reflexivity.
  - vm_compute. reflexivity.
  - vm_compute. reflexivity.
  - intros x [<- | [<- | [<- | []]]]; vm_compute; discriminate.
  - intros x [<- | [<- | [<- | []]]]; vm_compute; discriminate.
  - exists created, stored, this'. auto.
Defined.

Lemma violatesUnique_true (unique : list string) (d : Document)
    (others : list Document) (x : Document) (k : string) :
  In x others → In k unique → x !! k = d !! k →
  Mongo.violatesUnique unique d others = true.
Proof.
  intros Hx Hk Heq. unfold Mongo.violatesUnique.
  apply existsb_exists. exists x. split; [exact Hx | ].
  apply existsb_exists. exists k. split; [exact Hk | ].
  apply field_eqb_eq. exact Heq.
Qed.

Lemma createProperty_taken (this : MongoStorage) (coll : list Document)
    (now : Z) (oid : ObjectId) (p x : Document) :
  propertiesCollection this = Some coll →
  In x coll → x !! "propertyCode" = p !! "propertyCode" →
  createProperty now oid p this = Throw DuplicateKey.
Proof.
  intros Hcoll Hx Hcode. unfold createProperty. rewrite Hcoll. simpl.
  unfold Mongo.insertOne.
  rewrite (violatesUnique_true _ _ _ x "propertyCode");
    [reflexivity | exact Hx | simpl; auto | ].
  rewrite !lookup_insert_ne by discriminate. exact Hcode.
Qed.

(** X4.  The unique index on [propertyCode] makes a creation fail when a
    stored property already has the code (or, like it, has none); the
    route then answers 500, not a validation error, and stores nothing.
    This covers a supplied code and a generated one alike. *)
Theorem createProperty_duplicate_code (this : MongoStorage)
    (coll : list Document) (x : Document) :
  propertiesCollection this = Some coll →
  In x coll →
  (∀ now oid p,
     x !! "propertyCode" = p !! "propertyCode" →
     createProperty now oid p this = Throw DuplicateKey)
  ∧ (∀ emailRegex random now oid body data,
       object_parse emailRegex insertPropertySchema body = Success data →
       x !! "propertyCode"
       = (if truthy (data !! "propertyCode") then data !! "propertyCode"
          else Some (VStr (generatePropertyCode random))) →
       status (POST_api_properties emailRegex random now oid body this).1
       = 500%nat
       ∧ (POST_api_properties emailRegex random now oid body this).2 = this).
Proof.
  intros Hcoll Hx. split.
  - intros now oid p Hcode.
    exact (createProperty_taken this coll now oid p x Hcoll Hx Hcode).
  - intros emailRegex random now oid body data Hparse Hcode.
    unfold POST_api_properties. rewrite Hparse.
    rewrite (createProperty_taken this coll now oid _ x Hcoll Hx);
      [auto | ].
    rewrite Hcode. destruct (truthy (data !! "propertyCode")); simpl.
    + reflexivity.
    + rewrite lookup_insert_eq. reflexivity.
Qed.

Lemma createProperty_duplicate_code_witness :
  propertiesCollection sampleStorage = Some sampleProperties
  ∧ In sampleVilla sampleProperties
  ∧ createProperty 5000 (sampleOid h4)
      (<["propertyCode" := VStr "SA-12345"]> bodyWithoutCode) sampleStorage
    = Throw DuplicateKey.
Proof.
  split; [reflexivity | ]. split; [left; reflexivity | ].
  destruct (createProperty_duplicate_code sampleStorage sampleProperties
              sampleVilla eq_refl (or_introl eq_refl)) as [Hcreate _].
  apply Hcreate. vm_compute. reflexivity.
Defined.

(** ** Distinct ids and property codes are kept *)

Lemma NoDup_snoc {A : Type} (l : list A) (a : A) :
  List.NoDup l → ¬ In a l → List.NoDup (l ++ [a]).
Proof.
  intros Hl Ha. apply (Permutation_NoDup (l := a :: l)).
  - apply Permutation_cons_append.
  - constructor; assumption.
Qed.

(** Replacing one element by another whose key is new, or unchanged. *)
Lemma NoDup_replace {A B : Type} (f : A → B) (pre post : list A) (d d' : A) :
  List.NoDup (map f (pre ++ d :: post)) →
  (f d' = f d ∨ ∀ x, In x (pre ++ post) → f x ≠ f d') →
  List.NoDup (map f (pre ++ d' :: post)).
Proof.
  rewrite !map_app. simpl. intros Hnodup Hkey.
  pose proof (NoDup_remove_1 _ _ _ Hnodup) as Hrest.
  pose proof (NoDup_remove_2 _ _ _ Hnodup) as Hd.
  apply (Permutation_NoDup (l := f d' :: (map f pre ++ map f post))).
  - apply Permutation_middle.
  - constructor; [ | exact Hrest ].
    destruct Hkey as [-> | Hnew]; [exact Hd | ].
    rewrite <- map_app. intros Hin. apply in_map_iff in Hin as (x & Hx & Hin).
    exact (Hnew x Hin Hx).
Qed.

Lemma insertOne_keeps (unique : list string) (oid : ObjectId) (d : Document)
    (coll coll' : list Document) (id : Value) (k : string) :
  Mongo.insertOne unique oid d coll = Ok (id, coll') →
  In k ("_id" :: unique) →
  List.NoDup (map (fun x => x !! k) coll) →
  List.NoDup (map (fun x => x !! k) coll').
Proof.
  unfold Mongo.insertOne.
  destruct (Mongo.violatesUnique _ _ coll) eqn:Hv; [discriminate | ].
  intros [= _ <-] Hk Hnodup. rewrite map_app. simpl.
  apply NoDup_snoc; [exact Hnodup | ].
  intros Hin. apply in_map_iff in Hin as (x & Hx & Hin).
  rewrite violatesUnique_false in Hv. exact (Hv x k Hin Hk Hx).
Qed.

Lemma updateOne_keeps (unique : list string) (q : Mongo.Query)
    (upd : Document) (coll coll' : list Document) (r : Mongo.UpdateResult)
    (after : option Document) (k : string) :
  Mongo.updateOne unique q upd coll = Ok (r, after, coll') →
  In k ("_id" :: unique) →
  List.NoDup (map (fun x => x !! k) coll) →
  List.NoDup (map (fun x => x !! k) coll').
Proof.
  unfold Mongo.updateOne.
  destruct (Mongo.splitFirst (Mongo.matches q) coll)
    as [[[pre d] post] | ] eqn:Hsplit.
  - apply splitFirst_Some in Hsplit as (-> & _ & _).
    destruct (Mongo.isNoop upd d); [intros [= _ _ <-]; auto | ].
    destruct (field_eqb (Mongo.applySet upd d !! "_id") (d !! "_id"))
      eqn:Hid; simpl; [ | discriminate ].
    destruct (Mongo.violatesUnique unique (Mongo.applySet upd d)
                (pre ++ post)) eqn:Hv; [discriminate | ].
    intros [= _ _ <-] Hk Hnodup.
    apply (NoDup_replace (fun x => x !! k) pre post d); [exact Hnodup | ].
    destruct Hk as [<- | Hk].
    + left. apply field_eqb_eq. exact Hid.
    + right. intros x Hx. rewrite violatesUnique_false in Hv.
      exact (Hv x k Hx Hk).
  - intros [= _ _ <-]. auto.
Qed.

Lemma deleteOne_keeps (q : Mongo.Query) (coll : list Document) (k : string) :
  List.NoDup (map (fun x => x !! k) coll) →
  List.NoDup (map (fun x => x !! k) (Driver.deleteOne q coll).2).
Proof.
  unfold Driver.deleteOne.
  destruct (Mongo.splitFirst (Mongo.matches q) coll)
    as [[[pre d] post] | ] eqn:Hsplit; simpl; [ | auto ].
  apply splitFirst_Some in Hsplit as (-> & _ & _).
  rewrite !map_app. simpl. apply NoDup_remove_1.
Qed.

(** X5.  If the stored properties have pairwise distinct ids and pairwise
    distinct codes, they still have after any [createProperty],
    [updateProperty] or [deleteProperty] that returns, whatever its
    arguments. *)
Theorem property_writes_keep_uniqueness (this : MongoStorage)
    (coll : list Document) :
  propertiesCollection this = Some coll →
  List.NoDup (idsOf coll) →
  List.NoDup (codesOf coll) →
  (∀ now oid p created this',
     createProperty now oid p this = Ok (created, this') →
     ∃ coll', propertiesCollection this' = Some coll'
              ∧ List.NoDup (idsOf coll') ∧ List.NoDup (codesOf coll'))
  ∧ (∀ id updateData updated this',
       updateProperty id updateData this = Ok (updated, this') →
       ∃ coll', propertiesCollection this' = Some coll'
                ∧ List.NoDup (idsOf coll') ∧ List.NoDup (codesOf coll'))
  ∧ (∀ id deleted this',
       deleteProperty id this = Ok (deleted, this') →
       ∃ coll', propertiesCollection this' = Some coll'
                ∧ List.NoDup (idsOf coll') ∧ List.NoDup (codesOf coll')).
Proof.
  intros Hcoll Hids Hcodes. unfold idsOf, codesOf in *.
  split; [ | split ].
  - intros now oid p created this'. unfold createProperty.
    rewrite Hcoll. simpl.
    destruct (Mongo.insertOne _ _ _ coll) as [[id coll'] | e] eqn:Hins;
      simpl; [ | discriminate ].
    intros [= _ <-]. exists coll'. split; [reflexivity | ].
    split; eapply insertOne_keeps; try exact Hins; simpl; auto.
  - intros id updateData updated this'. unfold updateProperty.
    rewrite Hcoll. simpl.
    destruct (Bson.newObjectId id) as [o | e]; simpl; [ | discriminate ].
    destruct (Mongo.updateOne _ _ _ coll) as [[[r after] coll'] | e]
      eqn:Hupd; simpl; [ | discriminate ].
    intros [= _ <-]. exists coll'. split; [reflexivity | ].
    split; eapply updateOne_keeps; try exact Hupd; simpl; auto.
  - intros id deleted this'. unfold deleteProperty.
    rewrite Hcoll. simpl.
    destruct (Bson.newObjectId id) as [o | e]; simpl; [ | discriminate ].
    intros [= _ <-]. eexists. split; [reflexivity | ].
    split; apply deleteOne_keeps; assumption.
Qed.

Lemma sampleProperties_distinct :
  List.NoDup (idsOf sampleProperties) ∧ List.NoDup (codesOf sampleProperties).
Proof.
  split; repeat constructor; simpl;
    intros H; repeat destruct H as [H | H]; try contradiction;
    vm_compute in H; discriminate.
Qed.

Lemma property_writes_keep_uniqueness_witness :
  propertiesCollection sampleStorage = Some sampleProperties
  ∧ ∀ id deleted this',
      deleteProperty id sampleStorage = Ok (deleted, this') →
      ∃ coll', propertiesCollection this' = Some coll'
               ∧ List.NoDup (idsOf coll') ∧ List.NoDup (codesOf coll').
Proof.
  split; [reflexivity | ].
  destruct (property_writes_keep_uniqueness sampleStorage sampleProperties)
    as (_ & _ & Hdelete).
  - reflexivity.
  - apply sampleProperties_distinct.
  - apply sampleProperties_distinct.
  - exact Hdelete.
Defined.

(** ** Featured properties *)

Lemma StronglySorted_app_cross {A : Type} (R : A → A → Prop)
    (l1 l2 : list A) :
  StronglySorted R (l1 ++ l2) →
  ∀ a b, In a l1 → In b l2 → R a b.
Proof.
  induction l1 as [ | x xs IH ]; simpl; intros Hsorted a b Ha Hb;
    [contradiction | ].
  apply StronglySorted_inv in Hsorted as [Hrest Hall].
  destruct Ha as [<- | Ha].
  - rewrite Forall_forall in Hall. apply Hall. apply in_or_app. auto.
  - exact (IH Hrest a b Ha Hb).
Qed.

Lemma StronglySorted_app_l {A : Type} (R : A → A → Prop) (l1 l2 : list A) :
  StronglySorted R (l1 ++ l2) → StronglySorted R l1.
Proof.
  induction l1 as [ | x xs IH ]; simpl; intros Hsorted; [constructor | ].
  apply StronglySorted_inv in Hsorted as [Hrest Hall].
  constructor; [auto | ].
  rewrite Forall_forall in *. intros y Hy. apply Hall, in_or_app. auto.
Qed.

(** X6.  [getFeaturedProperties(limit)] lists available properties only,
    newest first; what it leaves out is available too and not newer than
    anything it lists.  It lists [limit] of them (6 when the argument is
    omitted) or all if there are fewer, and with a limit of 0 it leaves
    nothing out. *)
Theorem getFeaturedProperties_newest_available (this : MongoStorage)
    (coll : list Document) (limit : option nat) :
  propertiesCollection this = Some coll →
  ∃ result dropped,
    getFeaturedProperties limit this = Ok result
    ∧ (∀ d, In d (result ++ dropped) ↔
            In d coll ∧ d !! "status" = Some (VStr "available"))
    ∧ StronglySorted newestFirst result
    ∧ (∀ kept x, In kept result → In x dropped → newestFirst kept x)
    ∧ match limit with
      | Some O => dropped = []
      | Some n => length result = Nat.min n (length (result ++ dropped))
      | None => length result = Nat.min 6 (length (result ++ dropped))
      end.
Proof.
  intros Hcoll. unfold getFeaturedProperties. rewrite Hcoll. simpl.
  set (listing := Mongo.sortByCreatedAtDesc
                    (Mongo.find [("status", Mongo.CEq (VStr "available"))]
                       coll)).
  assert (Hin : ∀ d, In d listing ↔
                     In d coll ∧ d !! "status" = Some (VStr "available")).
  { intros d. unfold listing, Mongo.find.
    rewrite In_sortByCreatedAtDesc, filter_In, matches_eq. reflexivity. }
  assert (Hsorted : StronglySorted newestFirst listing)
    by apply sortByCreatedAtDesc_sorted.
  assert (Hcut : ∀ n,
            (∀ d, In d (firstn n listing ++ skipn n listing) ↔
                  In d coll ∧ d !! "status" = Some (VStr "available"))
            ∧ StronglySorted newestFirst (firstn n listing)
            ∧ (∀ kept x, In kept (firstn n listing) →
                         In x (skipn n listing) → newestFirst kept x)
            ∧ length (firstn n listing)
              = Nat.min n (length (firstn n listing ++ skipn n listing))).
  { intros n. rewrite firstn_skipn. split; [exact Hin | ].
    rewrite <- (firstn_skipn n listing) in Hsorted.
    split; [eapply StronglySorted_app_l; exact Hsorted | ].
    split; [apply StronglySorted_app_cross; exact Hsorted | ].
    apply length_firstn. }
  destruct limit as [[ | n] | ]; simpl.
  - exists listing, []. rewrite app_nil_r.
    repeat split; try apply Hin; auto.
    intros kept x _ [].
  - exists (firstn (S n) listing), (skipn (S n) listing).
    split; [reflexivity | ]. apply (Hcut (S n)).
  - exists (firstn 6 listing), (skipn 6 listing).
    split; [reflexivity | ]. apply (Hcut 6%nat).
Qed.

Lemma getFeaturedProperties_newest_available_witness :
  propertiesCollection rentedStorage
  = Some [sampleVilla; rentedApartment; sampleLand]
  ∧ column "propertyCode" (getFeaturedProperties (Some 1%nat) rentedStorage)
    = [Some (VStr "SA-12347")]
  ∧ column "propertyCode" (getFeaturedProperties None rentedStorage)
    = [Some (VStr "SA-12347"); Some (VStr "SA-12345")]
  ∧ ∃ result dropped,
      getFeaturedProperties (Some 1%nat) rentedStorage = Ok result
      ∧ StronglySorted newestFirst result
      ∧ length result = Nat.min 1 (length (result ++ dropped)).
Proof.
  split; [reflexivity | ].
  split; [vm_compute; reflexivity | ].
  split; [vm_compute; reflexivity | ].
  destruct (getFeaturedProperties_newest_available rentedStorage
              [sampleVilla; rentedApartment; sampleLand] (Some 1%nat)
              eq_refl)
    as (result & dropped & Hrun & _ & Hsorted & _ & Hlen).
  exists result, dropped. auto.
Defined.

(** ** Contact messages *)

Lemma getContactMessage_set (this : MongoStorage) (coll : list Document)
    (id : string) :
  getContactMessage (setContactMessages this coll) id
  = match Bson.newObjectId id with
    | Ok o => Ok (Mongo.findOne (Mongo.byId o) coll)
    | Throw e => Throw e
    end.
Proof.
  unfold getContactMessage. simpl.
  destruct (Bson.newObjectId id); reflexivity.
Qed.

Lemma findOne_last (q : Mongo.Query) (coll : list Document) (d : Document) :
  (∀ x, In x coll → Mongo.matches q x = false) →
  Mongo.matches q d = true →
  Mongo.findOne q (coll ++ [d]) = Some d.
Proof.
  intros Hnone Hd. rewrite findOne_app.
  assert (Hnone' : Mongo.findOne q coll = None) by (apply findOne_None; auto).
  rewrite Hnone', Hd. reflexivity.
Qed.

(** X7.  A contact message is stored with [isRead = false] and the
    server's clock, whatever the submitted object says, and is otherwise
    the submitted object; the object returned to the caller is the same
    with the generated id as a string.  The message shows in the admin's
    list and is read back by the returned id.  The first
    [markContactMessageAsRead] on that id answers [true] and only sets
    [isRead]; a second one answers [false] and changes nothing. *)
Theorem contact_message_lifecycle (this : MongoStorage)
    (coll : list Document) (now : Z) (oid : ObjectId) (message : Document) :
  contactMessagesCollection this = Some coll →
  length oid = 24%nat →
  message !! "_id" = None →
  (∀ d, In d coll → d !! "_id" ≠ Some (VOid oid)) →
  ∃ created id stored this1 this2,
    createContactMessage now oid message this = Ok (created, this1)
    ∧ created !! "_id" = Some (VStr id)
    ∧ id = Bson.toHexString oid
    ∧ created !! "isRead" = Some (VBool false)
    ∧ created !! "createdAt" = Some (VDate now)
    ∧ sameExcept ["_id"; "createdAt"; "isRead"] message created
    ∧ contactMessagesCollection this1 = Some (coll ++ [stored])
    ∧ stored !! "_id" = Some (VOid oid)
    ∧ sameExcept ["_id"] created stored
    ∧ (∃ all, getAllContactMessages this1 = Ok all ∧ In stored all)
    ∧ getContactMessage this1 id = Ok (Some stored)
    ∧ markContactMessageAsRead id this1 = Ok (true, this2)
    ∧ getContactMessage this2 id
      = Ok (Some (<["isRead" := VBool true]> stored))
    ∧ markContactMessageAsRead id this2 = Ok (false, this2).
Proof.
  intros Hcoll Hlen Hnone Hfresh.
  set (contactMessage :=
         <["isRead" := VBool false]> (<["createdAt" := VDate now]> message)).
  set (stored := <["_id" := VOid oid]> contactMessage).
  set (readDoc := <["isRead" := VBool true]> stored).
  assert (Hnew_id : contactMessage !! "_id" = None).
  { unfold contactMessage. rewrite !lookup_insert_ne by discriminate.
    exact Hnone. }
  assert (Hstored_id : stored !! "_id" = Some (VOid oid))
    by apply lookup_insert_eq.
  assert (Hread_id : readDoc !! "_id" = Some (VOid oid)).
  { unfold readDoc. rewrite lookup_insert_ne by discriminate.
    exact Hstored_id. }
  assert (Hstored_flag : stored !! "isRead" = Some (VBool false)).
  { unfold stored, contactMessage.
    rewrite lookup_insert_ne by discriminate. apply lookup_insert_eq. }
  assert (Hmiss : ∀ x, In x coll →
                       Mongo.matches (Mongo.byId oid) x = false)
    by (intros x Hx; apply matches_byId_false; auto).
  exists (<["_id" := VStr (Bson.toHexString oid)]> contactMessage),
         (Bson.toHexString oid), stored,
         (setContactMessages this (coll ++ [stored])),
         (setContactMessages (setContactMessages this (coll ++ [stored]))
            (coll ++ [readDoc])).
  split.
  { unfold createContactMessage. rewrite Hcoll. simpl. fold contactMessage.
    rewrite (insertOne_fresh [] oid contactMessage coll Hnew_id);
      [reflexivity | ].
    intros x k Hx [<- | []]. fold stored. rewrite Hstored_id. auto. }
  split; [apply lookup_insert_eq | ].
  split; [reflexivity | ].
  split.
  { unfold contactMessage. rewrite lookup_insert_ne by discriminate.
    apply lookup_insert_eq. }
  split.
  { unfold contactMessage. rewrite !lookup_insert_ne by discriminate.
    apply lookup_insert_eq. }
  split.
  { intros k Hk. simpl in Hk. unfold contactMessage.
    rewrite !lookup_insert_ne by (intros <-; tauto). reflexivity. }
  split; [reflexivity | ].
  split; [exact Hstored_id | ].
  split.
  { intros k Hk. simpl in Hk. unfold stored.
    rewrite !lookup_insert_ne by (intros <-; tauto). reflexivity. }
  split.
  { eexists. split; [reflexivity | ]. simpl.
    rewrite find_nil. apply In_sortByCreatedAtDesc, in_or_app.
    right. left. reflexivity. }
  split.
  { rewrite getContactMessage_set, newObjectId_toHexString by exact Hlen.
    f_equal. apply findOne_last; [exact Hmiss | ].
    apply matches_byId. exact Hstored_id. }
  split.
  { unfold markContactMessageAsRead. simpl.
    rewrite newObjectId_toHexString by exact Hlen. simpl.
    rewrite updateOne_matched;
      [ | exact Hfresh | exact Hstored_id
        | apply lookup_singleton_ne; discriminate ].
    rewrite violatesUnique_nil, isNoop_flag, Hstored_flag, applySet_flag.
    reflexivity. }
  split.
  { rewrite getContactMessage_set, newObjectId_toHexString by exact Hlen.
    f_equal. apply findOne_last; [exact Hmiss | ].
    apply matches_byId. exact Hread_id. }
  unfold markContactMessageAsRead. simpl.
  rewrite newObjectId_toHexString by exact Hlen. simpl.
  rewrite updateOne_matched;
    [ | exact Hfresh | exact Hread_id
      | apply lookup_singleton_ne; discriminate ].
  assert (Hflag : readDoc !! "isRead" = Some (VBool true))
    by apply lookup_insert_eq.
  rewrite isNoop_flag, Hflag. reflexivity.
Qed.

Lemma contact_message_lifecycle_witness :
  contactMessagesCollection sampleStorage = Some [sampleMessage]
  ∧ submittedInquiry !! "isRead" = Some (VBool true)
  ∧ ∃ (created : Document) id this1 this2,
      createContactMessage 7000 (sampleOid h7) submittedInquiry sampleStorage
      = Ok (created, this1)
      ∧ created !! "_id" = Some (VStr id)
      ∧ created !! "isRead" = Some (VBool false)
      ∧ created !! "createdAt" = Some (VDate 7000)
      ∧ markContactMessageAsRead id this1 = Ok (true, this2)
      ∧ markContactMessageAsRead id this2 = Ok (false, this2).
Proof.
  split; [reflexivity | ]. split; [vm_compute; reflexivity | ].
  destruct (contact_message_lifecycle sampleStorage [sampleMessage] 7000
              (sampleOid h7) submittedInquiry)
    as (created & id & stored & this1 & this2 & Hcreate & Hid & _ & Hflag
        & Hat & _ & _ & _ & _ & _ & _ & Hmark & _ & Hagain).
  - reflexivity.
  - reflexivity.
  - vm_compute. reflexivity.
  - intros d [<- | []]. vm_compute. discriminate.
  - exists created, id, this1, this2. auto 10.
Defined.

(** What setting a flag by id can do to a collection: nothing, or set the
    flag of the first document of that id. *)
Lemma updateOne_flag_frame (o : ObjectId) (k : string)
    (coll coll' : list Document) (r : Mongo.UpdateResult)
    (after : option Document) :
  k ≠ "_id" →
  Mongo.updateOne [] (Mongo.byId o) {[k := VBool true]} coll
  = Ok (r, after, coll') →
  coll' = coll
  ∨ ∃ pre d post,
      coll = pre ++ d :: post
      ∧ coll' = pre ++ <[k := VBool true]> d :: post
      ∧ d !! "_id" = Some (VOid o).
Proof.
  intros Hk.
  destruct (collection_by_id o coll)
    as [Hnone | (pre & d & post & -> & Hd & Hpre)].
  - rewrite updateOne_unmatched by exact Hnone. intros [= _ _ <-]. auto.
  - rewrite updateOne_matched;
      [ | exact Hpre | exact Hd | apply lookup_singleton_ne; exact Hk ].
    rewrite violatesUnique_nil, applySet_flag.
    destruct (Mongo.isNoop _ d); intros [= _ _ <-]; [auto | ].
    right. exists pre, d, post. auto.
Qed.

(** X8.  [markContactMessageAsRead] and [approveTestimonial] never add,
    remove or reorder documents and never touch another collection: the
    collection is left as it is, or exactly one document, carrying the
    given id, has its flag set to [true] and is otherwise unchanged. *)
Theorem flag_updates_touch_one_flag (this : MongoStorage) (id : string)
    (b : bool) (this' : MongoStorage) :
  (markContactMessageAsRead id this = Ok (b, this') →
   ∃ o msgs msgs',
     Bson.newObjectId id = Ok o
     ∧ contactMessagesCollection this = Some msgs
     ∧ contactMessagesCollection this' = Some msgs'
     ∧ usersCollection this' = usersCollection this
     ∧ propertiesCollection this' = propertiesCollection this
     ∧ testimonialsCollection this' = testimonialsCollection this
     ∧ (msgs' = msgs
        ∨ ∃ pre d post,
            msgs = pre ++ d :: post
            ∧ msgs' = pre ++ <["isRead" := VBool true]> d :: post
            ∧ d !! "_id" = Some (VOid o)))
  ∧ (approveTestimonial id this = Ok (b, this') →
     ∃ o tests tests',
       Bson.newObjectId id = Ok o
       ∧ testimonialsCollection this = Some tests
       ∧ testimonialsCollection this' = Some tests'
       ∧ usersCollection this' = usersCollection this
       ∧ propertiesCollection this' = propertiesCollection this
       ∧ contactMessagesCollection this' = contactMessagesCollection this
       ∧ (tests' = tests
          ∨ ∃ pre d post,
              tests = pre ++ d :: post
              ∧ tests' = pre ++ <["isApproved" := VBool true]> d :: post
              ∧ d !! "_id" = Some (VOid o))).
Proof.
  split.
  - unfold markContactMessageAsRead.
    destruct (contactMessagesCollection this) as [msgs | ] eqn:Hmsgs;
      simpl; [ | discriminate ].
    destruct (Bson.newObjectId id) as [o | e]; simpl; [ | discriminate ].
    destruct (Mongo.updateOne _ _ _ msgs) as [[[r after] msgs'] | e]
      eqn:Hupd; simpl; [ | discriminate ].
    intros [= _ <-]. exists o, msgs, msgs'.
    repeat (split; [reflexivity | ]).
    apply (updateOne_flag_frame o "isRead" msgs msgs' r after);
      [discriminate | exact Hupd].
  - unfold approveTestimonial.
    destruct (testimonialsCollection this) as [tests | ] eqn:Htests;
      simpl; [ | discriminate ].
    destruct (Bson.newObjectId id) as [o | e]; simpl; [ | discriminate ].
    destruct (Mongo.updateOne _ _ _ tests) as [[[r after] tests'] | e]
      eqn:Hupd; simpl; [ | discriminate ].
    intros [= _ <-]. exists o, tests, tests'.
    repeat (split; [reflexivity | ]).
    apply (updateOne_flag_frame o "isApproved" tests tests' r after);
      [discriminate | exact Hupd].
Qed.


(** ** Submitting a contact message *)

Lemma insertContactMessageSchema_keys :
  List.NoDup (map fst insertContactMessageSchema).
Proof. apply NoDup_ListNoDup, (bool_decide_unpack _). vm_compute. reflexivity. Qed.

(** X9.  POST /api/contact either rejects the body with 400 and stores
    nothing, or answers 201 and appends exactly one message: it has the
    generated id, the server's clock and [isRead = false], its [name],
    [email], [phone], [subject] and [message] are those of the body, and
    nothing else of the body is stored.  A body with non-empty [name],
    [subject] and [message], an [email] the pattern accepts and no
    [phone] is accepted. *)
Theorem POST_api_contact_stores_unread (emailRegex : string → bool)
    (now : Z) (oid : ObjectId) (body : Document) (storage : MongoStorage)
    (coll : list Document) :
  contactMessagesCollection storage = Some coll →
  (∀ d, In d coll → d !! "_id" ≠ Some (VOid oid)) →
  ((∃ message,
      POST_api_contact emailRegex now oid body storage
      = (respond 400 (JMessage message), storage))
   ∨ (∃ stored,
        status (POST_api_contact emailRegex now oid body storage).1 = 201%nat
        ∧ (POST_api_contact emailRegex now oid body storage).2
          = setContactMessages storage (coll ++ [stored])
        ∧ stored !! "_id" = Some (VOid oid)
        ∧ stored !! "createdAt" = Some (VDate now)
        ∧ stored !! "isRead" = Some (VBool false)
        ∧ (∀ k, In k ["name"; "email"; "phone"; "subject"; "message"] →
                stored !! k = body !! k)
        ∧ (∀ k, ¬ In k ["_id"; "createdAt"; "isRead"; "name"; "email";
                        "phone"; "subject"; "message"] →
                stored !! k = None)))
  ∧ (∀ name mail subject message,
       body !! "name" = Some (VStr name) → name ≠ "" →
       body !! "email" = Some (VStr mail) → emailRegex mail = true →
       body !! "phone" = None →
       body !! "subject" = Some (VStr subject) → subject ≠ "" →
       body !! "message" = Some (VStr message) → message ≠ "" →
       status (POST_api_contact emailRegex now oid body storage).1
       = 201%nat).
Proof.
  intros Hcoll Hfresh.
  assert (Hcreate : ∀ data,
            data !! "_id" = None →
            createContactMessage now oid data storage
            = Ok (<["_id" := VStr (Bson.toHexString oid)]>
                    (<["isRead" := VBool false]>
                       (<["createdAt" := VDate now]> data)),
                  setContactMessages storage
                    (coll ++ [<["_id" := VOid oid]>
                                (<["isRead" := VBool false]>
                                   (<["createdAt" := VDate now]> data))]))).
  { intros data Hnone. unfold createContactMessage. rewrite Hcoll. simpl.
    rewrite insertOne_fresh; [reflexivity | | ].
    - rewrite !lookup_insert_ne by discriminate. exact Hnone.
    - intros x k Hx [<- | []]. rewrite lookup_insert_eq. auto. }
  split.
  - unfold POST_api_contact.
    destruct (object_parse emailRegex insertContactMessageSchema body)
      as [data | errors] eqn:Hparse; [ | left; eauto ].
    right.
    assert (Hnone : data !! "_id" = None).
    { apply (object_parse_dom emailRegex _ body data "_id" Hparse).
      simpl. intuition discriminate. }
    rewrite (Hcreate data Hnone). eexists.
    split; [reflexivity | ]. split; [reflexivity | ].
    split; [apply lookup_insert_eq | ].
    split.
    { rewrite !lookup_insert_ne by discriminate. apply lookup_insert_eq. }
    split.
    { rewrite lookup_insert_ne by discriminate. apply lookup_insert_eq. }
    split.
    + intros k Hk.
      assert (Hdata : data !! k = body !! k).
      { assert (Hfield : ∃ t checks,
                  In (k, t) insertContactMessageSchema
                  ∧ (t = z_string checks ∨ t = z_optional (z_string checks))).
        { simpl in Hk.
          destruct Hk as [<- | [<- | [<- | [<- | [<- | []]]]]];
            eexists _, _; (split; [simpl; eauto 10 | eauto]). }
        destruct Hfield as (t & checks & Hin & Ht).
        pose proof (object_parse_lookup emailRegex _ body data k t
                      insertContactMessageSchema_keys Hin Hparse) as Hl.
        apply (parse_string_same emailRegex checks).
        destruct Ht as [-> | ->]; auto. }
      simpl in Hk.
      rewrite !lookup_insert_ne
        by (intros <-; intuition discriminate).
      exact Hdata.
    + intros k Hk. simpl in Hk.
      rewrite !lookup_insert_ne by (intros <-; tauto).
      apply (object_parse_dom emailRegex _ body data k Hparse).
      simpl. tauto.
  - intros name mail subject message Hname Hname' Hmail Hmail' Hphone
      Hsubject Hsubject' Hmessage Hmessage'.
    unfold POST_api_contact.
    assert (Hlen : ∀ s, s ≠ "" → (JsString.length s <? 1)%nat = false).
    { intros s Hs. apply Nat.ltb_ge, JsString_length_nonempty. exact Hs. }
    assert (Hvalid : (parseShape emailRegex insertContactMessageSchema
                        body).1 = []).
    { apply parseShape_valid. intros k t Hin. simpl in Hin.
      destruct Hin as [[= <- <-] | [[= <- <-] | [[= <- <-] | [[= <- <-]
                      | [[= <- <-] | []]]]]]; simpl.
      - rewrite Hname. simpl. rewrite (Hlen name Hname'). eauto.
      - rewrite Hmail. simpl. rewrite Hmail'. eauto.
      - rewrite Hphone. eauto.
      - rewrite Hsubject. simpl. rewrite (Hlen subject Hsubject'). eauto.
      - rewrite Hmessage. simpl. rewrite (Hlen message Hmessage'). eauto. }
    unfold object_parse.
    pose proof (parseShape_dom emailRegex insertContactMessageSchema body
                  "_id") as Hdom.
    destruct (parseShape emailRegex insertContactMessageSchema body)
      as [issues data]. simpl in Hvalid, Hdom. subst issues.
    rewrite (Hcreate data); [reflexivity | ].
    apply Hdom. simpl. intuition discriminate.
Qed.

Lemma POST_api_contact_stores_unread_witness :
  contactMessagesCollection sampleStorage = Some [sampleMessage]
  ∧ status (POST_api_contact (fun _ => true) 7000 (sampleOid h7)
              submittedInquiry sampleStorage).1 = 201%nat
  ∧ column "isRead"
      (getAllContactMessages
         (POST_api_contact (fun _ => true) 7000 (sampleOid h7)
            submittedInquiry sampleStorage).2)
    = [Some (VBool false); Some (VBool true)].
Proof.
  split; [reflexivity | ].
  destruct (POST_api_contact_stores_unread (fun _ => true) 7000
              (sampleOid h7) submittedInquiry sampleStorage [sampleMessage])
    as [_ Haccept].
  - reflexivity.
  - intros d [<- | []]. vm_compute. discriminate.
  - split.
    + apply (Haccept "Visitor" "visitor@example.com" "Viewing"
               "May I visit?");
        try (vm_compute; reflexivity); discriminate.
    + vm_compute. reflexivity.
Defined.

(** ** Signing in *)

(** Distinctness of a field along a concrete collection. *)
Ltac distinct_fields :=
  repeat constructor; simpl;
  let H := fresh "H" in
  intros H; repeat destruct H as [H | H]; try contradiction;
  vm_compute in H; discriminate.

Lemma loginSchema_keys : List.NoDup (map fst loginSchema).
Proof. apply NoDup_ListNoDup, (bool_decide_unpack _). vm_compute. reflexivity. Qed.

(** What the login form lets through. *)
Lemma loginSchema_Success (emailRegex : string → bool)
    (body data : Document) :
  object_parse emailRegex loginSchema body = Success data →
  ∃ name pw,
    body !! "username" = Some (VStr name)
    ∧ data !! "username" = Some (VStr name)
    ∧ (3 ≤ JsString.length name)%nat
    ∧ body !! "password" = Some (VStr pw)
    ∧ data !! "password" = Some (VStr pw)
    ∧ (6 ≤ JsString.length pw)%nat.
Proof.
  intros Hparse.
  pose proof (object_parse_lookup emailRegex loginSchema body data
                "username" _ loginSchema_keys (or_introl eq_refl) Hparse)
    as Hname.
  pose proof (object_parse_lookup emailRegex loginSchema body data
                "password" _ loginSchema_keys
                (or_intror (or_introl eq_refl)) Hparse) as Hpw.
  apply parse_min_length in Hname as (name & ? & ? & ?).
  apply parse_min_length in Hpw as (pw & ? & ? & ?).
  eauto 10.
Qed.

Lemma loginSchema_accepts (emailRegex : string → bool) (body : Document)
    (name pw : string) :
  body !! "username" = Some (VStr name) → (3 ≤ JsString.length name)%nat →
  body !! "password" = Some (VStr pw) → (6 ≤ JsString.length pw)%nat →
  ∃ data, object_parse emailRegex loginSchema body = Success data
          ∧ data !! "username" = Some (VStr name)
          ∧ data !! "password" = Some (VStr pw).
Proof.
  intros Hname Hlen Hpw Hlen'.
  assert (Hvalid : (parseShape emailRegex loginSchema body).1 = []).
  { apply parseShape_valid. intros k t Hin. simpl in Hin.
    destruct Hin as [[= <- <-] | [[= <- <-] | []]]; eexists;
      apply parse_min_length; eauto. }
  destruct (object_parse emailRegex loginSchema body) as [data | errors]
    eqn:Hparse.
  - exists data. split; [reflexivity | ].
    destruct (loginSchema_Success emailRegex body data Hparse)
      as (name' & pw' & Hn & Hn' & _ & Hp & Hp' & _).
    split; congruence.
  - unfold object_parse in Hparse.
    destruct (parseShape emailRegex loginSchema body) as [[ | e es] o];
      simpl in Hvalid; discriminate.
Qed.

(** [pick] keeps only the fields it lists. *)
Lemma pick_dom (fields : list (string * string)) (user : Document)
    (k : string) :
  ¬ In k (map fst fields) → pick fields user !! k = None.
Proof.
  induction fields as [ | [out from] rest IH ]; simpl; intros Hk.
  - apply lookup_empty.
  - apply Decidable.not_or in Hk as [Hne Hk].
    destruct (user !! from); rewrite ?lookup_insert_ne by congruence; auto.
Qed.

(** Looking a user up by a name nobody else has. *)
Lemma findOne_unique (k : string) (v : Value) (coll : list Document)
    (d : Document) :
  List.NoDup (map (fun x => x !! k) coll) → In d coll → d !! k = Some v →
  Mongo.findOne [(k, Mongo.CEq v)] coll = Some d.
Proof.
  induction coll as [ | x rest IH ]; cbn [map In]; intros Hnodup Hin Hd;
    [contradiction | ].
  apply NoDup_cons_iff in Hnodup as [Hx Hnodup].
  unfold Mongo.findOne. cbn [List.find].
  destruct (Mongo.matches [(k, Mongo.CEq v)] x) eqn:Hmatch.
  - apply matches_eq in Hmatch. destruct Hin as [-> | Hin]; [reflexivity | ].
    exfalso. apply Hx. apply in_map_iff.
    exists d. split; [congruence | exact Hin].
  - destruct Hin as [-> | Hin].
    + apply (proj2 (matches_eq k v d)) in Hd. congruence.
    + apply IH; assumption.
Qed.

(** X10.  POST /api/login starts a session only for a stored user: when
    it answers 200 the user collection holds a user whose name and
    password are the strings of the body (a name of at least 3 and a
    password of at least 6 characters, counted as JavaScript counts
    them), the session carries that user's
    id, and the reply shows no password and nothing beyond [id],
    [username], [name], [role] and [email].  With any other answer the
    session is left as it was. *)
Theorem POST_api_login_sound (emailRegex : string → bool) (body : Document)
    (session : Session) (storage : MongoStorage) :
  (status (POST_api_login emailRegex body session storage).1 = 200%nat →
   ∃ coll user name pw id reply,
     usersCollection storage = Some coll
     ∧ In user coll
     ∧ body !! "username" = Some (VStr name)
     ∧ user !! "username" = Some (VStr name)
     ∧ (3 ≤ JsString.length name)%nat
     ∧ body !! "password" = Some (VStr pw)
     ∧ user !! "password" = Some (VStr pw)
     ∧ (6 ≤ JsString.length pw)%nat
     ∧ user !! "_id" = Some id
     ∧ (POST_api_login emailRegex body session storage).2
       = {| userId := Some (Mongo.idToString id) |}
     ∧ json (POST_api_login emailRegex body session storage).1 = JDoc reply
     ∧ (∀ k, ¬ In k ["id"; "username"; "name"; "role"; "email"] →
             reply !! k = None))
  ∧ (status (POST_api_login emailRegex body session storage).1 ≠ 200%nat →
     (POST_api_login emailRegex body session storage).2 = session).
Proof.
  unfold POST_api_login.
  destruct (object_parse emailRegex loginSchema body) as [data | errors]
    eqn:Hparse; [ | split; [discriminate | reflexivity] ].
  destruct (loginSchema_Success emailRegex body data Hparse)
    as (name & pw & Hname & Hname' & Hlen & Hpw & Hpw' & Hlen').
  unfold stringField. rewrite Hname'.
  unfold getUserByUsername.
  destruct (usersCollection storage) as [coll | ]; simpl;
    [ | split; [discriminate | reflexivity] ].
  destruct (Mongo.findOne [("username", Mongo.CEq (VStr name))] coll)
    as [user | ] eqn:Hfind; [ | split; [discriminate | reflexivity] ].
  apply findOne_Some in Hfind as [Hin Hmatch].
  apply matches_eq in Hmatch.
  destruct (field_eqb (user !! "password") (data !! "password")) eqn:Hsame;
    simpl; [ | split; [discriminate | reflexivity] ].
  apply field_eqb_eq in Hsame.
  destruct (user !! "_id") as [id | ] eqn:Hid;
    [ | split; [discriminate | reflexivity] ].
  split; [ | intros Hne; contradiction Hne; reflexivity ].
  intros _. exists coll, user, name, pw, id. eexists.
  repeat (split; [first [ eassumption | reflexivity | congruence ] | ]).
  intros k Hk.
  pose proof (pick_dom [("id", "_id"); ("username", "username");
                        ("name", "name"); ("role", "role");
                        ("email", "email")] user k Hk) as Hpick.
  simpl in Hpick. rewrite Hid in Hpick. exact Hpick.
Qed.

(** X11.  A password of fewer than six characters is refused with 400
    before the user collection is consulted, whatever it holds, and the
    session is left as it was; so the administrator that [seedData]
    creates with the password [Mm345] cannot sign in through this
    route. *)
Theorem POST_api_login_short_password (emailRegex : string → bool)
    (body : Document) (pw : string) (session : Session)
    (storage : MongoStorage) :
  body !! "password" = Some (VStr pw) → (JsString.length pw < 6)%nat →
  status (POST_api_login emailRegex body session storage).1 = 400%nat
  ∧ (POST_api_login emailRegex body session storage).2 = session.
Proof.
  intros Hpw Hlen. unfold POST_api_login.
  destruct (object_parse emailRegex loginSchema body) as [data | errors]
    eqn:Hparse; [ | split; reflexivity ].
  destruct (loginSchema_Success emailRegex body data Hparse)
    as (_ & pw' & _ & _ & _ & Hpw' & _ & Hlen').
  assert (pw' = pw) as -> by congruence. lia.
Qed.

Lemma POST_api_login_short_password_witness :
  seedAdmin !! "password" = Some (VStr "Mm345")
  ∧ status (POST_api_login (fun _ => true)
              (list_to_map [("username", VStr "aqarpanel");
                            ("password", VStr "Mm345")])
              {| userId := None |} (setUsers emptyStorage [seedAdmin])).1
    = 400%nat
  ∧ status (POST_api_login (fun _ => true)
              (list_to_map [("username", VStr "manager");
                            ("password", VStr "مرحبا")])
              {| userId := None |} staffedStorage).1
    = 400%nat.
Proof.
  split; [vm_compute; reflexivity | ].
  split.
  - apply (POST_api_login_short_password (fun _ => true) _ "Mm345").
    + vm_compute. reflexivity.
    + apply (bool_decide_unpack _). vm_compute. exact I.
  - apply (POST_api_login_short_password (fun _ => true) _ "مرحبا").
    + vm_compute. reflexivity.
    + apply (bool_decide_unpack _). vm_compute. exact I.
Defined.

(** Lengths are counted in characters, not in bytes: a name of two Arabic
    letters, four bytes long, is too short for the login form, and a
    password of five Arabic letters, ten bytes long, as well. *)
Example POST_api_login_counts_characters :
  JsString.length "مد" = 2%nat
  ∧ String.length "مد" = 4%nat
  ∧ JsString.length "مرحبا" = 5%nat
  ∧ POST_api_login (fun _ => true)
      (list_to_map [("username", VStr "مد");
                    ("password", VStr "S3cret-pass")])
      {| userId := None |} staffedStorage
    = (respond 400
         (JMessage "اسم المستخدم يجب أن يكون 3 أحرف على الأقل"),
       {| userId := None |}).
Proof. repeat split; vm_compute; reflexivity. Qed.

Lemma POST_api_login_stored (emailRegex : string → bool)
    (body user : Document) (name pw : string) (oid : ObjectId)
    (session : Session) (storage : MongoStorage) (coll : list Document) :
  usersCollection storage = Some coll →
  List.NoDup (usernamesOf coll) →
  In user coll →
  user !! "username" = Some (VStr name) →
  user !! "password" = Some (VStr pw) →
  user !! "_id" = Some (VOid oid) →
  body !! "username" = Some (VStr name) → (3 ≤ JsString.length name)%nat →
  body !! "password" = Some (VStr pw) → (6 ≤ JsString.length pw)%nat →
  POST_api_login emailRegex body session storage
  = (respond 200
       (JDoc (pick [("id", "_id"); ("username", "username");
                    ("name", "name"); ("role", "role");
                    ("email", "email")] user)),
     {| userId := Some (Bson.toHexString oid) |}).
Proof.
  intros Hcoll Hnodup Hin Huser Hpass Hid Hname Hlen Hpw Hlen'.
  destruct (loginSchema_accepts emailRegex body name pw Hname Hlen Hpw Hlen')
    as (data & Hparse & Hdname & Hdpw).
  unfold POST_api_login. rewrite Hparse.
  unfold stringField. rewrite Hdname.
  unfold getUserByUsername. rewrite Hcoll. simpl.
  rewrite (findOne_unique "username" (VStr name) coll user Hnodup Hin Huser).
  rewrite Hpass, Hdpw, Hid.
  replace (field_eqb (Some (VStr pw)) (Some (VStr pw))) with true
    by (symmetry; apply field_eqb_eq; reflexivity).
  reflexivity.
Qed.

(** X12.  With user names distinct, as the unique index keeps them, a
    stored user who sends their name (3 characters or more) and their
    password (6 or more) is signed in: the answer is 200, the reply
    carries the user's id, name and role as stored, and the session
    carries the hexadecimal form of the user's id. *)
Theorem POST_api_login_accepts (emailRegex : string → bool)
    (body user : Document) (name pw : string) (oid : ObjectId)
    (session : Session) (storage : MongoStorage) (coll : list Document) :
  usersCollection storage = Some coll →
  List.NoDup (usernamesOf coll) →
  In user coll →
  user !! "username" = Some (VStr name) →
  user !! "password" = Some (VStr pw) →
  user !! "_id" = Some (VOid oid) →
  body !! "username" = Some (VStr name) → (3 ≤ JsString.length name)%nat →
  body !! "password" = Some (VStr pw) → (6 ≤ JsString.length pw)%nat →
  status (POST_api_login emailRegex body session storage).1 = 200%nat
  ∧ (POST_api_login emailRegex body session storage).2
    = {| userId := Some (Bson.toHexString oid) |}
  ∧ ∃ reply,
      json (POST_api_login emailRegex body session storage).1 = JDoc reply
      ∧ reply !! "id" = Some (VOid oid)
      ∧ reply !! "username" = Some (VStr name)
      ∧ reply !! "role" = user !! "role"
      ∧ reply !! "password" = None.
Proof.
  intros Hcoll Hnodup Hin Huser Hpass Hid Hname Hlen Hpw Hlen'.
  rewrite (POST_api_login_stored emailRegex body user name pw oid session
             storage coll) by assumption.
  split; [reflexivity | ]. split; [reflexivity | ].
  eexists. split; [reflexivity | ].
  split; [ | split; [ | split ] ].
  - simpl. rewrite Hid. apply lookup_insert_eq.
  - simpl. rewrite Hid, Huser.
    rewrite lookup_insert_ne by discriminate. apply lookup_insert_eq.
  - simpl. rewrite Hid, Huser.
    rewrite !lookup_insert_ne by discriminate.
    destruct (user !! "name");
      rewrite ?lookup_insert_ne by discriminate;
      (destruct (user !! "role") as [r | ];
       [ apply lookup_insert_eq
       | destruct (user !! "email");
         rewrite ?lookup_insert_ne by discriminate; apply lookup_empty ]).
  - apply pick_dom. simpl. intuition discriminate.
Qed.

Lemma POST_api_login_accepts_witness :
  (POST_api_login (fun _ => true)
     (list_to_map [("username", VStr "manager");
                   ("password", VStr "S3cret-pass")])
     {| userId := None |} staffedStorage).2
  = {| userId := Some (Bson.toHexString (sampleOid h8)) |}.
Proof.
  apply (POST_api_login_accepts (fun _ => true) _ sampleAdmin "manager"
           "S3cret-pass" (sampleOid h8) _ staffedStorage
           [sampleAdmin; sampleClerk]);
    try exact eq_refl; try (apply (bool_decide_unpack _); vm_compute; exact I).
  - distinct_fields.
  - left. reflexivity.
Defined.

(** ** The administrator guard *)

Lemma getUser_by_id (storage : MongoStorage) (coll : list Document)
    (user : Document) (oid : ObjectId) :
  usersCollection storage = Some coll →
  List.NoDup (idsOf coll) → In user coll →
  user !! "_id" = Some (VOid oid) → length oid = 24%nat →
  getUser storage (Bson.toHexString oid) = Ok (Some user).
Proof.
  intros Hcoll Hnodup Hin Hid Hlen. unfold getUser. rewrite Hcoll. simpl.
  rewrite (newObjectId_toHexString oid Hlen). simpl.
  unfold Mongo.byId.
  rewrite (findOne_unique "_id" (VOid oid) coll user Hnodup Hin Hid).
  reflexivity.
Qed.

Lemma toHexString_nonempty (oid : ObjectId) :
  length oid = 24%nat → truthy (Some (VStr (Bson.toHexString oid))) = true.
Proof.
  destruct oid as [ | h rest]; [discriminate | ]. intros _.
  unfold Bson.toHexString. simpl. reflexivity.
Qed.

(** X13.  The session that a sign-in starts is one the administrator
    guard understands: with distinct user names and ids, after a stored
    user with a generated id signs in, [isAdmin] on the new session
    calls [next()] when the user's role is [admin], and answers 403
    otherwise; it never fails on the session's id. *)
Theorem login_then_isAdmin (emailRegex : string → bool)
    (body user : Document) (name pw : string) (oid : ObjectId)
    (session : Session) (storage : MongoStorage) (coll : list Document) :
  usersCollection storage = Some coll →
  List.NoDup (usernamesOf coll) →
  List.NoDup (idsOf coll) →
  In user coll →
  user !! "username" = Some (VStr name) →
  user !! "password" = Some (VStr pw) →
  user !! "_id" = Some (VOid oid) → length oid = 24%nat →
  body !! "username" = Some (VStr name) → (3 ≤ JsString.length name)%nat →
  body !! "password" = Some (VStr pw) → (6 ≤ JsString.length pw)%nat →
  (user !! "role" = Some (VStr "admin") →
   isAdmin (POST_api_login emailRegex body session storage).2 storage
   = Next)
  ∧ (user !! "role" ≠ Some (VStr "admin") →
     isAdmin (POST_api_login emailRegex body session storage).2 storage
     = Reply (respond 403 (JMessage "ليس لديك صلاحية للوصول"))).
Proof.
  intros Hcoll Hnames Hids Hin Huser Hpass Hid Hoid Hname Hlen Hpw Hlen'.
  rewrite (POST_api_login_stored emailRegex body user name pw oid session
             storage coll) by assumption.
  unfold isAdmin. cbn [snd userId].
  rewrite (toHexString_nonempty oid Hoid). cbn [negb].
  rewrite (getUser_by_id storage coll user oid) by assumption.
  destruct (field_eqb (user !! "role") (Some (VStr "admin"))) eqn:Hrole.
  - apply field_eqb_eq in Hrole. split; [reflexivity | contradiction].
  - split; [ | reflexivity ].
    intros Heq. apply field_eqb_eq in Heq. congruence.
Qed.

Lemma login_then_isAdmin_witness :
  isAdmin (POST_api_login (fun _ => true)
             (list_to_map [("username", VStr "manager");
                           ("password", VStr "S3cret-pass")])
             {| userId := None |} staffedStorage).2 staffedStorage = Next
  ∧ isAdmin (POST_api_login (fun _ => true)
               (list_to_map [("username", VStr "clerk");
                             ("password", VStr "clerk-pass")])
               {| userId := None |} staffedStorage).2 staffedStorage
    = Reply (respond 403 (JMessage "ليس لديك صلاحية للوصول")).
Proof.
  assert (Hnames : List.NoDup (usernamesOf [sampleAdmin; sampleClerk])).
  { distinct_fields. }
  assert (Hids : List.NoDup (idsOf [sampleAdmin; sampleClerk])).
  { distinct_fields. }
  split.
  - apply (login_then_isAdmin (fun _ => true) _ sampleAdmin "manager"
             "S3cret-pass" (sampleOid h8) {| userId := None |}
             staffedStorage [sampleAdmin; sampleClerk]);
      try assumption; try exact eq_refl; try (apply (bool_decide_unpack _); vm_compute; exact I).
    left. reflexivity.
  - apply (login_then_isAdmin (fun _ => true) _ sampleClerk "clerk"
             "clerk-pass" (sampleOid h9) {| userId := None |}
             staffedStorage [sampleAdmin; sampleClerk]);
      try assumption; try exact eq_refl; try (apply (bool_decide_unpack _); vm_compute; exact I).
    + right. left. reflexivity.
    + vm_compute. discriminate.
Defined.

(** ** User accounts *)

(** X14.  A user created with a fresh id, a name and an e-mail address
    nobody has yet is stored with the generated ObjectId and the server's
    clock and is otherwise the input (the password as it was given); the
    account is read back by the returned id string and by its name, and
    every user that could be looked up by name before still is. *)
Theorem createUser_round_trip (this : MongoStorage) (coll : list Document)
    (now : Z) (oid : ObjectId) (u : Document) (name : string) :
  usersCollection this = Some coll →
  length oid = 24%nat →
  u !! "_id" = None →
  u !! "username" = Some (VStr name) →
  (∀ x, In x coll → x !! "_id" ≠ Some (VOid oid)) →
  (∀ x, In x coll → x !! "username" ≠ Some (VStr name)) →
  (∀ x, In x coll → x !! "email" ≠ u !! "email") →
  ∃ created stored this',
    createUser now oid u this = Ok (created, this')
    ∧ usersCollection this' = Some (coll ++ [stored])
    ∧ created !! "_id" = Some (VStr (Bson.toHexString oid))
    ∧ stored !! "_id" = Some (VOid oid)
    ∧ stored !! "createdAt" = Some (VDate now)
    ∧ sameExcept ["_id"; "createdAt"] u stored
    ∧ getUser this' (Bson.toHexString oid) = Ok (Some stored)
    ∧ getUserByUsername this' name = Ok (Some stored)
    ∧ (∀ other d, getUserByUsername this other = Ok (Some d) →
                  getUserByUsername this' other = Ok (Some d)).
Proof.
  intros Hcoll Hlen Hnone Hname Hid Hfresh Hmail.
  set (stored := <["_id" := VOid oid]> (<["createdAt" := VDate now]> u)).
  assert (Hstored_id : stored !! "_id" = Some (VOid oid))
    by apply lookup_insert_eq.
  assert (Hstored_name : stored !! "username" = Some (VStr name)).
  { unfold stored. rewrite !lookup_insert_ne by discriminate. exact Hname. }
  exists (<["_id" := VStr (Bson.toHexString oid)]>
            (<["createdAt" := VDate now]> u)), stored,
         (setUsers this (coll ++ [stored])).
  split.
  { unfold createUser. rewrite Hcoll. simpl.
    rewrite (insertOne_fresh usersIndexes oid
               (<["createdAt" := VDate now]> u) coll); [reflexivity | | ].
    - rewrite lookup_insert_ne by discriminate. exact Hnone.
    - intros x k Hx [<- | [<- | [<- | []]]].
      + rewrite lookup_insert_eq. auto.
      + rewrite !lookup_insert_ne by discriminate. rewrite Hname. auto.
      + rewrite !lookup_insert_ne by discriminate. auto. }
  split; [reflexivity | ].
  split; [apply lookup_insert_eq | ].
  split; [exact Hstored_id | ].
  split.
  { unfold stored. rewrite lookup_insert_ne by discriminate.
    apply lookup_insert_eq. }
  split.
  { intros k Hk. unfold stored. simpl in Hk.
    rewrite !lookup_insert_ne by (intros <-; tauto). reflexivity. }
  split.
  { unfold getUser. simpl.
    rewrite newObjectId_toHexString by exact Hlen. simpl.
    f_equal. rewrite findOne_app.
    assert (Hnone' : Mongo.findOne (Mongo.byId oid) coll = None).
    { apply findOne_None. intros x Hx. apply matches_byId_false. auto. }
    rewrite Hnone'.
    assert (Hm : Mongo.matches (Mongo.byId oid) stored = true)
      by (apply matches_byId; exact Hstored_id).
    rewrite Hm. reflexivity. }
  split.
  { unfold getUserByUsername. simpl. f_equal. rewrite findOne_app.
    assert (Hnone' : Mongo.findOne
                       [("username", Mongo.CEq (VStr name))] coll = None).
    { apply findOne_None. intros x Hx. apply not_true_is_false.
      rewrite matches_eq. auto. }
    rewrite Hnone'.
    assert (Hm : Mongo.matches [("username", Mongo.CEq (VStr name))]
                   stored = true)
      by (apply matches_eq; exact Hstored_name).
    rewrite Hm. reflexivity. }
  intros other d. unfold getUserByUsername. rewrite Hcoll. simpl.
  intros [= Hfound]. f_equal. rewrite findOne_app, Hfound. reflexivity.
Qed.

Lemma createUser_round_trip_witness :
  usersCollection staffedStorage = Some [sampleAdmin; sampleClerk]
  ∧ ∃ (created stored : Document) this',
      createUser 7000 (sampleOid h7)
        (list_to_map [("username", VStr "agent"); ("password", VStr "pw");
                      ("email", VStr "agent@example.com")]) staffedStorage
      = Ok (created, this')
      ∧ getUserByUsername this' "agent" = Ok (Some stored)
      ∧ stored !! "password" = Some (VStr "pw").
Proof.
  split; [reflexivity | ].
  destruct (createUser_round_trip staffedStorage [sampleAdmin; sampleClerk]
              7000 (sampleOid h7)
              (list_to_map [("username", VStr "agent");
                            ("password", VStr "pw");
                            ("email", VStr "agent@example.com")]) "agent")
    as (created & stored & this' & Hcreate & _ & _ & _ & _ & Hsame & _
        & Hname & _).
  - reflexivity.
  - reflexivity.
  - vm_compute. reflexivity.
  - vm_compute. reflexivity.
  - intros x [<- | [<- | []]]; vm_compute; discriminate.
  - intros x [<- | [<- | []]]; vm_compute; discriminate.
  - intros x [<- | [<- | []]]; vm_compute; discriminate.
  - exists created, stored, this'. split; [exact Hcreate | ].
    split; [exact Hname | ].
    rewrite (Hsame "password"); [vm_compute; reflexivity | ].
    simpl. intuition discriminate.
Defined.

(** X15.  The unique indexes on [username] and [email] make a creation
    fail with a duplicate-key error when a stored user has the same name
    or the same e-mail address (or, like the new one, has none). *)
Theorem createUser_duplicate (this : MongoStorage) (coll : list Document)
    (now : Z) (oid : ObjectId) (u x : Document) :
  usersCollection this = Some coll →
  In x coll →
  x !! "username" = u !! "username" ∨ x !! "email" = u !! "email" →
  createUser now oid u this = Throw DuplicateKey.
Proof.
  intros Hcoll Hx Hsame. unfold createUser. rewrite Hcoll. simpl.
  unfold Mongo.insertOne.
  destruct Hsame as [Hsame | Hsame].
  - rewrite (violatesUnique_true _ _ _ x "username");
      [reflexivity | exact Hx | simpl; auto | ].
    rewrite !lookup_insert_ne by discriminate. exact Hsame.
  - rewrite (violatesUnique_true _ _ _ x "email");
      [reflexivity | exact Hx | simpl; auto | ].
    rewrite !lookup_insert_ne by discriminate. exact Hsame.
Qed.

Lemma createUser_duplicate_witness :
  createUser 7000 (sampleOid h7)
    (list_to_map [("username", VStr "agent"); ("password", VStr "pw");
                  ("email", VStr "clerk@example.com")]) staffedStorage
  = Throw DuplicateKey.
Proof.
  apply (createUser_duplicate staffedStorage [sampleAdmin; sampleClerk]
           7000 (sampleOid h7) _ sampleClerk).
  - reflexivity.
  - right. left. reflexivity.
  - right. vm_compute. reflexivity.
Defined.

(** ** Seeding and initialization *)

Lemma createTestimonial_then_approve {A : Type} (this : MongoStorage)
    (coll : list Document) (now : Z) (oid : ObjectId) (t : Document)
    (k : bool * MongoStorage → Result A) :
  testimonialsCollection this = Some coll →
  length oid = 24%nat →
  t !! "_id" = None →
  (∀ d, In d coll → d !! "_id" ≠ Some (VOid oid)) →
  (created ← createTestimonial now oid t this;
   approved ←
     approveTestimonial
       (Mongo.idToString (default VNull (created.1 !! "_id"))) created.2;
   k approved)
  = k (true,
       setTestimonials this
         (coll ++ [approvedTestimonial {| at_ := now; oid_ := oid |} t])).
Proof.
  intros Hcoll Hlen Hnone Hfresh.
  set (newTestimonial :=
         <["isApproved" := VBool false]> (<["createdAt" := VDate now]> t)).
  assert (Hnew_id : newTestimonial !! "_id" = None).
  { unfold newTestimonial. rewrite !lookup_insert_ne by discriminate.
    exact Hnone. }
  unfold createTestimonial. rewrite Hcoll. simpl. fold newTestimonial.
  rewrite (insertOne_fresh [] oid newTestimonial coll Hnew_id).
  2:{ intros x j Hx [<- | []]. rewrite lookup_insert_eq. auto. }
  simpl. rewrite lookup_insert_eq. simpl.
  unfold approveTestimonial. simpl.
  rewrite newObjectId_toHexString by exact Hlen. simpl.
  rewrite updateOne_matched;
    [ | exact Hfresh | apply lookup_insert_eq
      | apply lookup_singleton_ne; discriminate ].
  rewrite violatesUnique_nil, isNoop_flag, applySet_flag.
  assert (Hflag : <["_id" := VOid oid]> newTestimonial !! "isApproved"
                  = Some (VBool false)).
  { unfold newTestimonial. rewrite lookup_insert_ne by discriminate.
    apply lookup_insert_eq. }
  rewrite Hflag. reflexivity.
Qed.

Lemma seed_without_id :
  seedAdmin !! "_id" = None
  ∧ Forall (fun d : Document => d !! "_id" = None) seedProperties
  ∧ Forall (fun d : Document => d !! "_id" = None) seedTestimonials.
Proof.
  split; [vm_compute; reflexivity | ].
  split; repeat constructor; vm_compute; reflexivity.
Qed.

Lemma seed_codes :
  nth 0 seedProperties ∅ !! "propertyCode" = Some (VStr "SA-12345")
  ∧ nth 1 seedProperties ∅ !! "propertyCode" = Some (VStr "SA-12346")
  ∧ nth 2 seedProperties ∅ !! "propertyCode" = Some (VStr "SA-12347").
Proof. repeat split; vm_compute; reflexivity. Qed.

Lemma stamped_lookup (dr : Draw) (d : Document) (k : string) :
  k ≠ "_id" → k ≠ "createdAt" → stamped dr d !! k = d !! k.
Proof.
  intros H1 H2. unfold stamped. rewrite !lookup_insert_ne by congruence.
  reflexivity.
Qed.

Lemma seedData_empty (draw : nat → Draw) :
  length (oid_ (draw 4%nat)) = 24%nat →
  length (oid_ (draw 5%nat)) = 24%nat →
  oid_ (draw 1%nat) ≠ oid_ (draw 2%nat) →
  oid_ (draw 1%nat) ≠ oid_ (draw 3%nat) →
  oid_ (draw 2%nat) ≠ oid_ (draw 3%nat) →
  oid_ (draw 4%nat) ≠ oid_ (draw 5%nat) →
  seedData draw emptyStorage
  = Ok {| usersCollection := Some [stamped (draw 0%nat) seedAdmin];
          propertiesCollection := Some (stampedFrom draw 1 seedProperties);
          contactMessagesCollection := Some [];
          testimonialsCollection :=
            Some (approvedFrom draw 4 seedTestimonials) |}.
Proof.
  intros Hlen4 Hlen5 H12 H13 H23 H45.
  destruct seed_without_id as (Hadmin & Hprops & Htests).
  destruct seed_codes as (Hc1 & Hc2 & Hc3).
  unfold seedData, createUser. simpl handle. cbn [mbind Result_bind].
  rewrite (insertOne_fresh usersIndexes (oid_ (draw 0%nat))
             (<["createdAt" := VDate (at_ (draw 0%nat))]> seedAdmin) []).
  2:{ rewrite lookup_insert_ne by discriminate. exact Hadmin. }
  2:{ intros x k []. }
  cbn [mbind Result_bind mret Result_ret snd app].
  unfold seedProperties in *.
  apply Forall_cons_iff in Hprops as [Hp1 Hprops].
  apply Forall_cons_iff in Hprops as [Hp2 Hprops].
  apply Forall_cons_iff in Hprops as [Hp3 _].
  cbn [nth] in Hc1, Hc2, Hc3.
  cbn [createProperties stampedFrom].
  erewrite createProperty_fresh;
    [ | reflexivity | exact Hp1 | intros x [] | intros x [] ].
  cbn [mbind Result_bind snd app].
  erewrite createProperty_fresh;
    [ | reflexivity | exact Hp2 | | ].
  2:{ intros x [<- | []]. fold (stamped (draw 1%nat)).
      unfold stamped. rewrite lookup_insert_eq. congruence. }
  2:{ intros x [<- | []]. rewrite !lookup_insert_ne by discriminate.
      rewrite Hc1, Hc2. discriminate. }
  cbn [mbind Result_bind snd app].
  erewrite createProperty_fresh;
    [ | reflexivity | exact Hp3 | | ].
  2:{ intros x [<- | [<- | []]]; rewrite lookup_insert_eq; congruence. }
  2:{ intros x [<- | [<- | []]]; rewrite !lookup_insert_ne by discriminate;
        rewrite ?Hc1, ?Hc2, Hc3; discriminate. }
  cbn [mbind Result_bind snd app].
  unfold seedTestimonials in *.
  apply Forall_cons_iff in Htests as [Ht1 Htests].
  apply Forall_cons_iff in Htests as [Ht2 _].
  cbn [createApprovedTestimonials approvedFrom].
  erewrite createTestimonial_then_approve;
    [ | reflexivity | exact Hlen4 | exact Ht1 | intros d [] ].
  cbn [snd app createApprovedTestimonials].
  erewrite createTestimonial_then_approve;
    [ | reflexivity | exact Hlen5 | exact Ht2 | ].
  2:{ intros d [<- | []]. unfold approvedTestimonial.
      rewrite lookup_insert_ne by discriminate. rewrite lookup_insert_eq.
      cbn [oid_]. congruence. }
  destruct (draw 4%nat), (draw 5%nat). reflexivity.
Qed.

(** X16.  On empty collections, with well-formed and distinct generated
    ids, [seedData] succeeds and leaves: one user, the administrator
    [aqarpanel], found by name; the three sample properties under the
    codes SA-12345, SA-12346 and SA-12347, in that order; both sample
    testimonials approved, so that the public listing shows the two of
    them; and no contact message. *)
Theorem seedData_fills_empty_store (draw : nat → Draw) :
  length (oid_ (draw 4%nat)) = 24%nat →
  length (oid_ (draw 5%nat)) = 24%nat →
  oid_ (draw 1%nat) ≠ oid_ (draw 2%nat) →
  oid_ (draw 1%nat) ≠ oid_ (draw 3%nat) →
  oid_ (draw 2%nat) ≠ oid_ (draw 3%nat) →
  oid_ (draw 4%nat) ≠ oid_ (draw 5%nat) →
  ∃ this' admin,
    seedData draw emptyStorage = Ok this'
    ∧ usersCollection this' = Some [admin]
    ∧ getUserByUsername this' "aqarpanel" = Ok (Some admin)
    ∧ admin !! "role" = Some (VStr "admin")
    ∧ admin !! "_id" = Some (VOid (oid_ (draw 0%nat)))
    ∧ propertiesCollection this' = Some (stampedFrom draw 1 seedProperties)
    ∧ codesOf (stampedFrom draw 1 seedProperties)
      = [Some (VStr "SA-12345"); Some (VStr "SA-12346");
         Some (VStr "SA-12347")]
    ∧ testimonialsCollection this'
      = Some (approvedFrom draw 4 seedTestimonials)
    ∧ getApprovedTestimonials this'
      = Ok (approvedFrom draw 4 seedTestimonials)
    ∧ length (approvedFrom draw 4 seedTestimonials) = 2%nat
    ∧ getAllContactMessages this' = Ok [].
Proof.
  intros Hlen4 Hlen5 H12 H13 H23 H45.
  eexists _, (stamped (draw 0%nat) seedAdmin).
  split; [apply seedData_empty; assumption | ].
  split; [reflexivity | ].
  assert (Hname : stamped (draw 0%nat) seedAdmin !! "username"
                  = Some (VStr "aqarpanel")).
  { rewrite stamped_lookup by discriminate. vm_compute. reflexivity. }
  split.
  { unfold getUserByUsername. simpl handle.
    cbn [mbind Result_bind mret Result_ret]. apply f_equal.
    apply (findOne_unique "username" (VStr "aqarpanel")
             [stamped (draw 0%nat) seedAdmin]);
      [ repeat constructor; intros [] | left; reflexivity | exact Hname ]. }
  split.
  { rewrite stamped_lookup by discriminate. vm_compute. reflexivity. }
  split; [apply lookup_insert_eq | ].
  split; [reflexivity | ].
  split.
  { destruct seed_codes as (Hc1 & Hc2 & Hc3).
    unfold codesOf, seedProperties in *. cbn [nth] in Hc1, Hc2, Hc3.
    cbn [stampedFrom map].
    rewrite !stamped_lookup by discriminate.
    rewrite Hc1, Hc2, Hc3. reflexivity. }
  split; [reflexivity | ].
  split.
  { unfold getApprovedTestimonials. simpl handle.
    cbn [mbind Result_bind mret Result_ret]. apply f_equal.
    unfold seedTestimonials. cbn [approvedFrom]. unfold Mongo.find.
    cbn [List.filter].
    rewrite !(proj2 (matches_isApproved _)); [reflexivity | | ];
      apply lookup_insert_eq. }
  split; reflexivity.
Qed.

Lemma seedData_fills_empty_store_witness :
  ∃ this' : MongoStorage,
    seedData seedDraw emptyStorage = Ok this'
    ∧ getApprovedTestimonials this'
      = Ok (approvedFrom seedDraw 4 seedTestimonials).
Proof.
  destruct (seedData_fills_empty_store seedDraw)
    as (this' & admin & Hseed & _ & _ & _ & _ & _ & _ & _ & Hpublic & _).
  - reflexivity.
  - reflexivity.
  - vm_compute. discriminate.
  - vm_compute. discriminate.
  - vm_compute. discriminate.
  - vm_compute. discriminate.
  - exists this'. split; assumption.
Defined.

(** A unique index can be built exactly on a collection whose documents
    differ in the field. *)
Lemma hasDuplicate_false (k : string) (coll : list Document) :
  Driver.hasDuplicate k coll = false
  ↔ List.NoDup (map (fun d => d !! k) coll).
Proof.
  induction coll as [ | d rest IH ]; cbn [Driver.hasDuplicate map].
  - split; [constructor | reflexivity].
  - rewrite orb_false_iff, IH, NoDup_cons_iff.
    assert (Hin : existsb (fun o => field_eqb (o !! k) (d !! k)) rest = false
                  ↔ ¬ In (d !! k) (map (fun x => x !! k) rest)).
    { rewrite <- not_true_iff_false, existsb_exists, in_map_iff.
      split; intros Hno (x & Hx & Hx'); apply Hno; exists x.
      - split; [exact Hx' | ]. apply field_eqb_eq. exact Hx.
      - split; [apply field_eqb_eq; tauto | tauto]. }
    rewrite Hin. reflexivity.
Qed.

Lemma createUniqueIndex_Ok (k : string) (coll : list Document) :
  List.NoDup (map (fun d => d !! k) coll) →
  Driver.createUniqueIndex k coll = Ok tt.
Proof.
  intros Hnodup. unfold Driver.createUniqueIndex.
  rewrite (proj2 (hasDuplicate_false k coll) Hnodup). reflexivity.
Qed.

(** X17.  [initialize] seeds only a database without users.  On a
    database that holds a user, and in which user names, e-mail
    addresses and property codes are distinct, it binds the four
    collections as they are (even when there are no properties or
    testimonials) and sets [initialized]; on the empty database it
    leaves what [seedData] leaves. *)
Theorem initialize_seeds_only_without_users (draw : nat → Draw)
    (db : Database) (self : Instance) :
  initialized self = false →
  List.NoDup (usernamesOf (users db)) →
  List.NoDup (map (fun d => d !! "email") (users db)) →
  List.NoDup (codesOf (properties db)) →
  (users db ≠ [] →
   initialize draw db self
   = Ok {| handles := collectionsOf db; initialized := true |})
  ∧ (users db = [] →
     initialize draw db self
     = (this' ← seedData draw (collectionsOf db);
        mret {| handles := this'; initialized := true |})).
Proof.
  intros Hfresh Hnames Hmails Hcodes. unfold initialize. rewrite Hfresh.
  rewrite !createUniqueIndex_Ok by assumption.
  cbn [mbind Result_bind]. unfold Driver.countDocuments.
  split; intros Husers.
  - unfold collectionsOf.
    destruct (users db) as [ | u rest ]; [contradiction | reflexivity].
  - unfold collectionsOf. rewrite Husers. reflexivity.
Qed.

Lemma initialize_seeds_only_without_users_witness :
  initialize seedDraw
    {| users := [sampleAdmin]; properties := []; contact_messages := [];
       testimonials := [] |}
    {| handles := emptyStorage; initialized := false |}
  = Ok {| handles := setUsers emptyStorage [sampleAdmin];
          initialized := true |}.
Proof.
  apply (initialize_seeds_only_without_users seedDraw
           {| users := [sampleAdmin]; properties := [];
              contact_messages := []; testimonials := [] |}
           {| handles := emptyStorage; initialized := false |}).
  - reflexivity.
  - repeat constructor. intros [].
  - repeat constructor. intros [].
  - constructor.
  - discriminate.
Defined.

(** X18.  A database without users whose properties already include one
    of the sample codes cannot be initialized: the seeding runs, its
    first property creation hits the unique index on [propertyCode], and
    [initialize] fails with the duplicate-key error. *)
Theorem initialize_reseed_collision (draw : nat → Draw) (db : Database)
    (self : Instance) (x : Document) :
  initialized self = false →
  users db = [] →
  List.NoDup (codesOf (properties db)) →
  In x (properties db) →
  x !! "propertyCode" = Some (VStr "SA-12345") →
  initialize draw db self = Throw DuplicateKey.
Proof.
  intros Hfresh Husers Hcodes Hx Hcode. unfold initialize.
  rewrite Hfresh, Husers.
  rewrite !createUniqueIndex_Ok by (assumption || constructor).
  cbn [mbind Result_bind Driver.countDocuments length Nat.eqb].
  destruct seed_without_id as (Hadmin & _ & _).
  destruct seed_codes as (Hc1 & _ & _).
  unfold seedData, createUser. simpl handle. cbn [mbind Result_bind].
  rewrite (insertOne_fresh usersIndexes (oid_ (draw 0%nat))
             (<["createdAt" := VDate (at_ (draw 0%nat))]> seedAdmin) []).
  2:{ rewrite lookup_insert_ne by discriminate. exact Hadmin. }
  2:{ intros y k []. }
  cbn [mbind Result_bind mret Result_ret snd app].
  unfold seedProperties in *. cbn [nth] in Hc1. cbn [createProperties].
  erewrite (createProperty_taken _ (properties db) _ _ _ x);
    [reflexivity | reflexivity | exact Hx | ].
  rewrite Hcode, Hc1. reflexivity.
Qed.

Lemma initialize_reseed_collision_witness :
  initialize seedDraw
    {| users := []; properties := [sampleVilla]; contact_messages := [];
       testimonials := [] |}
    {| handles := emptyStorage; initialized := false |}
  = Throw DuplicateKey.
Proof.
  apply (initialize_reseed_collision seedDraw _ _ sampleVilla).
  - reflexivity.
  - reflexivity.
  - repeat constructor. intros [].
  - left. reflexivity.
  - vm_compute. reflexivity.
Defined.

(** X19.  [initialize] runs once: whenever it succeeds the instance is
    marked initialized, and every later call returns the instance as it
    is, whatever the database then holds; nothing is seeded or rebound a
    second time. *)
Theorem initialize_once (draw : nat → Draw) (db : Database)
    (self inst : Instance) :
  initialize draw db self = Ok inst →
  initialized inst = true
  ∧ ∀ draw' db', initialize draw' db' inst = Ok inst.
Proof.
  intros Hinit.
  assert (Hflag : initialized inst = true).
  { unfold initialize in Hinit.
    destruct (initialized self) eqn:Hself; [congruence | ].
    destruct (Driver.createUniqueIndex "username" (users db));
      [ | discriminate ].
    destruct (Driver.createUniqueIndex "email" (users db));
      [ | discriminate ].
    destruct (Driver.createUniqueIndex "propertyCode" (properties db));
      [ | discriminate ].
    cbn [mbind Result_bind] in Hinit.
    destruct (if (Driver.countDocuments (users db) =? 0)%nat then _ else _);
      [ | discriminate ].
    injection Hinit as <-. reflexivity. }
  split; [exact Hflag | ].
  intros draw' db'. unfold initialize. rewrite Hflag. reflexivity.
Qed.

Lemma initialize_once_witness :
  ∃ inst, initialize seedDraw emptyDatabase
            {| handles := emptyStorage; initialized := false |} = Ok inst
          ∧ initialize seedDraw
              {| users := []; properties := [sampleVilla];
                 contact_messages := []; testimonials := [] |} inst
            = Ok inst.
Proof.
  assert (Hseed : ∃ this', seedData seedDraw emptyStorage = Ok this').
  { eexists. apply seedData_empty;
      [ reflexivity | reflexivity | .. ]; vm_compute; discriminate. }
  destruct Hseed as [this' Hseed].
  exists {| handles := this'; initialized := true |}.
  assert (Hinit : initialize seedDraw emptyDatabase
                    {| handles := emptyStorage; initialized := false |}
                  = Ok {| handles := this'; initialized := true |}).
  { unfold initialize. cbn [initialized users properties emptyDatabase].
    change (Driver.createUniqueIndex _ []) with (Ok tt : Result unit).
    cbn [mbind Result_bind Driver.countDocuments length Nat.eqb].
    change {| usersCollection := Some []; propertiesCollection := Some [];
              contactMessagesCollection := Some (contact_messages emptyDatabase);
              testimonialsCollection := Some (testimonials emptyDatabase) |}
      with emptyStorage.
    rewrite Hseed. reflexivity. }
  split; [exact Hinit | ].
  apply (initialize_once seedDraw emptyDatabase _ _ Hinit).
Defined.

(** ** Search: what the whole filter selects *)

Lemma matches_eqIfTruthy (k : string) (v : option string) (d : Document) :
  Mongo.matches (eqIfTruthy k v) d = true ↔ hasText k v d.
Proof.
  unfold eqIfTruthy, hasText. destruct v as [s | ].
  - simpl truthy. destruct (bool_decide_reflect (s = "")) as [-> | Hne];
      cbn [negb].
    + split; [intros _ s' [= <-] Hne; contradiction | reflexivity].
    + rewrite matches_eq. split.
      * intros Hd s' [= <-] _. exact Hd.
      * intros Hd. apply (Hd s); auto.
  - split; [intros _ s' [=] | reflexivity].
Qed.

Lemma matches_size (lo hi : option Qc) (d : Document) :
  Mongo.matches (rangeIfDefined "size" lo hi) d = true ↔ sizeWithin lo hi d.
Proof.
  unfold rangeIfDefined, sizeWithin, Mongo.matches.
  destruct lo as [x | ], hi as [y | ];
    try (split; [intros _; left; split; reflexivity | reflexivity]).
  all: simpl; destruct (d !! "size") as [[ | | n | | | | ] | ]; simpl.
  all: try (split; [discriminate | intros [[? ?] | (n' & ? & _)]; discriminate]).
  all: unfold Mongo.inRange;
    rewrite ?andb_true_r, ?andb_true_iff, ?bool_decide_eq_true; split.
  all: try (intros H; right; exists n; split; [reflexivity | ];
            split; intros ? [= <-]; tauto).
  all: try (intros H; right; exists n; split; [reflexivity | ];
            split; intros ? [= ]; tauto).
  all: intros [[? ?] | (n' & [= <-] & Hlo & Hhi)]; try discriminate;
    repeat split; auto.
Qed.

Lemma matches_price_within (lo hi : option Qc) (d : Document) :
  Mongo.matches (rangeIfDefined "price" lo hi) d = true
  ↔ priceWithin lo hi d.
Proof. rewrite matches_price. apply priceWithinb_spec. Qed.

(** The query document selects exactly the properties that satisfy every
    clause of the search. *)
Lemma matches_searchFilter (s : PropertySearch) (d : Document) :
  Mongo.matches (searchFilter s) d = true ↔ satisfies s d.
Proof.
  unfold searchFilter, satisfies.
  rewrite !matches_app, !andb_true_iff, !matches_eqIfTruthy,
    matches_price_within, matches_size.
  assert (Hrental :
            Mongo.matches
              match isRental s with
              | Some b => [("isRental", Mongo.CEq (VBool b))]
              | None => []
              end d = true
            ↔ ∀ b, isRental s = Some b → d !! "isRental" = Some (VBool b)).
  { destruct (isRental s) as [b | ].
    - rewrite matches_eq. split; [intros Hd b' [= <-]; exact Hd | auto].
    - split; [intros _ b' [=] | reflexivity]. }
  assert (Hbedrooms :
            Mongo.matches
              match bedrooms s with
              | Some n =>
                  if truthy (Some (VNum n))
                  then [("bedrooms", Mongo.CRange (Some n) None)] else []
              | None => []
              end d = true
            ↔ ∀ n, bedrooms s = Some n → n ≠ 0%Qc → bedroomsAtLeast n d).
  { destruct (bedrooms s) as [n | ].
    - destruct (truthy (Some (VNum n))) eqn:Hn.
      + rewrite matches_bedrooms, bedroomsAtLeastb_spec.
        apply truthy_num in Hn.
        split; [intros Hd n' [= <-] _; exact Hd | auto].
      + split; [ | reflexivity ].
        intros _ n' [= <-] Hne. apply truthy_num in Hne. congruence.
    - split; [intros _ n' [=] | reflexivity]. }
  rewrite Hrental, Hbedrooms. tauto.
Qed.

Lemma sublist_List_filter (p : Document → bool) (l : list Document) :
  sublist (List.filter p l) l.
Proof.
  induction l as [ | x xs IH ]; simpl; [constructor | ].
  destruct (p x); constructor; exact IH.
Qed.

(** X20.  [searchProperties] returns, newest first, a rearrangement of
    the stored properties that satisfy every clause of the search, and
    nothing else: the text fields given and non-empty are equal to the
    property's, [isRental] when given equals the property's, price and
    size lie within the bounds given, and [bedrooms] when given and
    non-zero is at most the property's. *)
Theorem searchProperties_exactly_the_matches (this : MongoStorage)
    (coll : list Document) (s : PropertySearch) :
  propertiesCollection this = Some coll →
  ∃ result kept,
    searchProperties this s = Ok result
    ∧ Permutation result kept
    ∧ sublist kept coll
    ∧ (∀ d, In d result ↔ In d coll ∧ satisfies s d)
    ∧ StronglySorted newestFirst result.
Proof.
  intros Hcoll. rewrite (searchProperties_unfold this coll s Hcoll).
  exists (Mongo.sortByCreatedAtDesc (Mongo.find (searchFilter s) coll)),
         (Mongo.find (searchFilter s) coll).
  split; [reflexivity | ].
  split; [apply sortByCreatedAtDesc_Permutation | ].
  split; [apply sublist_List_filter | ].
  split; [ | apply sortByCreatedAtDesc_sorted ].
  intros d. rewrite In_sortByCreatedAtDesc. unfold Mongo.find.
  rewrite filter_In, matches_searchFilter. reflexivity.
Qed.

Lemma searchProperties_exactly_the_matches_witness :
  ∃ result,
    searchProperties rentedStorage
      {| city := Some ""; area := None; neighborhood := None;
         type := Some "apartment"; minPrice := None; maxPrice := None;
         minSize := Some (Q2Qc 100); maxSize := None;
         bedrooms := Some (Q2Qc 0); isRental := Some true |} = Ok result
    ∧ ∀ d, In d result → d !! "isRental" = Some (VBool true).
Proof.
  destruct (searchProperties_exactly_the_matches rentedStorage
              [sampleVilla; rentedApartment; sampleLand]
              {| city := Some ""; area := None; neighborhood := None;
                 type := Some "apartment"; minPrice := None;
                 maxPrice := None; minSize := Some (Q2Qc 100);
                 maxSize := None; bedrooms := Some (Q2Qc 0);
                 isRental := Some true |} eq_refl)
    as (result & kept & Hsearch & _ & _ & Hin & _).
  exists result. split; [exact Hsearch | ].
  intros d Hd. apply Hin in Hd as (_ & _ & _ & _ & _ & Hrental & _).
  apply Hrental. reflexivity.
Defined.

(** ** The search route *)


Lemma firstMessage_Forall (P : string → Prop) (issues : list string) :
  issues ≠ [] → Forall P issues → P (firstMessage issues).
Proof.
  destruct issues as [ | m rest ]; [contradiction | ].
  intros _ Hall. apply Forall_cons_iff in Hall. tauto.
Qed.

Section SearchRouteFacts.

Variable parseFloat : string → Parsed_number.
Variable parseInt : string → Parsed_number.


Lemma ifGiven_empty {A : Type} (f : QueryValue → A)
    (query : gmap string QueryValue) (k j : string) :
  ifGiven f (<[k := QString ""]> query !! j)
  = ifGiven f (delete k query !! j).
Proof.
  destruct (decide (k = j)) as [-> | Hne].
  - rewrite lookup_insert_eq, lookup_delete_eq. reflexivity.
  - rewrite lookup_insert_ne, lookup_delete_ne by exact Hne. reflexivity.
Qed.

(** X21.  A query parameter sent empty counts as not sent: whatever the
    parameter and whatever else the query holds (strings, arrays or
    objects), [?k=] gives the answer of the query without [k]. *)
Theorem GET_api_properties_search_empty_parameter
    (query : gmap string QueryValue) (k : string)
    (storage : MongoStorage) :
  GET_api_properties_search parseFloat parseInt
    (<[k := QString ""]> query) storage
  = GET_api_properties_search parseFloat parseInt (delete k query) storage.
Proof.
  unfold GET_api_properties_search, searchParamsOf.
  rewrite !ifGiven_empty. reflexivity.
Qed.








End SearchRouteFacts.



(** A repeated [city] is refused with the message of the string schema,
    and a repeated [minPrice] is read through its text [1,2]. *)
Example GET_api_properties_search_repeated :
  GET_api_properties_search sampleParse sampleParse
    {["city" := QStrings ["a"; "b"]]} sampleStorage
  = Refused (respond 400 (JMessage "Expected string, received array"))
  ∧ toText (QStrings ["1"; "2"]) = "1,2".
Proof. split; vm_compute; reflexivity. Qed.

(** ** Updating a property through the route *)

Lemma Forall2_same {A : Type} (R : A → A → Prop) (l : list A) :
  (∀ x, R x x) → Forall2 R l l.
Proof. intros Hrefl. induction l; constructor; auto. Qed.

(** X24.  PUT /api/properties/:id writes nothing but fields of the
    property schema that the body sends: whatever the id and the body,
    the other collections are untouched, the property collection keeps
    its documents in place, and every field of every property is after
    the request either what it was or a schema field now equal to the
    body's value.  In particular [_id] and [createdAt] never change and
    keys the schema does not know are never stored. *)
Theorem PUT_api_properties_id_writes_only_sent_fields
    (emailRegex : string → bool) (id : string) (body : Document)
    (storage : MongoStorage) (coll : list Document) :
  propertiesCollection storage = Some coll →
  ∃ coll',
    (PUT_api_properties_id emailRegex id body storage).2
    = setProperties storage coll'
    ∧ Forall2
        (fun d d' : Document =>
           ∀ k, d' !! k = d !! k
                ∨ (In k (map fst insertPropertySchema)
                   ∧ body !! k ≠ None ∧ d' !! k = body !! k))
        coll coll'.
Proof.
  intros Hcoll.
  assert (Hsame : ∃ coll',
            storage = setProperties storage coll'
            ∧ Forall2
                (fun d d' : Document =>
                   ∀ k, d' !! k = d !! k
                        ∨ (In k (map fst insertPropertySchema)
                           ∧ body !! k ≠ None ∧ d' !! k = body !! k))
                coll coll').
  { exists coll. split.
    - symmetry. apply setProperties_same. exact Hcoll.
    - apply Forall2_same. auto. }
  unfold PUT_api_properties_id.
  destruct (object_parse emailRegex (partial insertPropertySchema) body)
    as [data | errors] eqn:Hparse; [ | exact Hsame ].
  pose proof (partial_parse_restricts emailRegex insertPropertySchema body
                data) as Hdata.
  specialize (fun k => Hdata k insertPropertySchema_keys Hparse).
  unfold updateProperty. rewrite Hcoll. simpl.
  destruct (Bson.newObjectId id) as [o | e]; [ | exact Hsame ]. simpl.
  destruct (collection_by_id o coll)
    as [Habsent | (pre & d & post & -> & Hd & Hpre)].
  - rewrite updateOne_unmatched by exact Habsent. simpl.
    exists coll. split; [reflexivity | apply Forall2_same; auto].
  - rewrite updateOne_matched; [ | exact Hpre | exact Hd | ].
    2:{ apply Hdata. simpl. intuition discriminate. }
    destruct (Mongo.isNoop data d).
    { simpl. exists (pre ++ d :: post).
      split; [reflexivity | apply Forall2_same; auto]. }
    destruct (Mongo.violatesUnique _ _ _); [exact Hsame | ].
    simpl. exists (pre ++ Mongo.applySet data d :: post).
    split; [reflexivity | ].
    apply Forall2_app; [apply Forall2_same; auto | ].
    constructor; [ | apply Forall2_same; auto ].
    intros k. unfold Mongo.applySet.
    destruct (data !! k) as [v | ] eqn:Hk.
    + right. rewrite (lookup_union_Some_l _ _ _ _ Hk).
      destruct (in_dec String.string_dec k (map fst insertPropertySchema))
        as [Hin | Hout].
      * rewrite (proj1 (Hdata k) Hin) in Hk.
        split; [exact Hin | ]. split; congruence.
      * rewrite (proj2 (Hdata k) Hout) in Hk. discriminate.
    + left. apply lookup_union_r. exact Hk.
Qed.

Lemma PUT_api_properties_id_writes_only_sent_fields_witness :
  ∃ coll',
    (PUT_api_properties_id (fun _ => true)
       (Bson.toHexString (sampleOid h1))
       (list_to_map [("price", VNum (Q2Qc 1)); ("_id", VStr "x");
                     ("owner", VStr "me")]) sampleStorage).2
    = setProperties sampleStorage coll'
    ∧ column "_id" (Ok coll') = column "_id" (Ok sampleProperties)
    ∧ column "owner" (Ok coll') = [None; None; None].
Proof.
  destruct (PUT_api_properties_id_writes_only_sent_fields (fun _ => true)
              (Bson.toHexString (sampleOid h1))
              (list_to_map [("price", VNum (Q2Qc 1)); ("_id", VStr "x");
                            ("owner", VStr "me")])
              sampleStorage sampleProperties eq_refl)
    as (coll' & Hput & Hframe).
  exists coll'. split; [exact Hput | ].
  assert (Hkeep : ∀ k, ¬ In k (map fst insertPropertySchema) →
            column k (Ok coll') = column k (Ok sampleProperties)).
  { intros k Hk. unfold column.
    clear Hput. induction Hframe as [ | d d' l l' Hd _ IH ];
      [reflexivity | ].
    simpl. f_equal; [ | exact IH ].
    destruct (Hd k) as [Heq | (Hin & _)]; [exact Heq | contradiction]. }
  split.
  - apply Hkeep. simpl. intuition discriminate.
  - rewrite Hkeep by (simpl; intuition discriminate).
    vm_compute. reflexivity.
Defined.

(** ** Sessions and guards *)

(** When [isAdmin] calls [next()], the session is that of a stored
    administrator. *)
Lemma isAdmin_Next (session : Session) (storage : MongoStorage) :
  isAdmin session storage = Next →
  ∃ uid o coll user,
    userId session = Some uid ∧ uid ≠ ""
    ∧ Bson.newObjectId uid = Ok o
    ∧ usersCollection storage = Some coll
    ∧ In user coll
    ∧ user !! "_id" = Some (VOid o)
    ∧ user !! "role" = Some (VStr "admin").
Proof.
  unfold isAdmin. destruct (userId session) as [uid | ]; [ | discriminate ].
  simpl truthy. destruct (bool_decide_reflect (uid = "")) as [-> | Hne];
    cbn [negb]; [discriminate | ].
  unfold getUser.
  destruct (usersCollection storage) as [coll | ]; [ | discriminate ].
  simpl. destruct (Bson.newObjectId uid) as [o | e] eqn:Ho;
    [ | discriminate ].
  simpl.
  destruct (Mongo.findOne (Mongo.byId o) coll) as [user | ] eqn:Hfind;
    [ | discriminate ].
  apply findOne_Some in Hfind as [Hin Hid]. apply matches_byId in Hid.
  destruct (field_eqb (user !! "role") (Some (VStr "admin"))) eqn:Hrole;
    [ | discriminate ].
  apply field_eqb_eq in Hrole. intros _.
  exists uid, o, coll, user.
  repeat split; first [assumption | reflexivity].
Qed.

Lemma isAdmin_Reply (session : Session) (storage : MongoStorage)
    (r : Response) :
  isAdmin session storage = Reply r →
  status r = 401%nat ∨ status r = 403%nat.
Proof.
  unfold isAdmin. destruct (userId session) as [uid | ];
    [ | intros [= <-]; auto ].
  destruct (negb _); [intros [= <-]; auto | ].
  destruct (getUser storage uid) as [[user | ] | e];
    [ | intros [= <-]; auto | discriminate ].
  destruct (field_eqb _ _); [discriminate | intros [= <-]; auto].
Qed.

(** X25.  The writing routes registered behind [isAdmin] (creating,
    updating and deleting a property, marking a message read, approving
    a testimonial) act only for a stored administrator: unless the
    session carries the id of a stored user whose role is [admin], the
    store is left exactly as it was and the answer, if there is one, is
    401 or 403. *)
Theorem adminRoute_only_for_administrators (emailRegex : string → bool)
    (session : Session) (req : AdminRequest) (storage : MongoStorage) :
  (∀ uid o coll user,
     userId session = Some uid → Bson.newObjectId uid = Ok o →
     usersCollection storage = Some coll → In user coll →
     user !! "_id" = Some (VOid o) →
     user !! "role" ≠ Some (VStr "admin")) →
  (adminRoute emailRegex session req storage).2 = storage
  ∧ ∀ r, (adminRoute emailRegex session req storage).1 = Answered r →
         status r = 401%nat ∨ status r = 403%nat.
Proof.
  intros Hnone. unfold adminRoute, behind.
  destruct (isAdmin session storage) as [ | r | e] eqn:Hguard.
  - apply isAdmin_Next in Hguard
      as (uid & o & coll & user & Huid & _ & Ho & Hcoll & Hin & Hid & Hrole).
    exfalso. exact (Hnone uid o coll user Huid Ho Hcoll Hin Hid Hrole).
  - split; [reflexivity | ]. intros r' [= <-].
    exact (isAdmin_Reply session storage r Hguard).
  - split; [reflexivity | discriminate].
Qed.

Lemma adminRoute_only_for_administrators_witness :
  (adminRoute (fun _ => true)
     {| userId := Some (Bson.toHexString (sampleOid h9)) |}
     (DELETE_properties (Bson.toHexString (sampleOid h1)))
     staffedStorage).2 = staffedStorage.
Proof.
  apply (adminRoute_only_for_administrators (fun _ => true)
           {| userId := Some (Bson.toHexString (sampleOid h9)) |}
           (DELETE_properties (Bson.toHexString (sampleOid h1)))
           staffedStorage).
  intros uid o coll user [= <-] Ho [= <-] Hin Hid.
  vm_compute in Ho. injection Ho as <-.
  destruct Hin as [<- | [<- | []]].
  - vm_compute in Hid. discriminate.
  - vm_compute. discriminate.
Defined.

(** X26.  A session from sign-in to sign-out: after a stored user with a
    generated id signs in, [isAuthenticated] lets the session through and
    GET /api/user answers 200 with that user's name and without the
    password; after POST /api/logout the same requests are refused with
    401, by [isAuthenticated], by GET /api/user and by [isAdmin]. *)
Theorem session_from_login_to_logout (emailRegex : string → bool)
    (body user : Document) (name pw : string) (oid : ObjectId)
    (session : Session) (storage : MongoStorage) (coll : list Document) :
  usersCollection storage = Some coll →
  List.NoDup (usernamesOf coll) →
  List.NoDup (idsOf coll) →
  In user coll →
  user !! "username" = Some (VStr name) →
  user !! "password" = Some (VStr pw) →
  user !! "_id" = Some (VOid oid) → length oid = 24%nat →
  body !! "username" = Some (VStr name) → (3 ≤ JsString.length name)%nat →
  body !! "password" = Some (VStr pw) → (6 ≤ JsString.length pw)%nat →
  let signedIn := (POST_api_login emailRegex body session storage).2 in
  let signedOut := (POST_api_logout signedIn).2 in
  isAuthenticated signedIn = Next
  ∧ (∃ reply,
       GET_api_user signedIn storage = respond 200 (JDoc reply)
       ∧ reply !! "id" = Some (VOid oid)
       ∧ reply !! "username" = Some (VStr name)
       ∧ reply !! "password" = None)
  ∧ (∃ r, isAuthenticated signedOut = Reply r ∧ status r = 401%nat)
  ∧ status (GET_api_user signedOut storage) = 401%nat
  ∧ (∃ r, isAdmin signedOut storage = Reply r ∧ status r = 401%nat).
Proof.
  intros Hcoll Hnames Hids Hin Huser Hpass Hid Hoid Hname Hlen Hpw Hlen'
    signedIn signedOut.
  assert (Hin' : signedIn = {| userId := Some (Bson.toHexString oid) |}).
  { unfold signedIn.
    rewrite (POST_api_login_stored emailRegex body user name pw oid session
               storage coll) by assumption.
    reflexivity. }
  pose proof (toHexString_nonempty oid Hoid) as Htruthy.
  split.
  { rewrite Hin'. unfold isAuthenticated. cbn [userId fmap option_fmap
      option_map]. rewrite Htruthy. reflexivity. }
  split.
  { rewrite Hin'. unfold GET_api_user. cbn [userId].
    rewrite Htruthy. cbn [negb].
    rewrite (getUser_by_id storage coll user oid) by assumption.
    eexists. split; [reflexivity | ].
    split; [ | split ].
    - simpl. rewrite Hid. apply lookup_insert_eq.
    - simpl. rewrite Hid, Huser.
      rewrite lookup_insert_ne by discriminate. apply lookup_insert_eq.
    - apply pick_dom. simpl. intuition discriminate. }
  split; [eexists; split; reflexivity | ].
  split; [reflexivity | ].
  eexists; split; reflexivity.
Qed.

Lemma session_from_login_to_logout_witness :
  isAuthenticated
    (POST_api_login (fun _ => true)
       (list_to_map [("username", VStr "clerk");
                     ("password", VStr "clerk-pass")])
       {| userId := None |} staffedStorage).2 = Next.
Proof.
  apply (session_from_login_to_logout (fun _ => true) _ sampleClerk "clerk"
           "clerk-pass" (sampleOid h9) {| userId := None |}
           staffedStorage [sampleAdmin; sampleClerk]);
    try exact eq_refl; try (apply (bool_decide_unpack _); vm_compute; exact I).
  - distinct_fields.
  - distinct_fields.
  - right. left. reflexivity.
Defined.

(** ** Listings *)

(** X27.  The administrator's listings of contact messages and of
    testimonials are rearrangements of the whole collection, newest
    first; the public testimonial listing is the part of the collection
    that is approved, in stored order, so a testimonial is public exactly
    when the administrator sees it approved. *)
Theorem listings_complete (this : MongoStorage)
    (messages testimonials : list Document) :
  contactMessagesCollection this = Some messages →
  testimonialsCollection this = Some testimonials →
  ∃ inbox everyone public,
    getAllContactMessages this = Ok inbox
    ∧ Permutation inbox messages
    ∧ StronglySorted newestFirst inbox
    ∧ getAllTestimonials this = Ok everyone
    ∧ Permutation everyone testimonials
    ∧ StronglySorted newestFirst everyone
    ∧ getApprovedTestimonials this = Ok public
    ∧ sublist public testimonials
    ∧ (∀ d, In d public
            ↔ In d everyone ∧ d !! "isApproved" = Some (VBool true)).
Proof.
  intros Hmessages Htestimonials.
  unfold getAllContactMessages, getAllTestimonials, getApprovedTestimonials.
  rewrite Hmessages, Htestimonials. simpl. rewrite !find_nil.
  eexists _, _, _.
  split; [reflexivity | ].
  split; [apply sortByCreatedAtDesc_Permutation | ].
  split; [apply sortByCreatedAtDesc_sorted | ].
  split; [reflexivity | ].
  split; [apply sortByCreatedAtDesc_Permutation | ].
  split; [apply sortByCreatedAtDesc_sorted | ].
  split; [reflexivity | ].
  split; [apply sublist_List_filter | ].
  intros d. rewrite In_sortByCreatedAtDesc. unfold Mongo.find.
  rewrite filter_In, matches_isApproved. reflexivity.
Qed.

Lemma listings_complete_witness :
  ∃ inbox everyone public,
    getAllContactMessages sampleStorage = Ok inbox
    ∧ Permutation inbox [sampleMessage]
    ∧ getAllTestimonials sampleStorage = Ok everyone
    ∧ getApprovedTestimonials sampleStorage = Ok public
    ∧ sublist public [sampleTestimonial].
Proof.
  destruct (listings_complete sampleStorage [sampleMessage]
              [sampleTestimonial] eq_refl eq_refl)
    as (inbox & everyone & public & H1 & H2 & _ & H3 & _ & _ & H4 & H5 & _).
  exists inbox, everyone, public. auto.
Defined.

(** ** Creating a property through the route *)

(** X28.  POST /api/properties with a body the schema accepts, a fresh
    id and a code no stored property has answers 201 and appends one
    property: it has the generated id, the server's clock and the fields
    of the parsed body, and its code is the one sent, or, when the code
    sent is the empty string (the only case in which one is generated),
    [SA-] followed by a number from 10000 to 99999, for every double in
    [0, 1) that [Math.random()] draws, the sum and the product being
    rounded as doubles are. *)
Theorem POST_api_properties_creates (emailRegex : string → bool)
    (random : Qc) (now : Z) (oid : ObjectId) (body data : Document)
    (storage : MongoStorage) (coll : list Document) :
  propertiesCollection storage = Some coll →
  object_parse emailRegex insertPropertySchema body = Success data →
  (0 ≤ random)%Qc → (random < 1)%Qc → Number.isDouble random →
  (∀ x, In x coll → x !! "_id" ≠ Some (VOid oid)) →
  (∀ x, In x coll →
        x !! "propertyCode"
        ≠ (if truthy (data !! "propertyCode") then data !! "propertyCode"
           else Some (VStr (generatePropertyCode random)))) →
  ∃ created stored,
    POST_api_properties emailRegex random now oid body storage
    = (respond 201 (JDoc created), setProperties storage (coll ++ [stored]))
    ∧ created !! "_id" = Some (VStr (Bson.toHexString oid))
    ∧ stored !! "_id" = Some (VOid oid)
    ∧ stored !! "createdAt" = Some (VDate now)
    ∧ (∀ k, ¬ In k ["_id"; "createdAt"; "propertyCode"] →
            stored !! k = data !! k ∧ created !! k = data !! k)
    ∧ created !! "propertyCode" = stored !! "propertyCode"
    ∧ (truthy (data !! "propertyCode") = true →
       stored !! "propertyCode" = body !! "propertyCode")
    ∧ (truthy (data !! "propertyCode") = false →
       body !! "propertyCode" = Some (VStr "")
       ∧ ∃ n : Z, (10000 ≤ n ≤ 99999)%Z
                  ∧ stored !! "propertyCode"
                    = Some (VStr (String.append "SA-" (pretty n)))).
Proof.
  intros Hcoll Hparse Hlo Hhi Hdouble Hid Hcode.
  assert (Hnone : data !! "_id" = None).
  { apply (object_parse_dom emailRegex _ body data "_id" Hparse).
    simpl. intuition discriminate. }
  assert (Hsent : data !! "propertyCode" = body !! "propertyCode").
  { apply (parse_string_same emailRegex []). left.
    apply (object_parse_lookup emailRegex insertPropertySchema body data
             "propertyCode" (z_string []) insertPropertySchema_keys);
      [simpl; auto 25 | exact Hparse]. }
  set (propertyData :=
         if negb (truthy (data !! "propertyCode"))
         then <["propertyCode" := VStr (generatePropertyCode random)]> data
         else data).
  assert (Hdata_id : propertyData !! "_id" = None).
  { unfold propertyData. destruct (negb _);
      rewrite ?lookup_insert_ne by discriminate; exact Hnone. }
  assert (Hdata_code :
            propertyData !! "propertyCode"
            = if truthy (data !! "propertyCode") then data !! "propertyCode"
              else Some (VStr (generatePropertyCode random))).
  { unfold propertyData. destruct (truthy (data !! "propertyCode")); simpl;
      [reflexivity | apply lookup_insert_eq]. }
  assert (Hdata_rest : ∀ k, k ≠ "propertyCode" →
                            propertyData !! k = data !! k).
  { intros k Hk. unfold propertyData. destruct (negb _);
      rewrite ?lookup_insert_ne by congruence; reflexivity. }
  unfold POST_api_properties. rewrite Hparse. fold propertyData.
  rewrite (createProperty_fresh storage coll now oid propertyData Hcoll
             Hdata_id Hid)
    by (rewrite Hdata_code; exact Hcode).
  eexists _, _. split; [reflexivity | ].
  split; [apply lookup_insert_eq | ].
  split; [apply lookup_insert_eq | ].
  split.
  { rewrite lookup_insert_ne by discriminate. apply lookup_insert_eq. }
  split.
  { intros k Hk. simpl in Hk.
    rewrite !lookup_insert_ne by (intros <-; tauto).
    rewrite Hdata_rest by (intros ->; tauto). auto. }
  split.
  { rewrite !lookup_insert_ne by discriminate. reflexivity. }
  rewrite !lookup_insert_ne by discriminate. rewrite Hdata_code.
  split; intros Htruthy; rewrite Htruthy.
  - exact Hsent.
  - split.
    + rewrite <- Hsent.
      assert (Hstring : ∃ s, data !! "propertyCode" = Some (VStr s)).
      { pose proof (object_parse_lookup emailRegex insertPropertySchema
                      body data "propertyCode" (z_string [])
                      insertPropertySchema_keys
                      ltac:(simpl; auto 25) Hparse) as Hfield.
        simpl in Hfield.
        destruct (body !! "propertyCode") as [[ | | | s | | | ] | ];
          try discriminate.
        injection Hfield as <-. eauto. }
      destruct Hstring as [s Hs]. rewrite Hs in Htruthy |- *.
      simpl in Htruthy. apply negb_false_iff, bool_decide_eq_true in Htruthy.
      congruence.
    + destruct (generatePropertyCode_five_digits random Hlo Hhi Hdouble)
        as (n & Hn & Hgen).
      exists n. split; [exact Hn | ]. rewrite Hgen. reflexivity.
Qed.

Lemma POST_api_properties_creates_witness :
  status (POST_api_properties (fun _ => true) (Q2Qc (1 # 2)) 5000
            (sampleOid h4) (<["propertyCode" := VStr ""]> bodyWithoutCode)
            sampleStorage).1 = 201%nat.
Proof.
  destruct (object_parse (fun _ => true) insertPropertySchema
              (<["propertyCode" := VStr ""]> bodyWithoutCode))
    as [data | errors] eqn:Hparse.
  - assert (Hcode : data !! "propertyCode" = Some (VStr "")).
    { symmetry.
      pose proof (object_parse_lookup (fun _ => true) insertPropertySchema
                    _ data "propertyCode" (z_string [])
                    insertPropertySchema_keys
                    ltac:(simpl; auto 25) Hparse) as Hfield.
      rewrite lookup_insert_eq in Hfield. simpl in Hfield. congruence. }
    destruct (POST_api_properties_creates (fun _ => true) (Q2Qc (1 # 2))
                5000 (sampleOid h4)
                (<["propertyCode" := VStr ""]> bodyWithoutCode) data
                sampleStorage sampleProperties eq_refl Hparse)
      as (created & stored & Hpost & _).
    + vm_compute. discriminate.
    + reflexivity.
    + vm_compute. reflexivity.
    + intros x [<- | [<- | [<- | []]]]; vm_compute; discriminate.
    + rewrite Hcode.
      intros x [<- | [<- | [<- | []]]]; vm_compute; discriminate.
    + rewrite Hpost. reflexivity.
  - vm_compute in Hparse. discriminate.
Defined.

(** ** Reading a property by its code *)

(** X29.  With property codes distinct, GET /api/properties/code/:code
    answers 200 with the stored property that has the code, and 404 when
    no stored property has it; on an initialized store it never answers
    500, and the property it returns is the one GET /api/properties/:id
    returns for that property's id. *)
Theorem GET_api_properties_code_finds (code : string)
    (storage : MongoStorage) (coll : list Document) :
  propertiesCollection storage = Some coll →
  List.NoDup (codesOf coll) →
  List.NoDup (idsOf coll) →
  status (GET_api_properties_code code storage) ≠ 500%nat
  ∧ ((∀ x, In x coll → x !! "propertyCode" ≠ Some (VStr code)) →
     status (GET_api_properties_code code storage) = 404%nat)
  ∧ (∀ d o, In d coll → d !! "propertyCode" = Some (VStr code) →
            GET_api_properties_code code storage = respond 200 (JDoc d)
            ∧ (d !! "_id" = Some (VOid o) → length o = 24%nat →
               GET_api_properties_id (Bson.toHexString o) storage
               = respond 200 (JDoc d))).
Proof.
  intros Hcoll Hcodes Hids.
  unfold GET_api_properties_code, getPropertyByCode. rewrite Hcoll. simpl.
  split; [ | split ].
  - destruct (Mongo.findOne _ coll); discriminate.
  - intros Habsent.
    assert (Hnone : Mongo.findOne
                      [("propertyCode", Mongo.CEq (VStr code))] coll = None).
    { apply findOne_None. intros x Hx. apply not_true_is_false.
      rewrite matches_eq. auto. }
    rewrite Hnone. reflexivity.
  - intros d o Hin Hd.
    rewrite (findOne_unique "propertyCode" (VStr code) coll d Hcodes Hin Hd).
    split; [reflexivity | ].
    intros Hid Hlen. unfold GET_api_properties_id.
    rewrite (getProperty_unfold storage coll _ Hcoll).
    rewrite (newObjectId_toHexString o Hlen). unfold Mongo.byId.
    rewrite (findOne_unique "_id" (VOid o) coll d Hids Hin Hid).
    reflexivity.
Qed.

Lemma GET_api_properties_code_finds_witness :
  status (GET_api_properties_code "SA-12346" sampleStorage) = 200%nat
  ∧ status (GET_api_properties_code "SA-00000" sampleStorage) = 404%nat.
Proof.
  destruct sampleProperties_distinct as [Hids Hcodes].
  destruct (GET_api_properties_code_finds "SA-12346"
              sampleStorage sampleProperties eq_refl Hcodes Hids)
    as (_ & _ & Hfound).
  destruct (GET_api_properties_code_finds "SA-00000"
              sampleStorage sampleProperties eq_refl Hcodes Hids)
    as (_ & Habsent & _).
  split.
  - destruct (Hfound sampleApartment (sampleOid h2)) as [-> _].
    + right. left. reflexivity.
    + vm_compute. reflexivity.
    + reflexivity.
  - apply Habsent.
    intros x [<- | [<- | [<- | []]]]; vm_compute; discriminate.
Defined.
